(** * Shallow embedding of package [appsec] (Akamai Application Security API
    binding) and verification of its request validators, URL builders,
    flexible-type JSON decoders, list post-filters and resource operations.

    Source files: [pkg/appsec/attack_group.go],
    [api_hostname_coverage_overlapping.go], [custom_deny.go] (which also holds
    the match-target and reputation-analysis resources),
    [reputation_profile.go], [configuration_clone.go], [version_notes.go].

    Conventions.  A Go [int] is a [Z]; a Go [string] is a [string]; a slice is
    a [list] (the nil slice and the empty slice are both [[]]); a pointer to a
    struct is an [option]; a method [T.m] lives in [Module T].  A Go function
    returning a pointer and an [error] returns a pair [(option T, option error)], where
    [None] is [nil]; a call that may panic has an [outcome]. *)

From Stdlib Require Import ZArith List String Ascii Bool Lia.
From Stdlib Require Import PrimFloat DecimalString.
From Stdlib.Strings Require Import Byte.
From Stdlib Require DecimalPos DecimalZ SpecFloat FloatOps.
Import ListNotations.
#[local] Open Scope string_scope.
#[local] Open Scope Z_scope.

Set Implicit Arguments.
Set Warnings "-register-all".

(** ** Go values *)

(** The zero value every Go type has; [var rval T] initialises [rval] to it. *)
Class Zero (T : Type) : Type := zero : T.

#[global] Instance Zero_Z : Zero Z := 0.
#[global] Instance Zero_string : Zero string := "".
#[global] Instance Zero_bool : Zero bool := false.
#[global] Instance Zero_list {A : Type} : Zero (list A) := [].
#[global] Instance Zero_option {A : Type} : Zero (option A) := None.

(** The interface type [error], seen through what the package observes of it:
    the [Error()] text and the [Unwrap()] chain. *)
Inductive error : Type :=
| errorString (s : string)                (* errors.New(s) *)
| wrapError (msg : string) (err : error)  (* fmt.Errorf with a %w operand *)
| dynError (typ : string) (text : string) (* a value of any other error type *).

(** Package [errors], and the method [Error()] of the interface. *)
Module errors.

Definition New (s : string) : error := errorString s.

Definition Error (e : error) : string :=
  match e with
  | errorString s => s
  | wrapError msg _ => msg
  | dynError _ text => text
  end.

Definition Unwrap (e : error) : option error :=
  match e with
  | wrapError _ err => Some err
  | _ => None
  end.

Fixpoint eqb (a b : error) : bool :=
  match a, b with
  | errorString s, errorString t => String.eqb s t
  | wrapError m e, wrapError n f => String.eqb m n && eqb e f
  | dynError ty s, dynError tz t => String.eqb ty tz && String.eqb s t
  | _, _ => false
  end.

(** [errors.Is]: [target] occurs on the [Unwrap] chain of [e]. *)
Fixpoint Is (e target : error) : bool :=
  eqb e target ||
  match e with
  | wrapError _ err => Is err target
  | _ => false
  end.

End errors.

(** A value of type [interface{}], by dynamic type. *)
Inductive any : Type :=
| any_nil
| any_bool (b : bool)
| any_int (z : Z)
| any_float64 (f : float)
| any_string (s : string)
| any_slice (l : list any)                (* []interface{} *)
| any_map (m : list (string * any))       (* map[string]interface{} *).

(** A call either returns normally or panics. *)
Inductive outcome (A : Type) : Type :=
| Normal (a : A)
| Panic (msg : string).
Arguments Normal {A} a.
Arguments Panic {A} msg.

Definition obind {A B : Type} (x : outcome A) (k : A -> outcome B) : outcome B :=
  match x with
  | Normal a => k a
  | Panic msg => Panic msg
  end.

Declare Scope go_scope.
Delimit Scope go_scope with go.
Notation "'let!' x ':=' e 'in' k" := (obind e (fun x => k))
  (at level 10, x name, e at level 200, k at level 200) : go_scope.

(** The name Go prints for the dynamic type of an [interface{}] value. *)
Definition typeName (v : any) : string :=
  match v with
  | any_nil => "nil"
  | any_bool _ => "bool"
  | any_int _ => "int"
  | any_float64 _ => "float64"
  | any_string _ => "string"
  | any_slice _ => "[]interface {}"
  | any_map _ => "map[string]interface {}"
  end.

(** The single-result type assertion [v.(string)]: it panics when the dynamic
    type of [v] is not [string]. *)
Definition assert_string (v : any) : outcome string :=
  match v with
  | any_string s => Normal s
  | _ => Panic ("interface conversion: interface {} is " ++ typeName v ++ ", not string")
  end.

(** The single-result type assertion [v.(int)]. *)
Definition assert_int (v : any) : outcome Z :=
  match v with
  | any_int z => Normal z
  | _ => Panic ("interface conversion: interface {} is " ++ typeName v ++ ", not int")
  end.

(** ** Package [strconv] *)
Module strconv.

(** [strconv.Itoa]: the decimal text of an [int]. *)
Definition Itoa (i : Z) : string := NilZero.string_of_int (Z.to_int i).

Definition ErrRange : error := errors.New "value out of range".
Definition ErrSyntax : error := errors.New "invalid syntax".

(** [*strconv.NumError]: the failed conversion of the text [num]; it wraps
    [err]. *)
Definition NumError (fn num : string) (err : error) : error :=
  let quote := String (ascii_of_nat 34) EmptyString in
  wrapError ("strconv." ++ fn ++ ": parsing " ++ quote ++ num ++ quote ++ ": "
             ++ errors.Error err) err.

Definition digitVal (c : ascii) : option Z :=
  let n := Z.of_N (N_of_ascii c) in
  if (48 <=? n) && (n <=? 57) then Some (n - 48) else None.

(** Read the digits at the head of [s] onto [acc]: the number read, how many
    digits it took, and the rest of the text. *)
Fixpoint readDigits (s : string) (acc count : Z) : Z * Z * string :=
  match s with
  | String c rest =>
      match digitVal c with
      | Some d => readDigits rest (10 * acc + d) (count + 1)
      | None => (acc, count, s)
      end
  | EmptyString => (acc, count, s)
  end.

Definition readSign (s : string) : bool * string :=
  match s with
  | String "-" rest => (true, rest)
  | String "+" rest => (false, rest)
  | _ => (false, s)
  end.

(** A decimal literal [[sign] digits [. digits] [e [sign] digits]], read as
    its sign, its digits and its decimal exponent. *)
Definition readFloat (s : string) : option (bool * Z * Z) :=
  let '(neg, s) := readSign s in
  let '(m, n1, s) := readDigits s 0 0 in
  let '(m, n2, s) :=
    match s with
    | String "." rest => readDigits rest m 0
    | _ => (m, 0, s)
    end in
  if n1 + n2 =? 0 then None
  else
    match s with
    | EmptyString => Some (neg, m, - n2)
    | String c rest =>
        if (Ascii.eqb c "e" || Ascii.eqb c "E")%bool then
          let '(eneg, rest) := readSign rest in
          let '(e, n3, rest) := readDigits rest 0 0 in
          match rest with
          | EmptyString =>
              if n3 =? 0 then None else Some (neg, m, (if eneg then - e else e) - n2)
          | _ => None
          end
        else None
    end.

(** The [float64] nearest to [m * 10 ^ e], ties to even; an infinity when
    that is beyond the largest [float64]. *)
Definition nearest (neg : bool) (m e : Z) : SpecFloat.spec_float :=
  let sign (z : Z) := if neg then - z else z in
  if m =? 0 then SpecFloat.S754_zero neg
  else if 0 <=? e then
    SpecFloat.binary_normalize FloatOps.prec FloatOps.emax (sign (m * 10 ^ e)) 0 false
  else
    let d := 10 ^ (- e) in
    let k := Z.max 0 (FloatOps.prec + 3 + Z.log2 d - Z.log2 m) in
    let q := (m * 2 ^ k) / d in
    let sticky := if (m * 2 ^ k) mod d =? 0 then 0 else 1 in
    SpecFloat.binary_normalize FloatOps.prec FloatOps.emax (sign (Z.lor q sticky)) (- k) false.

(** [strconv.ParseFloat(s, 64)] on a decimal literal: the nearest [float64];
    a literal beyond the range of [float64] gives an infinity and a range
    error, a text that is no decimal literal gives 0 and a syntax error.
    (The other spellings [ParseFloat] reads, hexadecimal and the names of
    the infinities, are no JSON numbers.) *)
Definition ParseFloat (s : string) : float * option error :=
  match readFloat s with
  | None => (0%float, Some (NumError "ParseFloat" s ErrSyntax))
  | Some (neg, m, e) =>
      match nearest neg m e with
      | SpecFloat.S754_infinity sign =>
          (FloatOps.SF2Prim (SpecFloat.S754_infinity sign),
           Some (NumError "ParseFloat" s ErrRange))
      | f => (FloatOps.SF2Prim f, None)
      end
  end.

End strconv.

(** ** Package [reflect], as far as the decoders use it *)
Module reflect.

Inductive Kind : Type :=
| Invalid | Bool | Int | Float64 | String | Slice | Map | Interface.

Definition Kind_eqb (a b : Kind) : bool :=
  match a, b with
  | Invalid, Invalid | Bool, Bool | Int, Int | Float64, Float64
  | String, String | Slice, Slice | Map, Map | Interface, Interface => true
  | _, _ => false
  end.

(** A [reflect.Value] is either the result of [ValueOf] on an interface value
    (it then has the kind of the dynamic type) or an element of a
    [[]interface{}] (its static type is [interface{}], whatever it holds). *)
Inductive Value : Type :=
| Direct (v : any)
| Elem (v : any).

Definition ValueOf (i : any) : Value := Direct i.

Definition kindOf (v : any) : Kind :=
  match v with
  | any_nil => Invalid
  | any_bool _ => Bool
  | any_int _ => Int
  | any_float64 _ => Float64
  | any_string _ => String
  | any_slice _ => Slice
  | any_map _ => Map
  end.

Definition Value_Kind (v : Value) : Kind :=
  match v with
  | Direct x => kindOf x
  | Elem _ => Interface
  end.

Definition held (v : Value) : any :=
  match v with Direct x | Elem x => x end.

(** [Value.String] on a value of kind [String]. *)
Definition Value_String (v : Value) : string :=
  match held v with
  | any_string s => s
  | x => "<" ++ typeName x ++ " Value>"
  end.

(** [Value.Len] on a value of kind [Slice]. *)
Definition Value_Len (v : Value) : nat :=
  match held v with
  | any_slice l => List.length l
  | _ => O
  end.

(** [Value.Index] on a value of kind [Slice], for an index in range. *)
Definition Value_Index (v : Value) (i : nat) : Value :=
  match held v with
  | any_slice l => Elem (nth i l any_nil)
  | _ => Elem any_nil
  end.

(** [Value.Interface]: the value held, as an [interface{}]. *)
Definition Value_Interface (v : Value) : any := held v.

End reflect.

(** ** Package [fmt]: [Sprintf] and [Errorf] for the verbs the package uses *)
Module fmt.

(** An operand of a formatting call. *)
Inductive arg : Type :=
| Int (z : Z)
| Str (s : string)
| Err (e : option error).

Definition argType (a : arg) : string :=
  match a with
  | Int _ => "int"
  | Str _ => "string"
  | Err None => "<nil>"
  | Err (Some (errorString _)) => "*errors.errorString"
  | Err (Some (wrapError _ _)) => "*fmt.wrapError"
  | Err (Some (dynError ty _)) => ty
  end.

Definition argText (a : arg) : string :=
  match a with
  | Int z => strconv.Itoa z
  | Str s => s
  | Err None => "<nil>"
  | Err (Some e) => errors.Error e
  end.

(** The text of a bad verb: [%!verb(type=value)]. *)
Definition badVerb (verb : ascii) (a : arg) : string :=
  match a with
  | Err None => "%!" ++ String verb "(<nil>)"
  | _ => "%!" ++ String verb ("(" ++ argType a ++ "=" ++ argText a ++ ")")
  end.

(** One operand under one verb.  [%d] prints an [int] in decimal, [%s] and
    [%v] print a string or the [Error()] text of an error, [%w] is [%v] for a
    non-nil error inside [Errorf] ([wrapErrs]) and a bad verb elsewhere; a nil
    operand is a bad verb under every verb but [%v].  Flags, widths and the
    other verbs do not occur in the package. *)
Definition printArg (wrapErrs : bool) (verb : ascii) (a : arg) : string :=
  match a with
  | Int z =>
      if (Ascii.eqb verb "d" || Ascii.eqb verb "v")%bool then strconv.Itoa z
      else badVerb verb a
  | Str s =>
      if (Ascii.eqb verb "s" || Ascii.eqb verb "v")%bool then s
      else badVerb verb a
  | Err None => if Ascii.eqb verb "v" then "<nil>" else badVerb verb a
  | Err (Some e) =>
      if (Ascii.eqb verb "s" || Ascii.eqb verb "v")%bool then errors.Error e
      else if Ascii.eqb verb "w" then (if wrapErrs then errors.Error e else badVerb verb a)
      else badVerb verb a
  end.

Fixpoint extraArgs (a : list arg) : string :=
  match a with
  | [] => ""
  | [x] => argType x ++ "=" ++ argText x
  | x :: rest => argType x ++ "=" ++ argText x ++ ", " ++ extraArgs rest
  end.

(** [doPrintf]: copy the format, replacing each [%verb] by the next operand. *)
Fixpoint doPrintf (wrapErrs : bool) (format : string) (a : list arg) : string :=
  match format with
  | EmptyString =>
      match a with
      | [] => ""
      | _ => "%!(EXTRA " ++ extraArgs a ++ ")"
      end
  | String "%" EmptyString => "%!(NOVERB)"
  | String "%" (String verb rest) =>
      if Ascii.eqb verb "%" then String "%" (doPrintf wrapErrs rest a)
      else
        match a with
        | [] => "%!" ++ String verb "(MISSING)" ++ doPrintf wrapErrs rest []
        | x :: a' => printArg wrapErrs verb x ++ doPrintf wrapErrs rest a'
        end
  | String c rest => String c (doPrintf wrapErrs rest a)
  end.

Definition Sprintf (format : string) (a : list arg) : string :=
  doPrintf false format a.

(** The operand of the first [%w] of the format, when it is a non-nil error. *)
Fixpoint wrappedErr (format : string) (a : list arg) : option error :=
  match format with
  | EmptyString => None
  | String "%" EmptyString => None
  | String "%" (String verb rest) =>
      if Ascii.eqb verb "%" then wrappedErr rest a
      else
        match a with
        | [] => None
        | x :: a' =>
            if Ascii.eqb verb "w" then
              match x with
              | Err (Some e) => Some e
              | _ => wrappedErr rest a'
              end
            else wrappedErr rest a'
        end
  | String _ rest => wrappedErr rest a
  end.

(** [fmt.Errorf]: an error with the formatted text; it wraps the operand of
    [%w] when that operand is a non-nil error, and is a plain
    [errors.New] value otherwise. *)
Definition Errorf (format : string) (a : list arg) : error :=
  let s := doPrintf true format a in
  match wrappedErr format a with
  | Some e => wrapError s e
  | None => errorString s
  end.

End fmt.

(** ** Package [encoding/json], as far as the decoders use it *)
Module json.

Definition RawMessage : Type := list byte.

(** A JSON text, parsed; a number is kept as its literal. *)
Inductive value : Type :=
| Null
| Bool (b : bool)
| Number (lit : string)
| String (s : string)
| Array (l : list value)
| Object (m : list (string * value)).

(** The argument [data []byte] of a decoder: a text that is not JSON, with the
    syntax error the parser reports for it, or the JSON value it denotes. *)
Inductive document : Type :=
| Malformed (err : error)
| WellFormed (v : value).

Fixpoint mapSet (k : string) (v : any) (m : list (string * any)) : list (string * any) :=
  match m with
  | [] => [(k, v)]
  | (k', v') :: rest =>
      if String.eqb k k' then (k, v) :: rest else (k', v') :: mapSet k v rest
  end.

(** [*json.UnmarshalTypeError]: the JSON value [val] does not fit the Go
    type [typ]. *)
Definition UnmarshalTypeError (val typ : string) : error :=
  dynError "*json.UnmarshalTypeError"
    ("json: cannot unmarshal " ++ val ++ " into Go value of type " ++ typ).

(** [decodeState.convertNumber]: a number literal becomes a [float64]; a
    literal [strconv.ParseFloat] rejects gives [nil] and an
    [UnmarshalTypeError]. *)
Definition convertNumber (s : string) : any * option error :=
  match strconv.ParseFloat s with
  | (f, None) => (any_float64 f, None)
  | (_, Some _) => (any_nil, Some (UnmarshalTypeError ("number " ++ s) "float64"))
  end.

(** What decoding stores into an [interface{}]: [nil] for null, [bool],
    [float64] for a number ([nil] for one that does not convert), [string],
    [[]interface{}], [map[string]interface{}]. *)
Fixpoint toInterface (v : value) : any :=
  match v with
  | Null => any_nil
  | Bool b => any_bool b
  | Number s => fst (convertNumber s)
  | String s => any_string s
  | Array l => any_slice (List.map toInterface l)
  | Object m =>
      any_map (fold_left (fun acc kv => let '(k, x) := kv in mapSet k (toInterface x) acc) m [])
  end.

(** The errors of the conversions made while decoding, in the order of the
    text. *)
Fixpoint conversionErrors (v : value) : list error :=
  match v with
  | Number s =>
      match snd (convertNumber s) with
      | Some err => [err]
      | None => []
      end
  | Array l => flat_map conversionErrors l
  | Object m => flat_map (fun kv => conversionErrors (snd kv)) m
  | _ => []
  end.

(** [decodeState.savedError]: decoding goes on after an error and reports
    the first one at the end. *)
Definition savedError (v : value) : option error := hd_error (conversionErrors v).

(** [json.Unmarshal(data, &nums)] for [nums] of type [interface{}]: the new
    content of [nums] and the error.  A text that is not JSON is rejected
    before anything is stored; a number at the top that does not convert is
    not stored. *)
Definition Unmarshal (data : document) (nums : any) : any * option error :=
  match data with
  | Malformed err => (nums, Some err)
  | WellFormed v =>
      match v, savedError v with
      | Number _, Some err => (nums, Some err)
      | _, err => (toInterface v, err)
      end
  end.

End json.

(** ** Package [time] *)
Module time.

(** [time.Time], as nanoseconds from the zero instant; the package only
    stores such values. *)
Definition Time : Type := Z.

End time.

(** ** Package [validation] (go-ozzo/ozzo-validation), as far as the package uses it *)
Module validation.

(** [validation.Error]: a code and a message. *)
Record ErrorObject : Type := NewError { Code : string; Message : string }.

Definition ErrRequired : ErrorObject := NewError "validation_required" "cannot be blank".

(** [validation.IsEmpty]: the zero value test of rule [Required]. *)
Definition IsEmpty (value : any) : bool :=
  match value with
  | any_nil => true
  | any_bool b => negb b
  | any_int z => z =? 0
  | any_float64 f => PrimFloat.eqb f 0%float
  | any_string s => (String.length s =? 0)%nat
  | any_slice l => (List.length l =? 0)%nat
  | any_map m => (List.length m =? 0)%nat
  end.

Inductive Rule : Type :=
| Required.

Definition Rule_Validate (r : Rule) (value : any) : option ErrorObject :=
  match r with
  | Required => if IsEmpty value then Some ErrRequired else None
  end.

(** [validation.Validate(value, rules...)]: the error of the first rule that
    fails. *)
Fixpoint Validate (value : any) (rules : list Rule) : option ErrorObject :=
  match rules with
  | [] => None
  | r :: rest =>
      match Rule_Validate r value with
      | Some err => Some err
      | None => Validate value rest
      end
  end.

(** [validation.Errors], a map from field name to error; the literal of a
    [Validate] method lists distinct keys, in the order of the source. *)
Definition Errors : Type := list (string * ErrorObject).

(** [Errors.Filter]: drop the [nil] entries; [nil] when nothing is left. *)
Fixpoint dropNil (es : list (string * option ErrorObject)) : Errors :=
  match es with
  | [] => []
  | (k, Some e) :: rest => (k, e) :: dropNil rest
  | (_, None) :: rest => dropNil rest
  end.

Definition Filter (es : list (string * option ErrorObject)) : option Errors :=
  match dropNil es with
  | [] => None
  | es' => Some es'
  end.

Fixpoint insertKey (kv : string * ErrorObject) (l : Errors) : Errors :=
  match l with
  | [] => [kv]
  | kv' :: rest =>
      if String.leb (fst kv) (fst kv') then kv :: kv' :: rest
      else kv' :: insertKey kv rest
  end.

(** [sort.Strings] on the keys. *)
Definition sortKeys (es : Errors) : Errors := fold_right insertKey [] es.

Fixpoint joinEntries (es : Errors) : string :=
  match es with
  | [] => ""
  | [(k, e)] => k ++ ": " ++ Message e
  | (k, e) :: rest => k ++ ": " ++ Message e ++ "; " ++ joinEntries rest
  end.

(** [Errors.Error]: ["key: message; key: message."], keys sorted. *)
Definition Errors_Error (es : Errors) : string :=
  match es with
  | [] => ""
  | _ => joinEntries (sortKeys es) ++ "."
  end.

End validation.

(** ** Package [net/url] *)
Module url.

(** A parsed URL, seen through its [String()] text. *)
Record URL : Type := mkURL { String_ : string }.

End url.

(** ** Package [net/http], as far as the package uses it *)
Module http.

Definition MethodGet : string := "GET".
Definition MethodPost : string := "POST".
Definition MethodPut : string := "PUT".
Definition MethodDelete : string := "DELETE".

Definition StatusOK : Z := 200.
Definition StatusCreated : Z := 201.
Definition StatusNoContent : Z := 204.

(** [http.Request]: the method, the parsed URL and the header. *)
Record Request : Type := mkRequest
  { Method : string
  ; URL : url.URL
  ; Header : list (string * string)
  }.

Record Response : Type := mkResponse
  { StatusCode : Z
  ; Body : list byte
  }.

(** [Header.Set]: the one value of the key. *)
Definition Header_Set (key val : string) (r : Request) : Request :=
  mkRequest (Method r) (URL r)
    ((key, val) :: filter (fun kv => negb (String.eqb (fst kv) key)) (Header r)).

(** [http.NewRequestWithContext(ctx, method, url, nil)] with a valid method
    and a non-nil context: it fails exactly when [url.Parse] does, and the
    request holds the URL [url.Parse] returns.  The URL parser of [net/url]
    is the argument [parse]. *)
Definition NewRequestWithContext (parse : string -> url.URL + error)
    (method url : string) : Request + error :=
  match parse url with
  | inr err => inr err
  | inl u => inl (mkRequest method u [])
  end.

End http.

(** * Package [appsec] *)

#[local] Open Scope list_scope.

(** Modelled from the spec: the sentinel [ErrStructValidation] is declared in
    [errors.go], which is not among the source files; every operation wraps
    it around the text of a validation error (spec section 7,
    ValidationError). *)
Definition ErrStructValidation : error := errors.New "struct validation".

(** ** The flexible-type decoders *)

Module customDenyID.

Definition t : Type := string.

(** [func (c *customDenyID) UnmarshalJSON(data []byte) error]
    ([custom_deny.go], lines 132-149): the content of [*c] after the call and
    the error returned. *)
Definition UnmarshalJSON (c : t) (data : json.document) : outcome (t * option error) :=
  let nums : any := any_nil in
  let '(nums, err) := json.Unmarshal data nums in
  match err with
  | Some e => Normal (c, Some e)
  | None =>
      let items := reflect.ValueOf nums in
      match reflect.Value_Kind items with
      | reflect.String =>
          (let! s := assert_string nums in
           Normal (s, None))%go
      | reflect.Int =>
          (let! i := assert_int nums in
           Normal (strconv.Itoa i, None))%go
      | _ => Normal (c, None)
      end
  end.

End customDenyID.

Module atomicConditionsName.

Definition t : Type := list string.

(** The loop [for i := 0; i < items.Len(); i++] of the slice branch, with
    [n] iterations left. *)
Fixpoint loop (n : nat) (i : nat) (items : reflect.Value) (c : t) : outcome t :=
  match n with
  | O => Normal c
  | S n' =>
      let item := reflect.Value_Index items i in
      (let! c :=
         match reflect.Value_Kind item with
         | reflect.String => Normal (c ++ [reflect.Value_String item])
         | reflect.Interface =>
             let! s := assert_string (reflect.Value_Interface item) in
             Normal (c ++ [s])
         | _ => Normal c
         end in
       loop n' (S i) items c)%go
  end.

(** [func (c *atomicConditionsName) UnmarshalJSON(data []byte) error]
    ([reputation_profile.go], lines 236-261). *)
Definition UnmarshalJSON (c : t) (data : json.document) : outcome (t * option error) :=
  let nums : any := any_nil in
  let '(nums, err) := json.Unmarshal data nums in
  match err with
  | Some e => Normal (c, Some e)
  | None =>
      let items := reflect.ValueOf nums in
      match reflect.Value_Kind items with
      | reflect.String => Normal (c ++ [reflect.Value_String items], None)
      | reflect.Slice =>
          let c : t := [] in
          (let! c := loop (reflect.Value_Len items) 0 items c in
           Normal (c, None))%go
      | _ => Normal (c, None)
      end
  end.

End atomicConditionsName.

(** ** Request and response types, with the [Validate] method of each request *)

(** [AttackGroupConditions] ([attack_group.go], line 47). *)
Module AttackGroupConditions.
Module elem.
Record t : Type := mk
  { Type_ : string
  ; Extensions : list string
  ; Filenames : list string
  ; Hosts : list string
  ; Ips : list string
  ; Methods : list string
  ; Paths : list string
  ; Header : string
  ; CaseSensitive : bool
  ; Name : string
  ; NameCase : bool
  ; PositiveMatch : bool
  ; Value : string
  ; Wildcard : bool
  ; ValueCase : bool
  ; ValueWildcard : bool
  ; UseHeaders : bool
  }.
#[global] Instance Zero_AttackGroupConditions_elem : Zero t := mk zero zero zero zero zero zero zero zero zero zero zero zero zero zero zero zero zero.
End elem.
Definition t : Type := list elem.t.
End AttackGroupConditions.

(** [AttackGroupAdvancedCriteria] ([attack_group.go], line 68). *)
Module AttackGroupAdvancedCriteria.
Module elem.
Record t : Type := mk
  { Hostnames : list string
  ; Names : list string
  ; Paths : list string
  ; Values : list string
  }.
#[global] Instance Zero_AttackGroupAdvancedCriteria_elem : Zero t := mk zero zero zero zero.
End elem.
Definition t : Type := list elem.t.
End AttackGroupAdvancedCriteria.

(** [AttackGroupSpecificHeaderCookieOrParamNameValAdvanced] ([attack_group.go], line 76). *)
Module AttackGroupSpecificHeaderCookieOrParamNameValAdvanced.
Module elem.
Module NamesValues_.
Record t : Type := mk
  { Names : list string
  ; Values : list string
  }.
#[global] Instance Zero_AttackGroupSpecificHeaderCookieOrParamNameValAdvanced_elem_NamesValues_ : Zero t := mk zero zero.
End NamesValues_.
Record t : Type := mk
  { Criteria : option AttackGroupAdvancedCriteria.t
  ; NamesValues : list NamesValues_.t
  ; Selector : string
  ; ValueWildcard : bool
  ; Wildcard : bool
  }.
#[global] Instance Zero_AttackGroupSpecificHeaderCookieOrParamNameValAdvanced_elem : Zero t := mk zero zero zero zero zero.
End elem.
Definition t : Type := list elem.t.
End AttackGroupSpecificHeaderCookieOrParamNameValAdvanced.

(** [AttackGroupSpecificHeaderCookieParamXMLOrJSONNamesAdvanced] ([attack_group.go], line 88). *)
Module AttackGroupSpecificHeaderCookieParamXMLOrJSONNamesAdvanced.
Module elem.
Record t : Type := mk
  { Criteria : option AttackGroupAdvancedCriteria.t
  ; Names : list string
  ; Selector : string
  ; Wildcard : bool
  }.
#[global] Instance Zero_AttackGroupSpecificHeaderCookieParamXMLOrJSONNamesAdvanced_elem : Zero t := mk zero zero zero zero.
End elem.
Definition t : Type := list elem.t.
End AttackGroupSpecificHeaderCookieParamXMLOrJSONNamesAdvanced.

(** [AttackGroupHeaderCookieOrParamValuesAdvanced] ([attack_group.go], line 96). *)
Module AttackGroupHeaderCookieOrParamValuesAdvanced.
Module elem.
Record t : Type := mk
  { Criteria : option AttackGroupAdvancedCriteria.t
  ; ValueWildcard : bool
  ; Values : list string
  }.
#[global] Instance Zero_AttackGroupHeaderCookieOrParamValuesAdvanced_elem : Zero t := mk zero zero zero.
End elem.
Definition t : Type := list elem.t.
End AttackGroupHeaderCookieOrParamValuesAdvanced.

(** [AttackGroupAdvancedExceptions] ([attack_group.go], line 38). *)
Module AttackGroupAdvancedExceptions.
Record t : Type := mk
  { ConditionOperator : string
  ; Conditions : option AttackGroupConditions.t
  ; HeaderCookieOrParamValues : option AttackGroupHeaderCookieOrParamValuesAdvanced.t
  ; SpecificHeaderCookieOrParamNameValue : option AttackGroupSpecificHeaderCookieOrParamNameValAdvanced.t
  ; SpecificHeaderCookieParamXMLOrJSONNames : option AttackGroupSpecificHeaderCookieParamXMLOrJSONNamesAdvanced.t
  }.
#[global] Instance Zero_AttackGroupAdvancedExceptions : Zero t := mk zero zero zero zero zero.
End AttackGroupAdvancedExceptions.

(** [AttackGroupSpecificHeaderCookieParamXMLOrJSONNames] ([attack_group.go], line 108). *)
Module AttackGroupSpecificHeaderCookieParamXMLOrJSONNames.
Module elem.
Record t : Type := mk
  { Names : list string
  ; Selector : string
  ; Wildcard : bool
  }.
#[global] Instance Zero_AttackGroupSpecificHeaderCookieParamXMLOrJSONNames_elem : Zero t := mk zero zero zero.
End elem.
Definition t : Type := list elem.t.
End AttackGroupSpecificHeaderCookieParamXMLOrJSONNames.

(** [AttackGroupException] ([attack_group.go], line 103). *)
Module AttackGroupException.
Record t : Type := mk
  { SpecificHeaderCookieParamXMLOrJSONNames : option AttackGroupSpecificHeaderCookieParamXMLOrJSONNames.t
  }.
#[global] Instance Zero_AttackGroupException : Zero t := mk zero.
End AttackGroupException.

(** [AttackGroupConditionException] ([attack_group.go], line 32). *)
Module AttackGroupConditionException.
Record t : Type := mk
  { AdvancedExceptionsList : option AttackGroupAdvancedExceptions.t
  ; Exception : option AttackGroupException.t
  }.
#[global] Instance Zero_AttackGroupConditionException : Zero t := mk zero zero.
End AttackGroupConditionException.

(** [GetAttackGroupsRequest] ([attack_group.go], line 115) and its method [Validate] (lines 177-183). *)
Module GetAttackGroupsRequest.
Record t : Type := mk
  { ConfigID : Z
  ; Version : Z
  ; PolicyID : string
  ; Group : string
  }.
#[global] Instance Zero_GetAttackGroupsRequest : Zero t := mk zero zero zero zero.

Definition Validate (v : t) : option validation.Errors :=
  validation.Filter
    [ ("ConfigID", validation.Validate (any_int (ConfigID v)) [validation.Required])
    ; ("Version", validation.Validate (any_int (Version v)) [validation.Required])
    ; ("PolicyID", validation.Validate (any_string (PolicyID v)) [validation.Required])
    ].
End GetAttackGroupsRequest.

(** [GetAttackGroupsResponse] ([attack_group.go], line 123). *)
Module GetAttackGroupsResponse.
Module AttackGroups_.
Record t : Type := mk
  { Group : string
  ; Action : string
  ; ConditionException : option AttackGroupConditionException.t
  }.
#[global] Instance Zero_GetAttackGroupsResponse_AttackGroups_ : Zero t := mk zero zero zero.
End AttackGroups_.
Record t : Type := mk
  { AttackGroups : list AttackGroups_.t
  }.
#[global] Instance Zero_GetAttackGroupsResponse : Zero t := mk zero.
End GetAttackGroupsResponse.

(** [GetAttackGroupRequest] ([attack_group.go], line 132) and its method [Validate] (lines 168-174). *)
Module GetAttackGroupRequest.
Record t : Type := mk
  { ConfigID : Z
  ; Version : Z
  ; PolicyID : string
  ; Group : string
  }.
#[global] Instance Zero_GetAttackGroupRequest : Zero t := mk zero zero zero zero.

Definition Validate (v : t) : option validation.Errors :=
  validation.Filter
    [ ("ConfigID", validation.Validate (any_int (ConfigID v)) [validation.Required])
    ; ("Version", validation.Validate (any_int (Version v)) [validation.Required])
    ; ("PolicyID", validation.Validate (any_string (PolicyID v)) [validation.Required])
    ].
End GetAttackGroupRequest.

(** [GetAttackGroupResponse] ([attack_group.go], line 140). *)
Module GetAttackGroupResponse.
Record t : Type := mk
  { Action : string
  ; ConditionException : option AttackGroupConditionException.t
  }.
#[global] Instance Zero_GetAttackGroupResponse : Zero t := mk zero zero.

(** [func (r GetAttackGroupResponse) IsEmptyConditionException() bool]
    ([attack_group.go], lines 163-165). *)
Definition IsEmptyConditionException (r : t) : bool :=
  match ConditionException r with
  | None => true
  | Some _ => false
  end.
End GetAttackGroupResponse.

(** [UpdateAttackGroupRequest] ([attack_group.go], line 146) and its method [Validate] (lines 186-192). *)
Module UpdateAttackGroupRequest.
Record t : Type := mk
  { ConfigID : Z
  ; Version : Z
  ; PolicyID : string
  ; Group : string
  ; Action : string
  ; JsonPayloadRaw : json.RawMessage
  }.
#[global] Instance Zero_UpdateAttackGroupRequest : Zero t := mk zero zero zero zero zero zero.

Definition Validate (v : t) : option validation.Errors :=
  validation.Filter
    [ ("ConfigID", validation.Validate (any_int (ConfigID v)) [validation.Required])
    ; ("Version", validation.Validate (any_int (Version v)) [validation.Required])
    ; ("PolicyID", validation.Validate (any_string (PolicyID v)) [validation.Required])
    ].
End UpdateAttackGroupRequest.

(** [UpdateAttackGroupResponse] ([attack_group.go], line 156). *)
Module UpdateAttackGroupResponse.
Record t : Type := mk
  { Action : string
  ; ConditionException : option AttackGroupConditionException.t
  }.
#[global] Instance Zero_UpdateAttackGroupResponse : Zero t := mk zero zero.
End UpdateAttackGroupResponse.

(** [GetApiHostnameCoverageOverlappingRequest] ([api_hostname_coverage_overlapping.go], line 22) and its method [Validate] (lines 42-47). *)
Module GetApiHostnameCoverageOverlappingRequest.
Record t : Type := mk
  { ConfigID : Z
  ; Version : Z
  ; Hostname : string
  }.
#[global] Instance Zero_GetApiHostnameCoverageOverlappingRequest : Zero t := mk zero zero zero.

Definition Validate (v : t) : option validation.Errors :=
  validation.Filter
    [ ("ConfigID", validation.Validate (any_int (ConfigID v)) [validation.Required])
    ; ("Version", validation.Validate (any_int (Version v)) [validation.Required])
    ].
End GetApiHostnameCoverageOverlappingRequest.

(** [GetApiHostnameCoverageOverlappingResponse] ([api_hostname_coverage_overlapping.go], line 29). *)
Module GetApiHostnameCoverageOverlappingResponse.
Module OverLappingList_.
Record t : Type := mk
  { ConfigID : Z
  ; ConfigName : string
  ; ConfigVersion : Z
  ; ContractID : string
  ; ContractName : string
  ; VersionTags : list string
  }.
#[global] Instance Zero_GetApiHostnameCoverageOverlappingResponse_OverLappingList_ : Zero t := mk zero zero zero zero zero zero.
End OverLappingList_.
Record t : Type := mk
  { OverLappingList : list OverLappingList_.t
  }.
#[global] Instance Zero_GetApiHostnameCoverageOverlappingResponse : Zero t := mk zero.
End GetApiHostnameCoverageOverlappingResponse.

(** [GetCustomDenyListRequest] ([custom_deny.go], line 40) and its method [Validate] (lines 161-166). *)
Module GetCustomDenyListRequest.
Record t : Type := mk
  { ConfigID : Z
  ; Version : Z
  ; ID : string
  }.
#[global] Instance Zero_GetCustomDenyListRequest : Zero t := mk zero zero zero.

Definition Validate (v : t) : option validation.Errors :=
  validation.Filter
    [ ("ConfigID", validation.Validate (any_int (ConfigID v)) [validation.Required])
    ; ("Version", validation.Validate (any_int (Version v)) [validation.Required])
    ].
End GetCustomDenyListRequest.

(** [GetCustomDenyListResponse] ([custom_deny.go], line 47). *)
Module GetCustomDenyListResponse.
Module CustomDenyList_.
Module Parameters_.
Record t : Type := mk
  { DisplayName : string
  ; Name : string
  ; Value : string
  }.
#[global] Instance Zero_GetCustomDenyListResponse_CustomDenyList__Parameters_ : Zero t := mk zero zero zero.
End Parameters_.
Record t : Type := mk
  { Description : string
  ; Name : string
  ; ID : customDenyID.t
  ; Parameters : list Parameters_.t
  }.
#[global] Instance Zero_GetCustomDenyListResponse_CustomDenyList_ : Zero t := mk zero zero zero zero.
End CustomDenyList_.
Record t : Type := mk
  { CustomDenyList : list CustomDenyList_.t
  }.
#[global] Instance Zero_GetCustomDenyListResponse : Zero t := mk zero.
End GetCustomDenyListResponse.

(** [GetCustomDenyRequest] ([custom_deny.go], line 61) and its method [Validate] (lines 152-158). *)
Module GetCustomDenyRequest.
Record t : Type := mk
  { ConfigID : Z
  ; Version : Z
  ; ID : string
  }.
#[global] Instance Zero_GetCustomDenyRequest : Zero t := mk zero zero zero.

Definition Validate (v : t) : option validation.Errors :=
  validation.Filter
    [ ("ConfigID", validation.Validate (any_int (ConfigID v)) [validation.Required])
    ; ("Version", validation.Validate (any_int (Version v)) [validation.Required])
    ; ("ID", validation.Validate (any_string (ID v)) [validation.Required])
    ].
End GetCustomDenyRequest.

(** [GetCustomDenyResponse] ([custom_deny.go], line 68). *)
Module GetCustomDenyResponse.
Module Parameters_.
Record t : Type := mk
  { DisplayName : string
  ; Name : string
  ; Value : string
  }.
#[global] Instance Zero_GetCustomDenyResponse_Parameters_ : Zero t := mk zero zero zero.
End Parameters_.
Record t : Type := mk
  { Description : string
  ; Name : string
  ; ID : customDenyID.t
  ; Parameters : list Parameters_.t
  }.
#[global] Instance Zero_GetCustomDenyResponse : Zero t := mk zero zero zero zero.
End GetCustomDenyResponse.

(** [CreateCustomDenyRequest] ([custom_deny.go], line 80) and its method [Validate] (lines 169-174). *)
Module CreateCustomDenyRequest.
Record t : Type := mk
  { ConfigID : Z
  ; Version : Z
  ; JsonPayloadRaw : json.RawMessage
  }.
#[global] Instance Zero_CreateCustomDenyRequest : Zero t := mk zero zero zero.

Definition Validate (v : t) : option validation.Errors :=
  validation.Filter
    [ ("ConfigID", validation.Validate (any_int (ConfigID v)) [validation.Required])
    ; ("Version", validation.Validate (any_int (Version v)) [validation.Required])
    ].
End CreateCustomDenyRequest.

(** [CreateCustomDenyResponse] ([custom_deny.go], line 87). *)
Module CreateCustomDenyResponse.
Module Parameters_.
Record t : Type := mk
  { DisplayName : string
  ; Name : string
  ; Value : string
  }.
#[global] Instance Zero_CreateCustomDenyResponse_Parameters_ : Zero t := mk zero zero zero.
End Parameters_.
Record t : Type := mk
  { Description : string
  ; Name : string
  ; ID : customDenyID.t
  ; Parameters : list Parameters_.t
  }.
#[global] Instance Zero_CreateCustomDenyResponse : Zero t := mk zero zero zero zero.
End CreateCustomDenyResponse.

(** [UpdateCustomDenyRequest] ([custom_deny.go], line 99) and its method [Validate] (lines 177-183). *)
Module UpdateCustomDenyRequest.
Record t : Type := mk
  { ConfigID : Z
  ; Version : Z
  ; ID : string
  ; JsonPayloadRaw : json.RawMessage
  }.
#[global] Instance Zero_UpdateCustomDenyRequest : Zero t := mk zero zero zero zero.

Definition Validate (v : t) : option validation.Errors :=
  validation.Filter
    [ ("ConfigID", validation.Validate (any_int (ConfigID v)) [validation.Required])
    ; ("Version", validation.Validate (any_int (Version v)) [validation.Required])
    ; ("ID", validation.Validate (any_string (ID v)) [validation.Required])
    ].
End UpdateCustomDenyRequest.

(** [UpdateCustomDenyResponse] ([custom_deny.go], line 107). *)
Module UpdateCustomDenyResponse.
Module Parameters_.
Record t : Type := mk
  { DisplayName : string
  ; Name : string
  ; Value : string
  }.
#[global] Instance Zero_UpdateCustomDenyResponse_Parameters_ : Zero t := mk zero zero zero.
End Parameters_.
Record t : Type := mk
  { Description : string
  ; Name : string
  ; ID : customDenyID.t
  ; Parameters : list Parameters_.t
  }.
#[global] Instance Zero_UpdateCustomDenyResponse : Zero t := mk zero zero zero zero.
End UpdateCustomDenyResponse.

(** [RemoveCustomDenyRequest] ([custom_deny.go], line 119) and its method [Validate] (lines 186-192). *)
Module RemoveCustomDenyRequest.
Record t : Type := mk
  { ConfigID : Z
  ; Version : Z
  ; ID : string
  }.
#[global] Instance Zero_RemoveCustomDenyRequest : Zero t := mk zero zero zero.

Definition Validate (v : t) : option validation.Errors :=
  validation.Filter
    [ ("ConfigID", validation.Validate (any_int (ConfigID v)) [validation.Required])
    ; ("Version", validation.Validate (any_int (Version v)) [validation.Required])
    ; ("ID", validation.Validate (any_string (ID v)) [validation.Required])
    ].
End RemoveCustomDenyRequest.

(** [RemoveCustomDenyResponse] ([custom_deny.go], line 126). *)
Module RemoveCustomDenyResponse.
Record t : Type := mk
  { Empty : string
  }.
#[global] Instance Zero_RemoveCustomDenyResponse : Zero t := mk zero.
End RemoveCustomDenyResponse.

(** [GetMatchTargetsRequest] ([custom_deny.go], line 409) and its method [Validate] (lines 625-630). *)
Module GetMatchTargetsRequest.
Record t : Type := mk
  { ConfigID : Z
  ; ConfigVersion : Z
  ; TargetID : Z
  }.
#[global] Instance Zero_GetMatchTargetsRequest : Zero t := mk zero zero zero.

Definition Validate (v : t) : option validation.Errors :=
  validation.Filter
    [ ("ConfigID", validation.Validate (any_int (ConfigID v)) [validation.Required])
    ; ("ConfigVersion", validation.Validate (any_int (ConfigVersion v)) [validation.Required])
    ].
End GetMatchTargetsRequest.

(** [GetMatchTargetsResponse] ([custom_deny.go], line 416). *)
Module GetMatchTargetsResponse.
Module MatchTargets_.
Module APITargets_.
Module Apis_.
Record t : Type := mk
  { ID : Z
  ; Name : string
  }.
#[global] Instance Zero_GetMatchTargetsResponse_MatchTargets__APITargets__Apis_ : Zero t := mk zero zero.
End Apis_.
Module SecurityPolicy_.
Record t : Type := mk
  { PolicyID : string
  }.
#[global] Instance Zero_GetMatchTargetsResponse_MatchTargets__APITargets__SecurityPolicy_ : Zero t := mk zero.
End SecurityPolicy_.
Module BypassNetworkLists_.
Record t : Type := mk
  { Name : string
  ; ID : string
  }.
#[global] Instance Zero_GetMatchTargetsResponse_MatchTargets__APITargets__BypassNetworkLists_ : Zero t := mk zero zero.
End BypassNetworkLists_.
Record t : Type := mk
  { Type_ : string
  ; Apis : list Apis_.t
  ; Sequence : Z
  ; TargetID : Z
  ; ConfigID : Z
  ; ConfigVersion : Z
  ; SecurityPolicy : SecurityPolicy_.t
  ; BypassNetworkLists : list BypassNetworkLists_.t
  }.
#[global] Instance Zero_GetMatchTargetsResponse_MatchTargets__APITargets_ : Zero t := mk zero zero zero zero zero zero zero zero.
End APITargets_.
Module WebsiteTargets_.
Module SecurityPolicy_.
Record t : Type := mk
  { PolicyID : string
  }.
#[global] Instance Zero_GetMatchTargetsResponse_MatchTargets__WebsiteTargets__SecurityPolicy_ : Zero t := mk zero.
End SecurityPolicy_.
Module BypassNetworkLists_.
Record t : Type := mk
  { Name : string
  ; ID : string
  }.
#[global] Instance Zero_GetMatchTargetsResponse_MatchTargets__WebsiteTargets__BypassNetworkLists_ : Zero t := mk zero zero.
End BypassNetworkLists_.
Record t : Type := mk
  { ConfigID : Z
  ; ConfigVersion : Z
  ; DefaultFile : string
  ; IsNegativeFileExtensionMatch : bool
  ; IsNegativePathMatch : option json.RawMessage
  ; Sequence : Z
  ; TargetID : Z
  ; Type_ : string
  ; FileExtensions : list string
  ; FilePaths : list string
  ; Hostnames : list string
  ; SecurityPolicy : SecurityPolicy_.t
  ; BypassNetworkLists : list BypassNetworkLists_.t
  }.
#[global] Instance Zero_GetMatchTargetsResponse_MatchTargets__WebsiteTargets_ : Zero t := mk zero zero zero zero zero zero zero zero zero zero zero zero zero.
End WebsiteTargets_.
Record t : Type := mk
  { APITargets : list APITargets_.t
  ; WebsiteTargets : list WebsiteTargets_.t
  }.
#[global] Instance Zero_GetMatchTargetsResponse_MatchTargets_ : Zero t := mk zero zero.
End MatchTargets_.
Record t : Type := mk
  { MatchTargets : MatchTargets_.t
  }.
#[global] Instance Zero_GetMatchTargetsResponse : Zero t := mk zero.
End GetMatchTargetsResponse.

(** [GetMatchTargetRequest] ([custom_deny.go], line 462) and its method [Validate] (lines 616-622). *)
Module GetMatchTargetRequest.
Record t : Type := mk
  { ConfigID : Z
  ; ConfigVersion : Z
  ; TargetID : Z
  }.
#[global] Instance Zero_GetMatchTargetRequest : Zero t := mk zero zero zero.

Definition Validate (v : t) : option validation.Errors :=
  validation.Filter
    [ ("ConfigID", validation.Validate (any_int (ConfigID v)) [validation.Required])
    ; ("ConfigVersion", validation.Validate (any_int (ConfigVersion v)) [validation.Required])
    ; ("TargetID", validation.Validate (any_int (TargetID v)) [validation.Required])
    ].
End GetMatchTargetRequest.

(** [GetMatchTargetResponse] ([custom_deny.go], line 469). *)
Module GetMatchTargetResponse.
Module Apis_.
Record t : Type := mk
  { ID : Z
  ; Name : string
  }.
#[global] Instance Zero_GetMatchTargetResponse_Apis_ : Zero t := mk zero zero.
End Apis_.
Module SecurityPolicy_.
Record t : Type := mk
  { PolicyID : string
  }.
#[global] Instance Zero_GetMatchTargetResponse_SecurityPolicy_ : Zero t := mk zero.
End SecurityPolicy_.
Module BypassNetworkLists_.
Record t : Type := mk
  { Name : string
  ; ID : string
  }.
#[global] Instance Zero_GetMatchTargetResponse_BypassNetworkLists_ : Zero t := mk zero zero.
End BypassNetworkLists_.
Record t : Type := mk
  { Type_ : string
  ; Apis : list Apis_.t
  ; DefaultFile : string
  ; Hostnames : list string
  ; IsNegativeFileExtensionMatch : bool
  ; IsNegativePathMatch : option json.RawMessage
  ; FilePaths : list string
  ; FileExtensions : list string
  ; SecurityPolicy : SecurityPolicy_.t
  ; Sequence : Z
  ; TargetID : Z
  ; BypassNetworkLists : list BypassNetworkLists_.t
  }.
#[global] Instance Zero_GetMatchTargetResponse : Zero t := mk zero zero zero zero zero zero zero zero zero zero zero zero.
End GetMatchTargetResponse.

(** [CreateMatchTargetRequest] ([custom_deny.go], line 493) and its method [Validate] (lines 633-638). *)
Module CreateMatchTargetRequest.
Record t : Type := mk
  { Type_ : string
  ; ConfigID : Z
  ; ConfigVersion : Z
  ; JsonPayloadRaw : json.RawMessage
  }.
#[global] Instance Zero_CreateMatchTargetRequest : Zero t := mk zero zero zero zero.

Definition Validate (v : t) : option validation.Errors :=
  validation.Filter
    [ ("ConfigID", validation.Validate (any_int (ConfigID v)) [validation.Required])
    ; ("ConfigVersion", validation.Validate (any_int (ConfigVersion v)) [validation.Required])
    ].
End CreateMatchTargetRequest.

(** [CreateMatchTargetResponse] ([custom_deny.go], line 501). *)
Module CreateMatchTargetResponse.
Module Apis_.
Record t : Type := mk
  { ID : Z
  ; Name : string
  }.
#[global] Instance Zero_CreateMatchTargetResponse_Apis_ : Zero t := mk zero zero.
End Apis_.
Module SecurityPolicy_.
Record t : Type := mk
  { PolicyID : string
  }.
#[global] Instance Zero_CreateMatchTargetResponse_SecurityPolicy_ : Zero t := mk zero.
End SecurityPolicy_.
Module BypassNetworkLists_.
Record t : Type := mk
  { Name : string
  ; ID : string
  }.
#[global] Instance Zero_CreateMatchTargetResponse_BypassNetworkLists_ : Zero t := mk zero zero.
End BypassNetworkLists_.
Record t : Type := mk
  { MType : string
  ; Apis : list Apis_.t
  ; DefaultFile : string
  ; Hostnames : list string
  ; IsNegativeFileExtensionMatch : bool
  ; IsNegativePathMatch : option json.RawMessage
  ; FilePaths : list string
  ; FileExtensions : list string
  ; SecurityPolicy : SecurityPolicy_.t
  ; Sequence : Z
  ; TargetID : Z
  ; BypassNetworkLists : list BypassNetworkLists_.t
  }.
#[global] Instance Zero_CreateMatchTargetResponse : Zero t := mk zero zero zero zero zero zero zero zero zero zero zero zero.
End CreateMatchTargetResponse.

(** [UpdateMatchTargetRequest] ([custom_deny.go], line 525) and its method [Validate] (lines 641-647). *)
Module UpdateMatchTargetRequest.
Record t : Type := mk
  { ConfigID : Z
  ; ConfigVersion : Z
  ; JsonPayloadRaw : json.RawMessage
  ; TargetID : Z
  }.
#[global] Instance Zero_UpdateMatchTargetRequest : Zero t := mk zero zero zero zero.

Definition Validate (v : t) : option validation.Errors :=
  validation.Filter
    [ ("ConfigID", validation.Validate (any_int (ConfigID v)) [validation.Required])
    ; ("ConfigVersion", validation.Validate (any_int (ConfigVersion v)) [validation.Required])
    ; ("TargetID", validation.Validate (any_int (TargetID v)) [validation.Required])
    ].
End UpdateMatchTargetRequest.

(** [UpdateMatchTargetResponse] ([custom_deny.go], line 533). *)
Module UpdateMatchTargetResponse.
Module SecurityPolicy_.
Record t : Type := mk
  { PolicyID : string
  }.
#[global] Instance Zero_UpdateMatchTargetResponse_SecurityPolicy_ : Zero t := mk zero.
End SecurityPolicy_.
Module BypassNetworkLists_.
Record t : Type := mk
  { Name : string
  ; ID : string
  }.
#[global] Instance Zero_UpdateMatchTargetResponse_BypassNetworkLists_ : Zero t := mk zero zero.
End BypassNetworkLists_.
Record t : Type := mk
  { Type_ : string
  ; ConfigID : Z
  ; ConfigVersion : Z
  ; DefaultFile : string
  ; Hostnames : list string
  ; IsNegativeFileExtensionMatch : bool
  ; IsNegativePathMatch : option json.RawMessage
  ; FilePaths : list string
  ; FileExtensions : list string
  ; SecurityPolicy : SecurityPolicy_.t
  ; Sequence : Z
  ; TargetID : Z
  ; BypassNetworkLists : list BypassNetworkLists_.t
  }.
#[global] Instance Zero_UpdateMatchTargetResponse : Zero t := mk zero zero zero zero zero zero zero zero zero zero zero zero zero.
End UpdateMatchTargetResponse.

(** [RemoveMatchTargetRequest] ([custom_deny.go], line 555) and its method [Validate] (lines 650-656). *)
Module RemoveMatchTargetRequest.
Record t : Type := mk
  { ConfigID : Z
  ; ConfigVersion : Z
  ; TargetID : Z
  }.
#[global] Instance Zero_RemoveMatchTargetRequest : Zero t := mk zero zero zero.

Definition Validate (v : t) : option validation.Errors :=
  validation.Filter
    [ ("ConfigID", validation.Validate (any_int (ConfigID v)) [validation.Required])
    ; ("ConfigVersion", validation.Validate (any_int (ConfigVersion v)) [validation.Required])
    ; ("TargetID", validation.Validate (any_int (TargetID v)) [validation.Required])
    ].
End RemoveMatchTargetRequest.

(** [RemoveMatchTargetResponse] ([custom_deny.go], line 562). *)
Module RemoveMatchTargetResponse.
Module SecurityPolicy_.
Record t : Type := mk
  { PolicyID : string
  }.
#[global] Instance Zero_RemoveMatchTargetResponse_SecurityPolicy_ : Zero t := mk zero.
End SecurityPolicy_.
Module BypassNetworkLists_.
Record t : Type := mk
  { Name : string
  ; ID : string
  }.
#[global] Instance Zero_RemoveMatchTargetResponse_BypassNetworkLists_ : Zero t := mk zero zero.
End BypassNetworkLists_.
Record t : Type := mk
  { Type_ : string
  ; ConfigID : Z
  ; ConfigVersion : Z
  ; DefaultFile : string
  ; Hostnames : list string
  ; IsNegativeFileExtensionMatch : bool
  ; IsNegativePathMatch : bool
  ; FilePaths : list string
  ; FileExtensions : list string
  ; SecurityPolicy : SecurityPolicy_.t
  ; Sequence : Z
  ; TargetID : Z
  ; BypassNetworkLists : list BypassNetworkLists_.t
  }.
#[global] Instance Zero_RemoveMatchTargetResponse : Zero t := mk zero zero zero zero zero zero zero zero zero zero zero zero zero.
End RemoveMatchTargetResponse.

(** [GetReputationAnalysisRequest] ([custom_deny.go], line 864) and its method [Validate] (lines 911-917). *)
Module GetReputationAnalysisRequest.
Record t : Type := mk
  { ConfigID : Z
  ; Version : Z
  ; PolicyID : string
  }.
#[global] Instance Zero_GetReputationAnalysisRequest : Zero t := mk zero zero zero.

Definition Validate (v : t) : option validation.Errors :=
  validation.Filter
    [ ("ConfigID", validation.Validate (any_int (ConfigID v)) [validation.Required])
    ; ("Version", validation.Validate (any_int (Version v)) [validation.Required])
    ; ("PolicyID", validation.Validate (any_string (PolicyID v)) [validation.Required])
    ].
End GetReputationAnalysisRequest.

(** [GetReputationAnalysisResponse] ([custom_deny.go], line 871). *)
Module GetReputationAnalysisResponse.
Record t : Type := mk
  { ConfigID : Z
  ; Version : Z
  ; PolicyID : string
  ; ForwardToHTTPHeader : bool
  ; ForwardSharedIPToHTTPHeaderAndSIEM : bool
  }.
#[global] Instance Zero_GetReputationAnalysisResponse : Zero t := mk zero zero zero zero zero.
End GetReputationAnalysisResponse.

(** [UpdateReputationAnalysisRequest] ([custom_deny.go], line 880) and its method [Validate] (lines 920-926). *)
Module UpdateReputationAnalysisRequest.
Record t : Type := mk
  { ConfigID : Z
  ; Version : Z
  ; PolicyID : string
  ; ForwardToHTTPHeader : bool
  ; ForwardSharedIPToHTTPHeaderAndSIEM : bool
  }.
#[global] Instance Zero_UpdateReputationAnalysisRequest : Zero t := mk zero zero zero zero zero.

Definition Validate (v : t) : option validation.Errors :=
  validation.Filter
    [ ("ConfigID", validation.Validate (any_int (ConfigID v)) [validation.Required])
    ; ("Version", validation.Validate (any_int (Version v)) [validation.Required])
    ; ("PolicyID", validation.Validate (any_string (PolicyID v)) [validation.Required])
    ].
End UpdateReputationAnalysisRequest.

(** [UpdateReputationAnalysisResponse] ([custom_deny.go], line 889). *)
Module UpdateReputationAnalysisResponse.
Record t : Type := mk
  { ForwardToHTTPHeader : bool
  ; ForwardSharedIPToHTTPHeaderAndSIEM : bool
  }.
#[global] Instance Zero_UpdateReputationAnalysisResponse : Zero t := mk zero zero.
End UpdateReputationAnalysisResponse.

(** [RemoveReputationAnalysisRequest] ([custom_deny.go], line 895) and its method [Validate] (lines 929-935). *)
Module RemoveReputationAnalysisRequest.
Record t : Type := mk
  { ConfigID : Z
  ; Version : Z
  ; PolicyID : string
  ; ForwardToHTTPHeader : bool
  ; ForwardSharedIPToHTTPHeaderAndSIEM : bool
  }.
#[global] Instance Zero_RemoveReputationAnalysisRequest : Zero t := mk zero zero zero zero zero.

Definition Validate (v : t) : option validation.Errors :=
  validation.Filter
    [ ("ConfigID", validation.Validate (any_int (ConfigID v)) [validation.Required])
    ; ("Version", validation.Validate (any_int (Version v)) [validation.Required])
    ; ("PolicyID", validation.Validate (any_string (PolicyID v)) [validation.Required])
    ].
End RemoveReputationAnalysisRequest.

(** [RemoveReputationAnalysisResponse] ([custom_deny.go], line 904). *)
Module RemoveReputationAnalysisResponse.
Record t : Type := mk
  { ForwardToHTTPHeader : bool
  ; ForwardSharedIPToHTTPHeaderAndSIEM : bool
  }.
#[global] Instance Zero_RemoveReputationAnalysisResponse : Zero t := mk zero zero.
End RemoveReputationAnalysisResponse.

(** [ReputationProfileCondition] ([reputation_profile.go], line 49). *)
Module ReputationProfileCondition.
Module AtomicConditions_.
Record t : Type := mk
  { CheckIps : option json.RawMessage
  ; ClassName : string
  ; Index : Z
  ; PositiveMatch : option json.RawMessage
  ; Value : list string
  ; Name : option json.RawMessage
  ; NameCase : bool
  ; NameWildcard : option json.RawMessage
  ; ValueCase : bool
  ; ValueWildcard : option json.RawMessage
  ; Host : list string
  }.
#[global] Instance Zero_ReputationProfileCondition_AtomicConditions_ : Zero t := mk zero zero zero zero zero zero zero zero zero zero zero.
End AtomicConditions_.
Record t : Type := mk
  { AtomicConditions : list AtomicConditions_.t
  ; PositiveMatch : option json.RawMessage
  }.
#[global] Instance Zero_ReputationProfileCondition : Zero t := mk zero zero.
End ReputationProfileCondition.

(** [GetReputationProfilesResponse] ([reputation_profile.go], line 36). *)
Module GetReputationProfilesResponse.
Module ReputationProfiles_.
Record t : Type := mk
  { Condition : option ReputationProfileCondition.t
  ; Context : string
  ; ContextReadable : string
  ; Enabled : bool
  ; ID : Z
  ; Name : string
  ; SharedIPHandling : string
  ; Threshold : Z
  }.
#[global] Instance Zero_GetReputationProfilesResponse_ReputationProfiles_ : Zero t := mk zero zero zero zero zero zero zero zero.
End ReputationProfiles_.
Record t : Type := mk
  { ReputationProfiles : list ReputationProfiles_.t
  }.
#[global] Instance Zero_GetReputationProfilesResponse : Zero t := mk zero.
End GetReputationProfilesResponse.

(** [GetReputationProfileResponseCondition] ([reputation_profile.go], line 77). *)
Module GetReputationProfileResponseCondition.
Module AtomicConditions_.
Record t : Type := mk
  { CheckIps : option json.RawMessage
  ; ClassName : string
  ; Index : Z
  ; PositiveMatch : json.RawMessage
  ; Value : list string
  ; Name : option json.RawMessage
  ; NameCase : bool
  ; NameWildcard : option json.RawMessage
  ; ValueCase : bool
  ; ValueWildcard : option json.RawMessage
  ; Host : list string
  }.
#[global] Instance Zero_GetReputationProfileResponseCondition_AtomicConditions_ : Zero t := mk zero zero zero zero zero zero zero zero zero zero zero.
End AtomicConditions_.
Record t : Type := mk
  { AtomicConditions : list AtomicConditions_.t
  ; PositiveMatch : option json.RawMessage
  }.
#[global] Instance Zero_GetReputationProfileResponseCondition : Zero t := mk zero zero.
End GetReputationProfileResponseCondition.

(** [GetReputationProfileResponse] ([reputation_profile.go], line 66). *)
Module GetReputationProfileResponse.
Record t : Type := mk
  { Condition : option GetReputationProfileResponseCondition.t
  ; Context : string
  ; ContextReadable : string
  ; Enabled : bool
  ; ID : Z
  ; Name : string
  ; SharedIPHandling : string
  ; Threshold : Z
  }.
#[global] Instance Zero_GetReputationProfileResponse : Zero t := mk zero zero zero zero zero zero zero zero.
End GetReputationProfileResponse.

(** [CreateReputationProfileResponse] ([reputation_profile.go], line 94). *)
Module CreateReputationProfileResponse.
Module Condition_.
Module AtomicConditions_.
Record t : Type := mk
  { CheckIps : string
  ; ClassName : string
  ; Index : Z
  ; PositiveMatch : bool
  ; Value : list string
  ; Name : atomicConditionsName.t
  ; NameCase : bool
  ; NameWildcard : bool
  ; ValueCase : bool
  ; ValueWildcard : bool
  ; Host : list string
  }.
#[global] Instance Zero_CreateReputationProfileResponse_Condition__AtomicConditions_ : Zero t := mk zero zero zero zero zero zero zero zero zero zero zero.
End AtomicConditions_.
Record t : Type := mk
  { AtomicConditions : list AtomicConditions_.t
  ; PositiveMatch : option json.RawMessage
  }.
#[global] Instance Zero_CreateReputationProfileResponse_Condition_ : Zero t := mk zero zero.
End Condition_.
Record t : Type := mk
  { ID : Z
  ; Name : string
  ; Context : string
  ; Description : string
  ; Threshold : Z
  ; SharedIPHandling : string
  ; Condition : Condition_.t
  ; Enabled : bool
  }.
#[global] Instance Zero_CreateReputationProfileResponse : Zero t := mk zero zero zero zero zero zero zero zero.
End CreateReputationProfileResponse.

(** [UpdateReputationProfileResponse] ([reputation_profile.go], line 120). *)
Module UpdateReputationProfileResponse.
Module Path_.
Record t : Type := mk
  { PositiveMatch : bool
  ; Values : list string
  }.
#[global] Instance Zero_UpdateReputationProfileResponse_Path_ : Zero t := mk zero zero.
End Path_.
Module FileExtensions_.
Record t : Type := mk
  { PositiveMatch : bool
  ; Values : list string
  }.
#[global] Instance Zero_UpdateReputationProfileResponse_FileExtensions_ : Zero t := mk zero zero.
End FileExtensions_.
Module AdditionalMatchOptions_.
Record t : Type := mk
  { PositiveMatch : bool
  ; Type_ : string
  ; Values : list string
  }.
#[global] Instance Zero_UpdateReputationProfileResponse_AdditionalMatchOptions_ : Zero t := mk zero zero zero.
End AdditionalMatchOptions_.
Module QueryParameters_.
Record t : Type := mk
  { Name : string
  ; Values : list string
  ; PositiveMatch : bool
  ; ValueInRange : bool
  }.
#[global] Instance Zero_UpdateReputationProfileResponse_QueryParameters_ : Zero t := mk zero zero zero zero.
End QueryParameters_.
Record t : Type := mk
  { ID : Z
  ; PolicyID : Z
  ; ConfigID : Z
  ; ConfigVersion : Z
  ; MatchType : string
  ; Type_ : string
  ; Name : string
  ; Description : string
  ; AverageThreshold : Z
  ; BurstThreshold : Z
  ; ClientIdentifier : string
  ; UseXForwardForHeaders : bool
  ; RequestType : string
  ; SameActionOnIpv6 : bool
  ; Path : Path_.t
  ; PathMatchType : string
  ; PathURIPositiveMatch : bool
  ; FileExtensions : FileExtensions_.t
  ; Hostnames : list string
  ; AdditionalMatchOptions : list AdditionalMatchOptions_.t
  ; QueryParameters : list QueryParameters_.t
  ; CreateDate : string
  ; UpdateDate : string
  ; Used : bool
  }.
#[global] Instance Zero_UpdateReputationProfileResponse : Zero t := mk zero zero zero zero zero zero zero zero zero zero zero zero zero zero zero zero zero zero zero zero zero zero zero zero.
End UpdateReputationProfileResponse.

(** [RemoveReputationProfileResponse] ([reputation_profile.go], line 162). *)
Module RemoveReputationProfileResponse.
Module Path_.
Record t : Type := mk
  { PositiveMatch : bool
  ; Values : list string
  }.
#[global] Instance Zero_RemoveReputationProfileResponse_Path_ : Zero t := mk zero zero.
End Path_.
Module FileExtensions_.
Record t : Type := mk
  { PositiveMatch : bool
  ; Values : list string
  }.
#[global] Instance Zero_RemoveReputationProfileResponse_FileExtensions_ : Zero t := mk zero zero.
End FileExtensions_.
Module AdditionalMatchOptions_.
Record t : Type := mk
  { PositiveMatch : bool
  ; Type_ : string
  ; Values : list string
  }.
#[global] Instance Zero_RemoveReputationProfileResponse_AdditionalMatchOptions_ : Zero t := mk zero zero zero.
End AdditionalMatchOptions_.
Module QueryParameters_.
Record t : Type := mk
  { Name : string
  ; Values : list string
  ; PositiveMatch : bool
  ; ValueInRange : bool
  }.
#[global] Instance Zero_RemoveReputationProfileResponse_QueryParameters_ : Zero t := mk zero zero zero zero.
End QueryParameters_.
Record t : Type := mk
  { ID : Z
  ; PolicyID : Z
  ; ConfigID : Z
  ; ConfigVersion : Z
  ; MatchType : string
  ; Type_ : string
  ; Name : string
  ; Description : string
  ; AverageThreshold : Z
  ; BurstThreshold : Z
  ; ClientIdentifier : string
  ; UseXForwardForHeaders : bool
  ; RequestType : string
  ; SameActionOnIpv6 : bool
  ; Path : Path_.t
  ; PathMatchType : string
  ; PathURIPositiveMatch : bool
  ; FileExtensions : FileExtensions_.t
  ; Hostnames : list string
  ; AdditionalMatchOptions : list AdditionalMatchOptions_.t
  ; QueryParameters : list QueryParameters_.t
  ; CreateDate : string
  ; UpdateDate : string
  ; Used : bool
  }.
#[global] Instance Zero_RemoveReputationProfileResponse : Zero t := mk zero zero zero zero zero zero zero zero zero zero zero zero zero zero zero zero zero zero zero zero zero zero zero zero.
End RemoveReputationProfileResponse.

(** [GetReputationProfilesRequest] ([reputation_profile.go], line 204) and its method [Validate] (lines 273-278). *)
Module GetReputationProfilesRequest.
Record t : Type := mk
  { ConfigID : Z
  ; ConfigVersion : Z
  ; ReputationProfileId : Z
  }.
#[global] Instance Zero_GetReputationProfilesRequest : Zero t := mk zero zero zero.

Definition Validate (v : t) : option validation.Errors :=
  validation.Filter
    [ ("ConfigID", validation.Validate (any_int (ConfigID v)) [validation.Required])
    ; ("ConfigVersion", validation.Validate (any_int (ConfigVersion v)) [validation.Required])
    ].
End GetReputationProfilesRequest.

(** [GetReputationProfileRequest] ([reputation_profile.go], line 210) and its method [Validate] (lines 264-270). *)
Module GetReputationProfileRequest.
Record t : Type := mk
  { ConfigID : Z
  ; ConfigVersion : Z
  ; ReputationProfileId : Z
  }.
#[global] Instance Zero_GetReputationProfileRequest : Zero t := mk zero zero zero.

Definition Validate (v : t) : option validation.Errors :=
  validation.Filter
    [ ("ConfigID", validation.Validate (any_int (ConfigID v)) [validation.Required])
    ; ("ConfigVersion", validation.Validate (any_int (ConfigVersion v)) [validation.Required])
    ; ("RatePolicyID", validation.Validate (any_int (ReputationProfileId v)) [validation.Required])
    ].
End GetReputationProfileRequest.

(** [CreateReputationProfileRequest] ([reputation_profile.go], line 216) and its method [Validate] (lines 281-286). *)
Module CreateReputationProfileRequest.
Record t : Type := mk
  { ConfigID : Z
  ; ConfigVersion : Z
  ; JsonPayloadRaw : json.RawMessage
  }.
#[global] Instance Zero_CreateReputationProfileRequest : Zero t := mk zero zero zero.

Definition Validate (v : t) : option validation.Errors :=
  validation.Filter
    [ ("ConfigID", validation.Validate (any_int (ConfigID v)) [validation.Required])
    ; ("ConfigVersion", validation.Validate (any_int (ConfigVersion v)) [validation.Required])
    ].
End CreateReputationProfileRequest.

(** [UpdateReputationProfileRequest] ([reputation_profile.go], line 222) and its method [Validate] (lines 289-295). *)
Module UpdateReputationProfileRequest.
Record t : Type := mk
  { ConfigID : Z
  ; ConfigVersion : Z
  ; ReputationProfileId : Z
  ; JsonPayloadRaw : json.RawMessage
  }.
#[global] Instance Zero_UpdateReputationProfileRequest : Zero t := mk zero zero zero zero.

Definition Validate (v : t) : option validation.Errors :=
  validation.Filter
    [ ("ConfigID", validation.Validate (any_int (ConfigID v)) [validation.Required])
    ; ("ConfigVersion", validation.Validate (any_int (ConfigVersion v)) [validation.Required])
    ; ("ReputationProfileId", validation.Validate (any_int (ReputationProfileId v)) [validation.Required])
    ].
End UpdateReputationProfileRequest.

(** [RemoveReputationProfileRequest] ([reputation_profile.go], line 229) and its method [Validate] (lines 298-304). *)
Module RemoveReputationProfileRequest.
Record t : Type := mk
  { ConfigID : Z
  ; ConfigVersion : Z
  ; ReputationProfileId : Z
  }.
#[global] Instance Zero_RemoveReputationProfileRequest : Zero t := mk zero zero zero.

Definition Validate (v : t) : option validation.Errors :=
  validation.Filter
    [ ("ConfigID", validation.Validate (any_int (ConfigID v)) [validation.Required])
    ; ("ConfigVersion", validation.Validate (any_int (ConfigVersion v)) [validation.Required])
    ; ("ReputationProfileId", validation.Validate (any_int (ReputationProfileId v)) [validation.Required])
    ].
End RemoveReputationProfileRequest.

(** [GetConfigurationCloneRequest] ([configuration_clone.go], line 29) and its method [Validate] (lines 89-94). *)
Module GetConfigurationCloneRequest.
Module Production_.
Record t : Type := mk
  { Status : string
  ; Time : time.Time
  }.
#[global] Instance Zero_GetConfigurationCloneRequest_Production_ : Zero t := mk zero zero.
End Production_.
Module Staging_.
Record t : Type := mk
  { Status : string
  }.
#[global] Instance Zero_GetConfigurationCloneRequest_Staging_ : Zero t := mk zero.
End Staging_.
Record t : Type := mk
  { ConfigID : Z
  ; ConfigName : string
  ; Version : Z
  ; VersionNotes : string
  ; CreateDate : time.Time
  ; CreatedBy : string
  ; BasedOn : Z
  ; Production : Production_.t
  ; Staging : Staging_.t
  }.
#[global] Instance Zero_GetConfigurationCloneRequest : Zero t := mk zero zero zero zero zero zero zero zero zero.

Definition Validate (v : t) : option validation.Errors :=
  validation.Filter
    [ ("ConfigID", validation.Validate (any_int (ConfigID v)) [validation.Required])
    ; ("Version", validation.Validate (any_int (Version v)) [validation.Required])
    ].
End GetConfigurationCloneRequest.

(** [CreateConfigurationCloneResponse] ([configuration_clone.go], line 46). *)
Module CreateConfigurationCloneResponse.
Record t : Type := mk
  { ConfigID : Z
  ; Version : Z
  ; Description : string
  ; Name : string
  }.
#[global] Instance Zero_CreateConfigurationCloneResponse : Zero t := mk zero zero zero zero.
End CreateConfigurationCloneResponse.

(** [GetConfigurationCloneResponse] ([configuration_clone.go], line 53). *)
Module GetConfigurationCloneResponse.
Module Production_.
Record t : Type := mk
  { Status : string
  ; Time : time.Time
  }.
#[global] Instance Zero_GetConfigurationCloneResponse_Production_ : Zero t := mk zero zero.
End Production_.
Module Staging_.
Record t : Type := mk
  { Status : string
  }.
#[global] Instance Zero_GetConfigurationCloneResponse_Staging_ : Zero t := mk zero.
End Staging_.
Record t : Type := mk
  { ConfigID : Z
  ; ConfigName : string
  ; Version : Z
  ; VersionNotes : string
  ; CreateDate : time.Time
  ; CreatedBy : string
  ; BasedOn : Z
  ; Production : Production_.t
  ; Staging : Staging_.t
  }.
#[global] Instance Zero_GetConfigurationCloneResponse : Zero t := mk zero zero zero zero zero zero zero zero zero.
End GetConfigurationCloneResponse.

(** [CreateConfigurationCloneRequest] ([configuration_clone.go], line 75) and its method [Validate] (lines 97-101). *)
Module CreateConfigurationCloneRequest.
Module CreateFrom_.
Record t : Type := mk
  { ConfigID : Z
  ; Version : Z
  }.
#[global] Instance Zero_CreateConfigurationCloneRequest_CreateFrom_ : Zero t := mk zero zero.
End CreateFrom_.
Record t : Type := mk
  { Name : string
  ; Description : string
  ; ContractID : string
  ; GroupID : Z
  ; Hostnames : list string
  ; CreateFrom : CreateFrom_.t
  }.
#[global] Instance Zero_CreateConfigurationCloneRequest : Zero t := mk zero zero zero zero zero zero.

Definition Validate (v : t) : option validation.Errors :=
  validation.Filter
    [ ("CreateFromConfigID", validation.Validate (any_int (CreateFrom_.ConfigID (CreateFrom v))) [validation.Required])
    ].
End CreateConfigurationCloneRequest.

(** [GetVersionNotesRequest] ([version_notes.go], line 24) and its method [Validate] (lines 49-54). *)
Module GetVersionNotesRequest.
Record t : Type := mk
  { ConfigID : Z
  ; Version : Z
  }.
#[global] Instance Zero_GetVersionNotesRequest : Zero t := mk zero zero.

Definition Validate (v : t) : option validation.Errors :=
  validation.Filter
    [ ("ConfigID", validation.Validate (any_int (ConfigID v)) [validation.Required])
    ; ("Version", validation.Validate (any_int (Version v)) [validation.Required])
    ].
End GetVersionNotesRequest.

(** [GetVersionNotesResponse] ([version_notes.go], line 30). *)
Module GetVersionNotesResponse.
Record t : Type := mk
  { Notes : string
  }.
#[global] Instance Zero_GetVersionNotesResponse : Zero t := mk zero.
End GetVersionNotesResponse.

(** [UpdateVersionNotesRequest] ([version_notes.go], line 35) and its method [Validate] (lines 57-62). *)
Module UpdateVersionNotesRequest.
Record t : Type := mk
  { ConfigID : Z
  ; Version : Z
  ; Notes : string
  }.
#[global] Instance Zero_UpdateVersionNotesRequest : Zero t := mk zero zero zero.

Definition Validate (v : t) : option validation.Errors :=
  validation.Filter
    [ ("ConfigID", validation.Validate (any_int (ConfigID v)) [validation.Required])
    ; ("Version", validation.Validate (any_int (Version v)) [validation.Required])
    ].
End UpdateVersionNotesRequest.

(** [UpdateVersionNotesResponse] ([version_notes.go], line 43). *)
Module UpdateVersionNotesResponse.
Record t : Type := mk
  { Notes : string
  }.
#[global] Instance Zero_UpdateVersionNotesResponse : Zero t := mk zero.
End UpdateVersionNotesResponse.

Inductive ExecIn : Type :=
| InRawMessage (m : json.RawMessage)
| InUpdateAttackGroupRequest (r : UpdateAttackGroupRequest.t)
| InUpdateReputationAnalysisRequest (r : UpdateReputationAnalysisRequest.t)
| InRemoveReputationAnalysisRequest (r : RemoveReputationAnalysisRequest.t)
| InCreateConfigurationCloneRequest (r : CreateConfigurationCloneRequest.t)
| InUpdateVersionNotesRequest (r : UpdateVersionNotesRequest.t).

(** ** The session and the effect of an operation *)

(** The receiver [p *appsec] with the collaborators the operations call:
    [roundTrip] is what [p.Exec] obtains for a request and its body arguments
    (the response with the content decoded into the destination, or a
    transport fault), [Error] is the shared error mapper [p.Error], and
    [url_Parse] is [url.Parse].  [p.Exec] decodes the body into the
    destination with [json.Unmarshal], which runs the [UnmarshalJSON] methods
    of the fields of the destination: where one of them panics, so does
    [p.Exec]. *)
Record appsec (R : Type) : Type := mkAppsec
  { roundTrip : http.Request -> list ExecIn -> outcome ((http.Response * R) + error)
  ; Error : http.Response -> error
  ; url_Parse : string -> url.URL + error
  }.

(** One invocation of [p.Exec]: the request, whether a destination was given,
    and the body arguments. *)
Record ExecCall : Type := mkCall
  { call_req : http.Request
  ; call_out : bool
  ; call_in : list ExecIn
  }.

(** An operation runs against the log of the [Exec] invocations made so far;
    it returns or panics. *)
Definition M (A : Type) : Type := list ExecCall -> outcome A * list ExecCall.

Definition ret {A : Type} (a : A) : M A := fun log => (Normal a, log).

Definition bind {A B : Type} (m : M A) (k : A -> M B) : M B :=
  fun log =>
    match m log with
    | (Normal a, log') => k a log'
    | (Panic msg, log') => (Panic msg, log')
    end.

Notation "x <- m ;; k" := (bind m (fun x => k))
  (at level 61, m at next level, right associativity).

(** [p.Exec(req, &rval, in...)]: the response and the new content of [rval],
    or the error. *)
Definition Exec {R : Type} (p : appsec R) (req : http.Request) (ins : list ExecIn)
  : M ((http.Response * R) + error) :=
  fun log => (roundTrip p req ins, log ++ [mkCall req true ins]).

(** [p.Exec(req, nil, in...)]: nothing is decoded. *)
Definition Exec_nil {R : Type} (p : appsec R) (req : http.Request) (ins : list ExecIn)
  : M (http.Response + error) :=
  fun log =>
    (match roundTrip p req ins with
     | Normal (inl (resp, _)) => Normal (inl resp)
     | Normal (inr e) => Normal (inr e)
     | Panic msg => Panic msg
     end, log ++ [mkCall req false ins]).

(** The outcome of an operation and the [Exec] invocations it made. *)
Definition run {A : Type} (m : M A) : outcome A * list ExecCall := m [].

(** [for k, val := range l { s = body k val s }]. *)
Fixpoint rangeFrom {A S : Type} (k : nat) (l : list A) (body : nat -> A -> S -> S) (s : S) : S :=
  match l with
  | [] => s
  | val :: rest => rangeFrom (Datatypes.S k) rest body (body k val s)
  end.

Definition range {A S : Type} (l : list A) (body : nat -> A -> S -> S) (s : S) : S :=
  rangeFrom 0 l body s.

(** ** The operations

    The calls to the logger ([p.Log(ctx)], [logger.Debug]) only trace and are
    left out. *)

(** [func (p *appsec) GetAttackGroup] ([attack_group.go], lines 194-227). *)
Definition GetAttackGroup (p : appsec GetAttackGroupResponse.t)
    (params : GetAttackGroupRequest.t)
  : M (option GetAttackGroupResponse.t * option error) :=
  match GetAttackGroupRequest.Validate params with
  | Some err =>
      ret (None, Some (fmt.Errorf "%w: %s"
          [fmt.Err (Some ErrStructValidation); fmt.Str (validation.Errors_Error err)]))
  | None =>
  let rval : GetAttackGroupResponse.t := zero in
  let uri := fmt.Sprintf "/appsec/v1/configs/%d/versions/%d/security-policies/%s/attack-groups/%s?includeConditionException=true"
        [ fmt.Int (GetAttackGroupRequest.ConfigID params)
        ; fmt.Int (GetAttackGroupRequest.Version params)
        ; fmt.Str (GetAttackGroupRequest.PolicyID params)
        ; fmt.Str (GetAttackGroupRequest.Group params) ] in
  match http.NewRequestWithContext (url_Parse p) http.MethodGet uri with
  | inr e => let err := Some e in
      ret (None, Some (fmt.Errorf "failed to create GetAttackGroup request: %w"
          [fmt.Err err]))
  | inl req => let err : option error := None in
  r <- Exec p req [] ;;
  match r with
  | inr e => let err := Some e in
      ret (None, Some (fmt.Errorf "GetAttackGroup request failed: %w"
          [fmt.Err err]))
  | inl (resp, rval) => let err : option error := None in
  if negb (http.StatusCode resp =? http.StatusOK)
  then ret (None, Some (Error p resp))
  else
  ret (Some rval, None)
  end end end.

(** [func (p *appsec) GetAttackGroups] ([attack_group.go], lines 229-272). *)
Definition GetAttackGroups (p : appsec GetAttackGroupsResponse.t)
    (params : GetAttackGroupsRequest.t)
  : M (option GetAttackGroupsResponse.t * option error) :=
  match GetAttackGroupsRequest.Validate params with
  | Some err =>
      ret (None, Some (fmt.Errorf "%w: %s"
          [fmt.Err (Some ErrStructValidation); fmt.Str (validation.Errors_Error err)]))
  | None =>
  let rval : GetAttackGroupsResponse.t := zero in
  let rvalfiltered : GetAttackGroupsResponse.t := zero in
  let uri := fmt.Sprintf "/appsec/v1/configs/%d/versions/%d/security-policies/%s/attack-groups?includeConditionException=true"
        [ fmt.Int (GetAttackGroupsRequest.ConfigID params)
        ; fmt.Int (GetAttackGroupsRequest.Version params)
        ; fmt.Str (GetAttackGroupsRequest.PolicyID params) ] in
  match http.NewRequestWithContext (url_Parse p) http.MethodGet uri with
  | inr e => let err := Some e in
      ret (None, Some (fmt.Errorf "failed to create GetAttackGroups request: %w"
          [fmt.Err err]))
  | inl req => let err : option error := None in
  r <- Exec p req [] ;;
  match r with
  | inr e => let err := Some e in
      ret (None, Some (fmt.Errorf "GetAttackGroups request failed: %w"
          [fmt.Err err]))
  | inl (resp, rval) => let err : option error := None in
  if negb (http.StatusCode resp =? http.StatusOK)
  then ret (None, Some (Error p resp))
  else
  let rvalfiltered :=
    if negb (String.eqb (GetAttackGroupsRequest.Group params) "")
    then
      range (GetAttackGroupsResponse.AttackGroups rval)
        (fun k val rvalfiltered =>
           if String.eqb (GetAttackGroupsResponse.AttackGroups_.Group val)
                         (GetAttackGroupsRequest.Group params)
           then GetAttackGroupsResponse.mk
                  (GetAttackGroupsResponse.AttackGroups rvalfiltered
                   ++ [nth k (GetAttackGroupsResponse.AttackGroups rval) zero])
           else rvalfiltered)
        rvalfiltered
    else rval in
  ret (Some rvalfiltered, None)
  end end end.

(** [func (p *appsec) UpdateAttackGroup] ([attack_group.go], lines 274-307). *)
Definition UpdateAttackGroup (p : appsec UpdateAttackGroupResponse.t)
    (params : UpdateAttackGroupRequest.t)
  : M (option UpdateAttackGroupResponse.t * option error) :=
  match UpdateAttackGroupRequest.Validate params with
  | Some err =>
      ret (None, Some (fmt.Errorf "%w: %s"
          [fmt.Err (Some ErrStructValidation); fmt.Str (validation.Errors_Error err)]))
  | None =>
  let putURL := fmt.Sprintf "/appsec/v1/configs/%d/versions/%d/security-policies/%s/attack-groups/%s/action-condition-exception"
        [ fmt.Int (UpdateAttackGroupRequest.ConfigID params)
        ; fmt.Int (UpdateAttackGroupRequest.Version params)
        ; fmt.Str (UpdateAttackGroupRequest.PolicyID params)
        ; fmt.Str (UpdateAttackGroupRequest.Group params) ] in
  match http.NewRequestWithContext (url_Parse p) http.MethodPut putURL with
  | inr e => let err := Some e in
      ret (None, Some (fmt.Errorf "failed to create UpdateAttackGroup request: %w"
          [fmt.Err err]))
  | inl req => let err : option error := None in
  let rval : UpdateAttackGroupResponse.t := zero in
  let req := http.Header_Set "Content-Type" "application/json" req in
  r <- Exec p req [InUpdateAttackGroupRequest params] ;;
  match r with
  | inr e => let err := Some e in
      ret (None, Some (fmt.Errorf "UpdateAttackGroup request failed: %w"
          [fmt.Err err]))
  | inl (resp, rval) => let err : option error := None in
  if negb (http.StatusCode resp =? http.StatusOK) && negb (http.StatusCode resp =? http.StatusCreated)
  then ret (None, Some (Error p resp))
  else
  ret (Some rval, None)
  end end end.

(** [func (p *appsec) GetApiHostnameCoverageOverlapping] ([api_hostname_coverage_overlapping.go], lines 49-82). *)
Definition GetApiHostnameCoverageOverlapping (p : appsec GetApiHostnameCoverageOverlappingResponse.t)
    (params : GetApiHostnameCoverageOverlappingRequest.t)
  : M (option GetApiHostnameCoverageOverlappingResponse.t * option error) :=
  match GetApiHostnameCoverageOverlappingRequest.Validate params with
  | Some err =>
      ret (None, Some (fmt.Errorf "%w: %s"
          [fmt.Err (Some ErrStructValidation); fmt.Str (validation.Errors_Error err)]))
  | None =>
  let rval : GetApiHostnameCoverageOverlappingResponse.t := zero in
  let uri := fmt.Sprintf "/appsec/v1/configs/%d/versions/%d/hostname-coverage/overlapping?hostname=%s"
        [ fmt.Int (GetApiHostnameCoverageOverlappingRequest.ConfigID params)
        ; fmt.Int (GetApiHostnameCoverageOverlappingRequest.Version params)
        ; fmt.Str (GetApiHostnameCoverageOverlappingRequest.Hostname params) ] in
  match http.NewRequestWithContext (url_Parse p) http.MethodGet uri with
  | inr e => let err := Some e in
      ret (None, Some (fmt.Errorf "failed to create GetApiHostnameCoverageOverlapping request: %w"
          [fmt.Err err]))
  | inl req => let err : option error := None in
  r <- Exec p req [] ;;
  match r with
  | inr e => let err := Some e in
      ret (None, Some (fmt.Errorf "GetApiHostnameCoverageOverlapping request failed: %w"
          [fmt.Err err]))
  | inl (resp, rval) => let err : option error := None in
  if negb (http.StatusCode resp =? http.StatusOK)
  then ret (None, Some (Error p resp))
  else
  ret (Some rval, None)
  end end end.

(** [func (p *appsec) GetCustomDeny] ([custom_deny.go], lines 194-226). *)
Definition GetCustomDeny (p : appsec GetCustomDenyResponse.t)
    (params : GetCustomDenyRequest.t)
  : M (option GetCustomDenyResponse.t * option error) :=
  match GetCustomDenyRequest.Validate params with
  | Some err =>
      ret (None, Some (fmt.Errorf "%w: %s"
          [fmt.Err (Some ErrStructValidation); fmt.Str (validation.Errors_Error err)]))
  | None =>
  let rval : GetCustomDenyResponse.t := zero in
  let uri := fmt.Sprintf "/appsec/v1/configs/%d/versions/%d/custom-deny/%s"
        [ fmt.Int (GetCustomDenyRequest.ConfigID params)
        ; fmt.Int (GetCustomDenyRequest.Version params)
        ; fmt.Str (GetCustomDenyRequest.ID params) ] in
  match http.NewRequestWithContext (url_Parse p) http.MethodGet uri with
  | inr e => let err := Some e in
      ret (None, Some (fmt.Errorf "failed to create GetCustomDeny request: %w"
          [fmt.Err err]))
  | inl req => let err : option error := None in
  r <- Exec p req [] ;;
  match r with
  | inr e => let err := Some e in
      ret (None, Some (fmt.Errorf "GetCustomDeny request failed: %w"
          [fmt.Err err]))
  | inl (resp, rval) => let err : option error := None in
  if negb (http.StatusCode resp =? http.StatusOK)
  then ret (None, Some (Error p resp))
  else
  ret (Some rval, None)
  end end end.

(** [func (p *appsec) GetCustomDenyList] ([custom_deny.go], lines 228-271). *)
Definition GetCustomDenyList (p : appsec GetCustomDenyListResponse.t)
    (params : GetCustomDenyListRequest.t)
  : M (option GetCustomDenyListResponse.t * option error) :=
  match GetCustomDenyListRequest.Validate params with
  | Some err =>
      ret (None, Some (fmt.Errorf "%w: %s"
          [fmt.Err (Some ErrStructValidation); fmt.Str (validation.Errors_Error err)]))
  | None =>
  let rval : GetCustomDenyListResponse.t := zero in
  let rvalfiltered : GetCustomDenyListResponse.t := zero in
  let uri := fmt.Sprintf "/appsec/v1/configs/%d/versions/%d/custom-deny"
        [ fmt.Int (GetCustomDenyListRequest.ConfigID params)
        ; fmt.Int (GetCustomDenyListRequest.Version params) ] in
  match http.NewRequestWithContext (url_Parse p) http.MethodGet uri with
  | inr e => let err := Some e in
      ret (None, Some (fmt.Errorf "failed to create GetlustomDenyList request: %w"
          [fmt.Err err]))
  | inl req => let err : option error := None in
  r <- Exec p req [] ;;
  match r with
  | inr e => let err := Some e in
      ret (None, Some (fmt.Errorf "GetCustomDenyList request failed: %w"
          [fmt.Err err]))
  | inl (resp, rval) => let err : option error := None in
  if negb (http.StatusCode resp =? http.StatusOK)
  then ret (None, Some (Error p resp))
  else
  let rvalfiltered :=
    if negb (String.eqb (GetCustomDenyListRequest.ID params) "")
    then
      range (GetCustomDenyListResponse.CustomDenyList rval)
        (fun _ val rvalfiltered =>
           if String.eqb (GetCustomDenyListResponse.CustomDenyList_.ID val)
                         (GetCustomDenyListRequest.ID params)
           then GetCustomDenyListResponse.mk
                  (GetCustomDenyListResponse.CustomDenyList rvalfiltered ++ [val])
           else rvalfiltered)
        rvalfiltered
    else rval in
  ret (Some rvalfiltered, None)
  end end end.

(** [func (p *appsec) UpdateCustomDeny] ([custom_deny.go], lines 273-305). *)
Definition UpdateCustomDeny (p : appsec UpdateCustomDenyResponse.t)
    (params : UpdateCustomDenyRequest.t)
  : M (option UpdateCustomDenyResponse.t * option error) :=
  match UpdateCustomDenyRequest.Validate params with
  | Some err =>
      ret (None, Some (fmt.Errorf "%w: %s"
          [fmt.Err (Some ErrStructValidation); fmt.Str (validation.Errors_Error err)]))
  | None =>
  let putURL := fmt.Sprintf "/appsec/v1/configs/%d/versions/%d/custom-deny/%s"
        [ fmt.Int (UpdateCustomDenyRequest.ConfigID params)
        ; fmt.Int (UpdateCustomDenyRequest.Version params)
        ; fmt.Str (UpdateCustomDenyRequest.ID params) ] in
  match http.NewRequestWithContext (url_Parse p) http.MethodPut putURL with
  | inr e => let err := Some e in
      ret (None, Some (fmt.Errorf "failed to create UpdateCustomDeny request: %w"
          [fmt.Err err]))
  | inl req => let err : option error := None in
  let rval : UpdateCustomDenyResponse.t := zero in
  let req := http.Header_Set "Content-Type" "application/json" req in
  r <- Exec p req [InRawMessage (UpdateCustomDenyRequest.JsonPayloadRaw params)] ;;
  match r with
  | inr e => let err := Some e in
      ret (None, Some (fmt.Errorf "UpdateCustomDeny request failed: %w"
          [fmt.Err err]))
  | inl (resp, rval) => let err : option error := None in
  if negb (http.StatusCode resp =? http.StatusOK) && negb (http.StatusCode resp =? http.StatusCreated)
  then ret (None, Some (Error p resp))
  else
  ret (Some rval, None)
  end end end.

(** [func (p *appsec) CreateCustomDeny] ([custom_deny.go], lines 307-339). *)
Definition CreateCustomDeny (p : appsec CreateCustomDenyResponse.t)
    (params : CreateCustomDenyRequest.t)
  : M (option CreateCustomDenyResponse.t * option error) :=
  match CreateCustomDenyRequest.Validate params with
  | Some err =>
      ret (None, Some (fmt.Errorf "%w: %s"
          [fmt.Err (Some ErrStructValidation); fmt.Str (validation.Errors_Error err)]))
  | None =>
  let uri := fmt.Sprintf "/appsec/v1/configs/%d/versions/%d/custom-deny"
        [ fmt.Int (CreateCustomDenyRequest.ConfigID params)
        ; fmt.Int (CreateCustomDenyRequest.Version params) ] in
  match http.NewRequestWithContext (url_Parse p) http.MethodPost uri with
  | inr e => let err := Some e in
      ret (None, Some (fmt.Errorf "failed to create CreateCustomDeny request: %w"
          [fmt.Err err]))
  | inl req => let err : option error := None in
  let rval : CreateCustomDenyResponse.t := zero in
  let req := http.Header_Set "Content-Type" "application/json" req in
  r <- Exec p req [InRawMessage (CreateCustomDenyRequest.JsonPayloadRaw params)] ;;
  match r with
  | inr e => let err := Some e in
      ret (None, Some (fmt.Errorf "CreateCustomDeny request failed: %w"
          [fmt.Err err]))
  | inl (resp, rval) => let err : option error := None in
  if negb (http.StatusCode resp =? http.StatusOK) && negb (http.StatusCode resp =? http.StatusCreated)
  then ret (None, Some (Error p resp))
  else
  ret (Some rval, None)
  end end end.

(** [func (p *appsec) RemoveCustomDeny] ([custom_deny.go], lines 341-376). *)
Definition RemoveCustomDeny (p : appsec RemoveCustomDenyResponse.t)
    (params : RemoveCustomDenyRequest.t)
  : M (option RemoveCustomDenyResponse.t * option error) :=
  match RemoveCustomDenyRequest.Validate params with
  | Some err =>
      ret (None, Some (fmt.Errorf "%w: %s"
          [fmt.Err (Some ErrStructValidation); fmt.Str (validation.Errors_Error err)]))
  | None =>
  let rval : RemoveCustomDenyResponse.t := zero in
  match url_Parse p (fmt.Sprintf "/appsec/v1/configs/%d/versions/%d/custom-deny/%s"
        [ fmt.Int (RemoveCustomDenyRequest.ConfigID params)
        ; fmt.Int (RemoveCustomDenyRequest.Version params)
        ; fmt.Str (RemoveCustomDenyRequest.ID params) ]) with
  | inr e => let err := Some e in
      ret (None, Some (fmt.Errorf "failed to parse url: %w"
          [fmt.Err err]))
  | inl uri => let err : option error := None in
  match http.NewRequestWithContext (url_Parse p) http.MethodDelete (url.String_ uri) with
  | inr e => let err := Some e in
      ret (None, Some (fmt.Errorf "failed to create RemoveCustomDeny request: %w"
          [fmt.Err err]))
  | inl req => let err : option error := None in
  r <- Exec p req [] ;;
  match r with
  | inr e => let err := Some e in
      ret (None, Some (fmt.Errorf "RemoveCustomDeny request failed: %w"
          [fmt.Err err]))
  | inl (resp, rval) => let err : option error := None in
  if negb (http.StatusCode resp =? http.StatusNoContent) && negb (http.StatusCode resp =? http.StatusOK)
  then ret (None, Some (Error p resp))
  else
  ret (Some rval, None)
  end end end end.

(** [func (p *appsec) GetMatchTarget] ([custom_deny.go], lines 658-691). *)
Definition GetMatchTarget (p : appsec GetMatchTargetResponse.t)
    (params : GetMatchTargetRequest.t)
  : M (option GetMatchTargetResponse.t * option error) :=
  match GetMatchTargetRequest.Validate params with
  | Some err =>
      ret (None, Some (fmt.Errorf "%w: %s"
          [fmt.Err (Some ErrStructValidation); fmt.Str (validation.Errors_Error err)]))
  | None =>
  let result : GetMatchTargetResponse.t := zero in
  let uri := fmt.Sprintf "/appsec/v1/configs/%d/versions/%d/match-targets/%d?includeChildObjectName=true"
        [ fmt.Int (GetMatchTargetRequest.ConfigID params)
        ; fmt.Int (GetMatchTargetRequest.ConfigVersion params)
        ; fmt.Int (GetMatchTargetRequest.TargetID params) ] in
  match http.NewRequestWithContext (url_Parse p) http.MethodGet uri with
  | inr e => let err := Some e in
      ret (None, Some (fmt.Errorf "failed to create GetMatchTarget request: %w"
          [fmt.Err err]))
  | inl req => let err : option error := None in
  r <- Exec p req [] ;;
  match r with
  | inr e => let err := Some e in
      ret (None, Some (fmt.Errorf "GetMatchTarget request failed: %w"
          [fmt.Err err]))
  | inl (resp, result) => let err : option error := None in
  if negb (http.StatusCode resp =? http.StatusOK)
  then ret (None, Some (Error p resp))
  else
  ret (Some result, None)
  end end end.

(** [func (p *appsec) GetMatchTargets] ([custom_deny.go], lines 693-740). *)
Definition GetMatchTargets (p : appsec GetMatchTargetsResponse.t)
    (params : GetMatchTargetsRequest.t)
  : M (option GetMatchTargetsResponse.t * option error) :=
  match GetMatchTargetsRequest.Validate params with
  | Some err =>
      ret (None, Some (fmt.Errorf "%w: %s"
          [fmt.Err (Some ErrStructValidation); fmt.Str (validation.Errors_Error err)]))
  | None =>
  let result : GetMatchTargetsResponse.t := zero in
  let filteredResult : GetMatchTargetsResponse.t := zero in
  let uri := fmt.Sprintf "/appsec/v1/configs/%d/versions/%d/match-targets"
        [ fmt.Int (GetMatchTargetsRequest.ConfigID params)
        ; fmt.Int (GetMatchTargetsRequest.ConfigVersion params) ] in
  match http.NewRequestWithContext (url_Parse p) http.MethodGet uri with
  | inr e => let err := Some e in
      ret (None, Some (fmt.Errorf "failed to create GetMatchTargets request: %w"
          [fmt.Err err]))
  | inl req => let err : option error := None in
  r <- Exec p req [] ;;
  match r with
  | inr e => let err := Some e in
      ret (None, Some (fmt.Errorf "GetMatchTargets request failed: %w"
          [fmt.Err err]))
  | inl (resp, result) => let err : option error := None in
  if negb (http.StatusCode resp =? http.StatusOK)
  then ret (None, Some (Error p resp))
  else
  let filteredResult :=
    if negb (GetMatchTargetsRequest.TargetID params =? 0)
    then
      let filteredResult :=
        range (GetMatchTargetsResponse.MatchTargets_.WebsiteTargets
                 (GetMatchTargetsResponse.MatchTargets result))
          (fun _ val filteredResult =>
             if GetMatchTargetsResponse.MatchTargets_.WebsiteTargets_.TargetID val
                =? GetMatchTargetsRequest.TargetID params
             then GetMatchTargetsResponse.mk
                    (GetMatchTargetsResponse.MatchTargets_.mk
                       (GetMatchTargetsResponse.MatchTargets_.APITargets
                          (GetMatchTargetsResponse.MatchTargets filteredResult))
                       (GetMatchTargetsResponse.MatchTargets_.WebsiteTargets
                          (GetMatchTargetsResponse.MatchTargets filteredResult) ++ [val]))
             else filteredResult)
          filteredResult in
      range (GetMatchTargetsResponse.MatchTargets_.APITargets
               (GetMatchTargetsResponse.MatchTargets result))
        (fun _ val filteredResult =>
           if GetMatchTargetsResponse.MatchTargets_.APITargets_.TargetID val
              =? GetMatchTargetsRequest.TargetID params
           then GetMatchTargetsResponse.mk
                  (GetMatchTargetsResponse.MatchTargets_.mk
                     (GetMatchTargetsResponse.MatchTargets_.APITargets
                        (GetMatchTargetsResponse.MatchTargets filteredResult) ++ [val])
                     (GetMatchTargetsResponse.MatchTargets_.WebsiteTargets
                        (GetMatchTargetsResponse.MatchTargets filteredResult)))
           else filteredResult)
        filteredResult
    else result in
  ret (Some filteredResult, None)
  end end end.

(** [func (p *appsec) UpdateMatchTarget] ([custom_deny.go], lines 742-774). *)
Definition UpdateMatchTarget (p : appsec UpdateMatchTargetResponse.t)
    (params : UpdateMatchTargetRequest.t)
  : M (option UpdateMatchTargetResponse.t * option error) :=
  match UpdateMatchTargetRequest.Validate params with
  | Some err =>
      ret (None, Some (fmt.Errorf "%w: %s"
          [fmt.Err (Some ErrStructValidation); fmt.Str (validation.Errors_Error err)]))
  | None =>
  let uri := fmt.Sprintf "/appsec/v1/configs/%d/versions/%d/match-targets/%d"
        [ fmt.Int (UpdateMatchTargetRequest.ConfigID params)
        ; fmt.Int (UpdateMatchTargetRequest.ConfigVersion params)
        ; fmt.Int (UpdateMatchTargetRequest.TargetID params) ] in
  match http.NewRequestWithContext (url_Parse p) http.MethodPut uri with
  | inr e => let err := Some e in
      ret (None, Some (fmt.Errorf "failed to create UpdateMatchTarget request: %w"
          [fmt.Err err]))
  | inl req => let err : option error := None in
  let result : UpdateMatchTargetResponse.t := zero in
  let req := http.Header_Set "Content-Type" "application/json" req in
  r <- Exec p req [InRawMessage (UpdateMatchTargetRequest.JsonPayloadRaw params)] ;;
  match r with
  | inr e => let err := Some e in
      ret (None, Some (fmt.Errorf "UpdateMatchTarget request failed: %w"
          [fmt.Err err]))
  | inl (resp, result) => let err : option error := None in
  if negb (http.StatusCode resp =? http.StatusOK) && negb (http.StatusCode resp =? http.StatusCreated)
  then ret (None, Some (Error p resp))
  else
  ret (Some result, None)
  end end end.

(** [func (p *appsec) CreateMatchTarget] ([custom_deny.go], lines 776-808). *)
Definition CreateMatchTarget (p : appsec CreateMatchTargetResponse.t)
    (params : CreateMatchTargetRequest.t)
  : M (option CreateMatchTargetResponse.t * option error) :=
  match CreateMatchTargetRequest.Validate params with
  | Some err =>
      ret (None, Some (fmt.Errorf "%w: %s"
          [fmt.Err (Some ErrStructValidation); fmt.Str (validation.Errors_Error err)]))
  | None =>
  let uri := fmt.Sprintf "/appsec/v1/configs/%d/versions/%d/match-targets"
        [ fmt.Int (CreateMatchTargetRequest.ConfigID params)
        ; fmt.Int (CreateMatchTargetRequest.ConfigVersion params) ] in
  match http.NewRequestWithContext (url_Parse p) http.MethodPost uri with
  | inr e => let err := Some e in
      ret (None, Some (fmt.Errorf "failed to create CreateMatchTarget request: %w"
          [fmt.Err err]))
  | inl req => let err : option error := None in
  let result : CreateMatchTargetResponse.t := zero in
  let req := http.Header_Set "Content-Type" "application/json" req in
  r <- Exec p req [InRawMessage (CreateMatchTargetRequest.JsonPayloadRaw params)] ;;
  match r with
  | inr e => let err := Some e in
      ret (None, Some (fmt.Errorf "CreateMatchTarget request failed: %w"
          [fmt.Err err]))
  | inl (resp, result) => let err : option error := None in
  if negb (http.StatusCode resp =? http.StatusCreated) && negb (http.StatusCode resp =? http.StatusOK)
  then ret (None, Some (Error p resp))
  else
  ret (Some result, None)
  end end end.

(** [func (p *appsec) RemoveMatchTarget] ([custom_deny.go], lines 810-836). *)
Definition RemoveMatchTarget (p : appsec RemoveMatchTargetResponse.t)
    (params : RemoveMatchTargetRequest.t)
  : M (option RemoveMatchTargetResponse.t * option error) :=
  match RemoveMatchTargetRequest.Validate params with
  | Some err =>
      ret (None, Some (fmt.Errorf "%w: %s"
          [fmt.Err (Some ErrStructValidation); fmt.Str (validation.Errors_Error err)]))
  | None =>
  let result : RemoveMatchTargetResponse.t := zero in
  let uri := fmt.Sprintf "/appsec/v1/configs/%d/versions/%d/match-targets/%d"
        [ fmt.Int (RemoveMatchTargetRequest.ConfigID params)
        ; fmt.Int (RemoveMatchTargetRequest.ConfigVersion params)
        ; fmt.Int (RemoveMatchTargetRequest.TargetID params) ] in
  match http.NewRequestWithContext (url_Parse p) http.MethodDelete uri with
  | inr e => let err := Some e in
      ret (None, Some (fmt.Errorf "failed to create RemoveMatchTarget request: %w"
          [fmt.Err err]))
  | inl req => let err : option error := None in
  r <- Exec_nil p req [] ;;
  match r with
  | inr e => let errd := Some e in
      ret (None, Some (fmt.Errorf "RemoveMatchTarget request failed: %w"
          [fmt.Err err]))
  | inl resp => let errd : option error := None in
  if negb (http.StatusCode resp =? http.StatusNoContent) && negb (http.StatusCode resp =? http.StatusOK)
  then ret (None, Some (Error p resp))
  else
  ret (Some result, None)
  end end end.

(** [func (p *appsec) GetReputationAnalysis] ([custom_deny.go], lines 937-969). *)
Definition GetReputationAnalysis (p : appsec GetReputationAnalysisResponse.t)
    (params : GetReputationAnalysisRequest.t)
  : M (option GetReputationAnalysisResponse.t * option error) :=
  match GetReputationAnalysisRequest.Validate params with
  | Some err =>
      ret (None, Some (fmt.Errorf "%w: %s"
          [fmt.Err (Some ErrStructValidation); fmt.Str (validation.Errors_Error err)]))
  | None =>
  let rval : GetReputationAnalysisResponse.t := zero in
  let uri := fmt.Sprintf "/appsec/v1/configs/%d/versions/%d/security-policies/%s/reputation-analysis"
        [ fmt.Int (GetReputationAnalysisRequest.ConfigID params)
        ; fmt.Int (GetReputationAnalysisRequest.Version params)
        ; fmt.Str (GetReputationAnalysisRequest.PolicyID params) ] in
  match http.NewRequestWithContext (url_Parse p) http.MethodGet uri with
  | inr e => let err := Some e in
      ret (None, Some (fmt.Errorf "failed to create GetReputationAnalysis request: %w"
          [fmt.Err err]))
  | inl req => let err : option error := None in
  r <- Exec p req [] ;;
  match r with
  | inr e => let err := Some e in
      ret (None, Some (fmt.Errorf "GetReputationAnalysis request failed: %w"
          [fmt.Err err]))
  | inl (resp, rval) => let err : option error := None in
  if negb (http.StatusCode resp =? http.StatusOK)
  then ret (None, Some (Error p resp))
  else
  ret (Some rval, None)
  end end end.

(** [func (p *appsec) UpdateReputationAnalysis] ([custom_deny.go], lines 971-1002). *)
Definition UpdateReputationAnalysis (p : appsec UpdateReputationAnalysisResponse.t)
    (params : UpdateReputationAnalysisRequest.t)
  : M (option UpdateReputationAnalysisResponse.t * option error) :=
  match UpdateReputationAnalysisRequest.Validate params with
  | Some err =>
      ret (None, Some (fmt.Errorf "%w: %s"
          [fmt.Err (Some ErrStructValidation); fmt.Str (validation.Errors_Error err)]))
  | None =>
  let putURL := fmt.Sprintf "/appsec/v1/configs/%d/versions/%d/security-policies/%s/reputation-analysis"
        [ fmt.Int (UpdateReputationAnalysisRequest.ConfigID params)
        ; fmt.Int (UpdateReputationAnalysisRequest.Version params)
        ; fmt.Str (UpdateReputationAnalysisRequest.PolicyID params) ] in
  match http.NewRequestWithContext (url_Parse p) http.MethodPut putURL with
  | inr e => let err := Some e in
      ret (None, Some (fmt.Errorf "failed to create UpdateReputationAnalysis request: %w"
          [fmt.Err err]))
  | inl req => let err : option error := None in
  let rval : UpdateReputationAnalysisResponse.t := zero in
  r <- Exec p req [InUpdateReputationAnalysisRequest params] ;;
  match r with
  | inr e => let err := Some e in
      ret (None, Some (fmt.Errorf "UpdateReputationAnalysis request failed: %w"
          [fmt.Err err]))
  | inl (resp, rval) => let err : option error := None in
  if negb (http.StatusCode resp =? http.StatusOK) && negb (http.StatusCode resp =? http.StatusCreated)
  then ret (None, Some (Error p resp))
  else
  ret (Some rval, None)
  end end end.

(** [func (p *appsec) RemoveReputationAnalysis] ([custom_deny.go], lines 1004-1033). *)
Definition RemoveReputationAnalysis (p : appsec RemoveReputationAnalysisResponse.t)
    (params : RemoveReputationAnalysisRequest.t)
  : M (option RemoveReputationAnalysisResponse.t * option error) :=
  let rval : RemoveReputationAnalysisResponse.t := zero in
  let putURL := fmt.Sprintf "/appsec/v1/configs/%d/versions/%d/security-policies/%s/reputation-analysis"
        [ fmt.Int (RemoveReputationAnalysisRequest.ConfigID params)
        ; fmt.Int (RemoveReputationAnalysisRequest.Version params)
        ; fmt.Str (RemoveReputationAnalysisRequest.PolicyID params) ] in
  match http.NewRequestWithContext (url_Parse p) http.MethodPut putURL with
  | inr e => let err := Some e in
      ret (None, Some (fmt.Errorf "failed to create RemoveReputationAnalysis request: %w"
          [fmt.Err err]))
  | inl req => let err : option error := None in
  r <- Exec p req [InRemoveReputationAnalysisRequest params] ;;
  match r with
  | inr e => let err := Some e in
      ret (None, Some (fmt.Errorf "RemoveReputationAnalysis request failed: %w"
          [fmt.Err err]))
  | inl (resp, rval) => let err : option error := None in
  if negb (http.StatusCode resp =? http.StatusOK) && negb (http.StatusCode resp =? http.StatusCreated)
  then ret (None, Some (Error p resp))
  else
  ret (Some rval, None)
  end end.

(** [func (p *appsec) GetReputationProfile] ([reputation_profile.go], lines 306-338). *)
Definition GetReputationProfile (p : appsec GetReputationProfileResponse.t)
    (params : GetReputationProfileRequest.t)
  : M (option GetReputationProfileResponse.t * option error) :=
  match GetReputationProfileRequest.Validate params with
  | Some err =>
      ret (None, Some (fmt.Errorf "%w: %s"
          [fmt.Err (Some ErrStructValidation); fmt.Str (validation.Errors_Error err)]))
  | None =>
  let rval : GetReputationProfileResponse.t := zero in
  let uri := fmt.Sprintf "/appsec/v1/configs/%d/versions/%d/reputation-profiles/%d"
        [ fmt.Int (GetReputationProfileRequest.ConfigID params)
        ; fmt.Int (GetReputationProfileRequest.ConfigVersion params)
        ; fmt.Int (GetReputationProfileRequest.ReputationProfileId params) ] in
  match http.NewRequestWithContext (url_Parse p) http.MethodGet uri with
  | inr e => let err := Some e in
      ret (None, Some (fmt.Errorf "failed to create getreputationprofile request: %w"
          [fmt.Err err]))
  | inl req => let err : option error := None in
  r <- Exec p req [] ;;
  match r with
  | inr e => let err := Some e in
      ret (None, Some (fmt.Errorf "getproperties request failed: %w"
          [fmt.Err err]))
  | inl (resp, rval) => let err : option error := None in
  if negb (http.StatusCode resp =? http.StatusOK)
  then ret (None, Some (Error p resp))
  else
  ret (Some rval, None)
  end end end.

(** [func (p *appsec) GetReputationProfiles] ([reputation_profile.go], lines 340-384). *)
Definition GetReputationProfiles (p : appsec GetReputationProfilesResponse.t)
    (params : GetReputationProfilesRequest.t)
  : M (option GetReputationProfilesResponse.t * option error) :=
  match GetReputationProfilesRequest.Validate params with
  | Some err =>
      ret (None, Some (fmt.Errorf "%w: %s"
          [fmt.Err (Some ErrStructValidation); fmt.Str (validation.Errors_Error err)]))
  | None =>
  let rval : GetReputationProfilesResponse.t := zero in
  let rvalfiltered : GetReputationProfilesResponse.t := zero in
  let uri := fmt.Sprintf "/appsec/v1/configs/%d/versions/%d/reputation-profiles"
        [ fmt.Int (GetReputationProfilesRequest.ConfigID params)
        ; fmt.Int (GetReputationProfilesRequest.ConfigVersion params) ] in
  match http.NewRequestWithContext (url_Parse p) http.MethodGet uri with
  | inr e => let err := Some e in
      ret (None, Some (fmt.Errorf "failed to create getreputationprofiles request: %w"
          [fmt.Err err]))
  | inl req => let err : option error := None in
  r <- Exec p req [] ;;
  match r with
  | inr e => let err := Some e in
      ret (None, Some (fmt.Errorf "getreputationprofiles request failed: %w"
          [fmt.Err err]))
  | inl (resp, rval) => let err : option error := None in
  if negb (http.StatusCode resp =? http.StatusOK)
  then ret (None, Some (Error p resp))
  else
  let rvalfiltered :=
    if negb (GetReputationProfilesRequest.ReputationProfileId params =? 0)
    then
      range (GetReputationProfilesResponse.ReputationProfiles rval)
        (fun _ val rvalfiltered =>
           if GetReputationProfilesResponse.ReputationProfiles_.ID val
              =? GetReputationProfilesRequest.ReputationProfileId params
           then GetReputationProfilesResponse.mk
                  (GetReputationProfilesResponse.ReputationProfiles rvalfiltered ++ [val])
           else rvalfiltered)
        rvalfiltered
    else rval in
  ret (Some rvalfiltered, None)
  end end end.

(** [func (p *appsec) UpdateReputationProfile] ([reputation_profile.go], lines 392-424). *)
Definition UpdateReputationProfile (p : appsec UpdateReputationProfileResponse.t)
    (params : UpdateReputationProfileRequest.t)
  : M (option UpdateReputationProfileResponse.t * option error) :=
  match UpdateReputationProfileRequest.Validate params with
  | Some err =>
      ret (None, Some (fmt.Errorf "%w: %s"
          [fmt.Err (Some ErrStructValidation); fmt.Str (validation.Errors_Error err)]))
  | None =>
  let putURL := fmt.Sprintf "/appsec/v1/configs/%d/versions/%d/reputation-profiles/%d"
        [ fmt.Int (UpdateReputationProfileRequest.ConfigID params)
        ; fmt.Int (UpdateReputationProfileRequest.ConfigVersion params)
        ; fmt.Int (UpdateReputationProfileRequest.ReputationProfileId params) ] in
  match http.NewRequestWithContext (url_Parse p) http.MethodPut putURL with
  | inr e => let err := Some e in
      ret (None, Some (fmt.Errorf "failed to create create ReputationProfilerequest: %w"
          [fmt.Err err]))
  | inl req => let err : option error := None in
  let req := http.Header_Set "Content-Type" "application/json" req in
  let rval : UpdateReputationProfileResponse.t := zero in
  r <- Exec p req [InRawMessage (UpdateReputationProfileRequest.JsonPayloadRaw params)] ;;
  match r with
  | inr e => let err := Some e in
      ret (None, Some (fmt.Errorf "create ReputationProfile request failed: %w"
          [fmt.Err err]))
  | inl (resp, rval) => let err : option error := None in
  if negb (http.StatusCode resp =? http.StatusOK) && negb (http.StatusCode resp =? http.StatusCreated)
  then ret (None, Some (Error p resp))
  else
  ret (Some rval, None)
  end end end.

(** [func (p *appsec) CreateReputationProfile] ([reputation_profile.go], lines 432-464). *)
Definition CreateReputationProfile (p : appsec CreateReputationProfileResponse.t)
    (params : CreateReputationProfileRequest.t)
  : M (option CreateReputationProfileResponse.t * option error) :=
  match CreateReputationProfileRequest.Validate params with
  | Some err =>
      ret (None, Some (fmt.Errorf "%w: %s"
          [fmt.Err (Some ErrStructValidation); fmt.Str (validation.Errors_Error err)]))
  | None =>
  let uri := fmt.Sprintf "/appsec/v1/configs/%d/versions/%d/reputation-profiles"
        [ fmt.Int (CreateReputationProfileRequest.ConfigID params)
        ; fmt.Int (CreateReputationProfileRequest.ConfigVersion params) ] in
  match http.NewRequestWithContext (url_Parse p) http.MethodPost uri with
  | inr e => let err := Some e in
      ret (None, Some (fmt.Errorf "failed to create create reputationprofile request: %w"
          [fmt.Err err]))
  | inl req => let err : option error := None in
  let rval : CreateReputationProfileResponse.t := zero in
  let req := http.Header_Set "Content-Type" "application/json" req in
  r <- Exec p req [InRawMessage (CreateReputationProfileRequest.JsonPayloadRaw params)] ;;
  match r with
  | inr e => let err := Some e in
      ret (None, Some (fmt.Errorf "create reputationprofilerequest failed: %w"
          [fmt.Err err]))
  | inl (resp, rval) => let err : option error := None in
  if negb (http.StatusCode resp =? http.StatusOK) && negb (http.StatusCode resp =? http.StatusCreated)
  then ret (None, Some (Error p resp))
  else
  ret (Some rval, None)
  end end end.

(** [func (p *appsec) RemoveReputationProfile] ([reputation_profile.go], lines 473-508). *)
Definition RemoveReputationProfile (p : appsec RemoveReputationProfileResponse.t)
    (params : RemoveReputationProfileRequest.t)
  : M (option RemoveReputationProfileResponse.t * option error) :=
  match RemoveReputationProfileRequest.Validate params with
  | Some err =>
      ret (None, Some (fmt.Errorf "%w: %s"
          [fmt.Err (Some ErrStructValidation); fmt.Str (validation.Errors_Error err)]))
  | None =>
  let rval : RemoveReputationProfileResponse.t := zero in
  match url_Parse p (fmt.Sprintf "/appsec/v1/configs/%d/versions/%d/reputation-profiles/%d"
        [ fmt.Int (RemoveReputationProfileRequest.ConfigID params)
        ; fmt.Int (RemoveReputationProfileRequest.ConfigVersion params)
        ; fmt.Int (RemoveReputationProfileRequest.ReputationProfileId params) ]) with
  | inr e => let err := Some e in
      ret (None, Some (fmt.Errorf "failed parse url: %w"
          [fmt.Err err]))
  | inl uri => let err : option error := None in
  match http.NewRequestWithContext (url_Parse p) http.MethodDelete (url.String_ uri) with
  | inr e => let err := Some e in
      ret (None, Some (fmt.Errorf "failed to create delreputationprofile request: %w"
          [fmt.Err err]))
  | inl req => let err : option error := None in
  r <- Exec p req [] ;;
  match r with
  | inr e => let err := Some e in
      ret (None, Some (fmt.Errorf "delreputationprofile request failed: %w"
          [fmt.Err err]))
  | inl (resp, rval) => let err : option error := None in
  if negb (http.StatusCode resp =? http.StatusNoContent) && negb (http.StatusCode resp =? http.StatusOK)
  then ret (None, Some (Error p resp))
  else
  ret (Some rval, None)
  end end end end.

(** [func (p *appsec) GetConfigurationClone] ([configuration_clone.go], lines 103-134). *)
Definition GetConfigurationClone (p : appsec GetConfigurationCloneResponse.t)
    (params : GetConfigurationCloneRequest.t)
  : M (option GetConfigurationCloneResponse.t * option error) :=
  match GetConfigurationCloneRequest.Validate params with
  | Some err =>
      ret (None, Some (fmt.Errorf "%w: %s"
          [fmt.Err (Some ErrStructValidation); fmt.Str (validation.Errors_Error err)]))
  | None =>
  let rval : GetConfigurationCloneResponse.t := zero in
  let uri := fmt.Sprintf "/appsec/v1/configs/%d/versions/%d"
        [ fmt.Int (GetConfigurationCloneRequest.ConfigID params)
        ; fmt.Int (GetConfigurationCloneRequest.Version params) ] in
  match http.NewRequestWithContext (url_Parse p) http.MethodGet uri with
  | inr e => let err := Some e in
      ret (None, Some (fmt.Errorf "failed to create getconfigurationclone request: %w"
          [fmt.Err err]))
  | inl req => let err : option error := None in
  r <- Exec p req [] ;;
  match r with
  | inr e => let err := Some e in
      ret (None, Some (fmt.Errorf "getproperties request failed: %w"
          [fmt.Err err]))
  | inl (resp, rval) => let err : option error := None in
  if negb (http.StatusCode resp =? http.StatusOK)
  then ret (None, Some (Error p resp))
  else
  ret (Some rval, None)
  end end end.

(** [func (p *appsec) CreateConfigurationClone] ([configuration_clone.go], lines 142-171). *)
Definition CreateConfigurationClone (p : appsec CreateConfigurationCloneResponse.t)
    (params : CreateConfigurationCloneRequest.t)
  : M (option CreateConfigurationCloneResponse.t * option error) :=
  match CreateConfigurationCloneRequest.Validate params with
  | Some err =>
      ret (None, Some (fmt.Errorf "%w: %s"
          [fmt.Err (Some ErrStructValidation); fmt.Str (validation.Errors_Error err)]))
  | None =>
  let uri := "/appsec/v1/configs/" in
  match http.NewRequestWithContext (url_Parse p) http.MethodPost uri with
  | inr e => let err := Some e in
      ret (None, Some (fmt.Errorf "failed to create create configurationclone request: %w"
          [fmt.Err err]))
  | inl req => let err : option error := None in
  let rval : CreateConfigurationCloneResponse.t := zero in
  r <- Exec p req [InCreateConfigurationCloneRequest params] ;;
  match r with
  | inr e => let err := Some e in
      ret (None, Some (fmt.Errorf "create configurationclonerequest failed: %w"
          [fmt.Err err]))
  | inl (resp, rval) => let err : option error := None in
  if negb (http.StatusCode resp =? http.StatusOK) && negb (http.StatusCode resp =? http.StatusCreated)
  then ret (None, Some (Error p resp))
  else
  ret (Some rval, None)
  end end end.

(** [func (p *appsec) GetVersionNotes] ([version_notes.go], lines 64-96). *)
Definition GetVersionNotes (p : appsec GetVersionNotesResponse.t)
    (params : GetVersionNotesRequest.t)
  : M (option GetVersionNotesResponse.t * option error) :=
  match GetVersionNotesRequest.Validate params with
  | Some err =>
      ret (None, Some (fmt.Errorf "%w: %s"
          [fmt.Err (Some ErrStructValidation); fmt.Str (validation.Errors_Error err)]))
  | None =>
  let rval : GetVersionNotesResponse.t := zero in
  let uri := fmt.Sprintf "/appsec/v1/configs/%d/versions/%d/version-notes"
        [ fmt.Int (GetVersionNotesRequest.ConfigID params)
        ; fmt.Int (GetVersionNotesRequest.Version params) ] in
  match http.NewRequestWithContext (url_Parse p) http.MethodGet uri with
  | inr e => let err := Some e in
      ret (None, Some (fmt.Errorf "failed to create GetVersionNotes request: %w"
          [fmt.Err err]))
  | inl req => let err : option error := None in
  r <- Exec p req [] ;;
  match r with
  | inr e => let err := Some e in
      ret (None, Some (fmt.Errorf "GetVersionNotes request failed: %w"
          [fmt.Err err]))
  | inl (resp, rval) => let err : option error := None in
  if negb (http.StatusCode resp =? http.StatusOK)
  then ret (None, Some (Error p resp))
  else
  ret (Some rval, None)
  end end end.

(** [func (p *appsec) UpdateVersionNotes] ([version_notes.go], lines 98-128). *)
Definition UpdateVersionNotes (p : appsec UpdateVersionNotesResponse.t)
    (params : UpdateVersionNotesRequest.t)
  : M (option UpdateVersionNotesResponse.t * option error) :=
  match UpdateVersionNotesRequest.Validate params with
  | Some err =>
      ret (None, Some (fmt.Errorf "%w: %s"
          [fmt.Err (Some ErrStructValidation); fmt.Str (validation.Errors_Error err)]))
  | None =>
  let putURL := fmt.Sprintf "/appsec/v1/configs/%d/versions/%d/version-notes"
        [ fmt.Int (UpdateVersionNotesRequest.ConfigID params)
        ; fmt.Int (UpdateVersionNotesRequest.Version params) ] in
  match http.NewRequestWithContext (url_Parse p) http.MethodPut putURL with
  | inr e => let err := Some e in
      ret (None, Some (fmt.Errorf "failed to create UpdateVersionNotes request: %w"
          [fmt.Err err]))
  | inl req => let err : option error := None in
  let rval : UpdateVersionNotesResponse.t := zero in
  r <- Exec p req [InUpdateVersionNotesRequest params] ;;
  match r with
  | inr e => let err := Some e in
      ret (None, Some (fmt.Errorf "UpdateVersionNotes request failed: %w"
          [fmt.Err err]))
  | inl (resp, rval) => let err : option error := None in
  if negb (http.StatusCode resp =? http.StatusOK) && negb (http.StatusCode resp =? http.StatusCreated)
  then ret (None, Some (Error p resp))
  else
  ret (Some rval, None)
  end end end.

(** ** The operations, by name *)

Inductive operation : Type :=
| op_GetAttackGroup
| op_GetAttackGroups
| op_UpdateAttackGroup
| op_GetApiHostnameCoverageOverlapping
| op_GetCustomDeny
| op_GetCustomDenyList
| op_UpdateCustomDeny
| op_CreateCustomDeny
| op_RemoveCustomDeny
| op_GetMatchTarget
| op_GetMatchTargets
| op_UpdateMatchTarget
| op_CreateMatchTarget
| op_RemoveMatchTarget
| op_GetReputationAnalysis
| op_UpdateReputationAnalysis
| op_RemoveReputationAnalysis
| op_GetReputationProfile
| op_GetReputationProfiles
| op_UpdateReputationProfile
| op_CreateReputationProfile
| op_RemoveReputationProfile
| op_GetConfigurationClone
| op_CreateConfigurationClone
| op_GetVersionNotes
| op_UpdateVersionNotes.

Definition Request (o : operation) : Type :=
  match o with
  | op_GetAttackGroup => GetAttackGroupRequest.t
  | op_GetAttackGroups => GetAttackGroupsRequest.t
  | op_UpdateAttackGroup => UpdateAttackGroupRequest.t
  | op_GetApiHostnameCoverageOverlapping => GetApiHostnameCoverageOverlappingRequest.t
  | op_GetCustomDeny => GetCustomDenyRequest.t
  | op_GetCustomDenyList => GetCustomDenyListRequest.t
  | op_UpdateCustomDeny => UpdateCustomDenyRequest.t
  | op_CreateCustomDeny => CreateCustomDenyRequest.t
  | op_RemoveCustomDeny => RemoveCustomDenyRequest.t
  | op_GetMatchTarget => GetMatchTargetRequest.t
  | op_GetMatchTargets => GetMatchTargetsRequest.t
  | op_UpdateMatchTarget => UpdateMatchTargetRequest.t
  | op_CreateMatchTarget => CreateMatchTargetRequest.t
  | op_RemoveMatchTarget => RemoveMatchTargetRequest.t
  | op_GetReputationAnalysis => GetReputationAnalysisRequest.t
  | op_UpdateReputationAnalysis => UpdateReputationAnalysisRequest.t
  | op_RemoveReputationAnalysis => RemoveReputationAnalysisRequest.t
  | op_GetReputationProfile => GetReputationProfileRequest.t
  | op_GetReputationProfiles => GetReputationProfilesRequest.t
  | op_UpdateReputationProfile => UpdateReputationProfileRequest.t
  | op_CreateReputationProfile => CreateReputationProfileRequest.t
  | op_RemoveReputationProfile => RemoveReputationProfileRequest.t
  | op_GetConfigurationClone => GetConfigurationCloneRequest.t
  | op_CreateConfigurationClone => CreateConfigurationCloneRequest.t
  | op_GetVersionNotes => GetVersionNotesRequest.t
  | op_UpdateVersionNotes => UpdateVersionNotesRequest.t
  end.

Definition Response (o : operation) : Type :=
  match o with
  | op_GetAttackGroup => GetAttackGroupResponse.t
  | op_GetAttackGroups => GetAttackGroupsResponse.t
  | op_UpdateAttackGroup => UpdateAttackGroupResponse.t
  | op_GetApiHostnameCoverageOverlapping => GetApiHostnameCoverageOverlappingResponse.t
  | op_GetCustomDeny => GetCustomDenyResponse.t
  | op_GetCustomDenyList => GetCustomDenyListResponse.t
  | op_UpdateCustomDeny => UpdateCustomDenyResponse.t
  | op_CreateCustomDeny => CreateCustomDenyResponse.t
  | op_RemoveCustomDeny => RemoveCustomDenyResponse.t
  | op_GetMatchTarget => GetMatchTargetResponse.t
  | op_GetMatchTargets => GetMatchTargetsResponse.t
  | op_UpdateMatchTarget => UpdateMatchTargetResponse.t
  | op_CreateMatchTarget => CreateMatchTargetResponse.t
  | op_RemoveMatchTarget => RemoveMatchTargetResponse.t
  | op_GetReputationAnalysis => GetReputationAnalysisResponse.t
  | op_UpdateReputationAnalysis => UpdateReputationAnalysisResponse.t
  | op_RemoveReputationAnalysis => RemoveReputationAnalysisResponse.t
  | op_GetReputationProfile => GetReputationProfileResponse.t
  | op_GetReputationProfiles => GetReputationProfilesResponse.t
  | op_UpdateReputationProfile => UpdateReputationProfileResponse.t
  | op_CreateReputationProfile => CreateReputationProfileResponse.t
  | op_RemoveReputationProfile => RemoveReputationProfileResponse.t
  | op_GetConfigurationClone => GetConfigurationCloneResponse.t
  | op_CreateConfigurationClone => CreateConfigurationCloneResponse.t
  | op_GetVersionNotes => GetVersionNotesResponse.t
  | op_UpdateVersionNotes => UpdateVersionNotesResponse.t
  end.

Definition Validate (o : operation) : Request o -> option validation.Errors :=
  match o with
  | op_GetAttackGroup => GetAttackGroupRequest.Validate
  | op_GetAttackGroups => GetAttackGroupsRequest.Validate
  | op_UpdateAttackGroup => UpdateAttackGroupRequest.Validate
  | op_GetApiHostnameCoverageOverlapping => GetApiHostnameCoverageOverlappingRequest.Validate
  | op_GetCustomDeny => GetCustomDenyRequest.Validate
  | op_GetCustomDenyList => GetCustomDenyListRequest.Validate
  | op_UpdateCustomDeny => UpdateCustomDenyRequest.Validate
  | op_CreateCustomDeny => CreateCustomDenyRequest.Validate
  | op_RemoveCustomDeny => RemoveCustomDenyRequest.Validate
  | op_GetMatchTarget => GetMatchTargetRequest.Validate
  | op_GetMatchTargets => GetMatchTargetsRequest.Validate
  | op_UpdateMatchTarget => UpdateMatchTargetRequest.Validate
  | op_CreateMatchTarget => CreateMatchTargetRequest.Validate
  | op_RemoveMatchTarget => RemoveMatchTargetRequest.Validate
  | op_GetReputationAnalysis => GetReputationAnalysisRequest.Validate
  | op_UpdateReputationAnalysis => UpdateReputationAnalysisRequest.Validate
  | op_RemoveReputationAnalysis => RemoveReputationAnalysisRequest.Validate
  | op_GetReputationProfile => GetReputationProfileRequest.Validate
  | op_GetReputationProfiles => GetReputationProfilesRequest.Validate
  | op_UpdateReputationProfile => UpdateReputationProfileRequest.Validate
  | op_CreateReputationProfile => CreateReputationProfileRequest.Validate
  | op_RemoveReputationProfile => RemoveReputationProfileRequest.Validate
  | op_GetConfigurationClone => GetConfigurationCloneRequest.Validate
  | op_CreateConfigurationClone => CreateConfigurationCloneRequest.Validate
  | op_GetVersionNotes => GetVersionNotesRequest.Validate
  | op_UpdateVersionNotes => UpdateVersionNotesRequest.Validate
  end.

Definition call (o : operation)
  : appsec (Response o) -> Request o -> M (option (Response o) * option error) :=
  match o with
  | op_GetAttackGroup => GetAttackGroup
  | op_GetAttackGroups => GetAttackGroups
  | op_UpdateAttackGroup => UpdateAttackGroup
  | op_GetApiHostnameCoverageOverlapping => GetApiHostnameCoverageOverlapping
  | op_GetCustomDeny => GetCustomDeny
  | op_GetCustomDenyList => GetCustomDenyList
  | op_UpdateCustomDeny => UpdateCustomDeny
  | op_CreateCustomDeny => CreateCustomDeny
  | op_RemoveCustomDeny => RemoveCustomDeny
  | op_GetMatchTarget => GetMatchTarget
  | op_GetMatchTargets => GetMatchTargets
  | op_UpdateMatchTarget => UpdateMatchTarget
  | op_CreateMatchTarget => CreateMatchTarget
  | op_RemoveMatchTarget => RemoveMatchTarget
  | op_GetReputationAnalysis => GetReputationAnalysis
  | op_UpdateReputationAnalysis => UpdateReputationAnalysis
  | op_RemoveReputationAnalysis => RemoveReputationAnalysis
  | op_GetReputationProfile => GetReputationProfile
  | op_GetReputationProfiles => GetReputationProfiles
  | op_UpdateReputationProfile => UpdateReputationProfile
  | op_CreateReputationProfile => CreateReputationProfile
  | op_RemoveReputationProfile => RemoveReputationProfile
  | op_GetConfigurationClone => GetConfigurationClone
  | op_CreateConfigurationClone => CreateConfigurationClone
  | op_GetVersionNotes => GetVersionNotes
  | op_UpdateVersionNotes => UpdateVersionNotes
  end.

Definition operation_eq_dec (a b : operation) : {a = b} + {a <> b}.
Proof. decide equality. Defined.

(** ** Definitions used by the statements *)

(** The success set of an HTTP method, after section 6 of the specification
    (Success codes per operation): GET 200; POST and PUT 200 or 201; DELETE
    200 or 204.  It is compared below with the status test of each
    operation. *)
Definition succeeds (method : string) (status : Z) : bool :=
  if String.eqb method http.MethodGet then status =? 200
  else if String.eqb method http.MethodPost || String.eqb method http.MethodPut
  then (status =? 200) || (status =? 201)
  else if String.eqb method http.MethodDelete
  then (status =? 200) || (status =? 204)
  else false.

(** The two operations that pass the formatted text through [url.Parse] and
    build the request from [uri.String()]. *)
Definition reparsed (o : operation) : bool :=
  match o with
  | op_RemoveCustomDeny | op_RemoveReputationProfile => true
  | _ => false
  end.

(** The path pattern of section 6 of the specification, per operation: the
    text each operation is expected to format, with every path parameter in
    its place.  It is compared below with the URL each operation builds. *)
Definition pathOf (o : operation) : Request o -> string :=
  match o with
  | op_GetAttackGroup => fun params =>
      ("/appsec/v1/configs/"
        ++ strconv.Itoa (GetAttackGroupRequest.ConfigID params)
        ++ "/versions/"
        ++ strconv.Itoa (GetAttackGroupRequest.Version params)
        ++ "/security-policies/"
        ++ GetAttackGroupRequest.PolicyID params
        ++ "/attack-groups/"
        ++ GetAttackGroupRequest.Group params
        ++ "?includeConditionException=true")%string
  | op_GetAttackGroups => fun params =>
      ("/appsec/v1/configs/"
        ++ strconv.Itoa (GetAttackGroupsRequest.ConfigID params)
        ++ "/versions/"
        ++ strconv.Itoa (GetAttackGroupsRequest.Version params)
        ++ "/security-policies/"
        ++ GetAttackGroupsRequest.PolicyID params
        ++ "/attack-groups?includeConditionException=true")%string
  | op_UpdateAttackGroup => fun params =>
      ("/appsec/v1/configs/"
        ++ strconv.Itoa (UpdateAttackGroupRequest.ConfigID params)
        ++ "/versions/"
        ++ strconv.Itoa (UpdateAttackGroupRequest.Version params)
        ++ "/security-policies/"
        ++ UpdateAttackGroupRequest.PolicyID params
        ++ "/attack-groups/"
        ++ UpdateAttackGroupRequest.Group params
        ++ "/action-condition-exception")%string
  | op_GetApiHostnameCoverageOverlapping => fun params =>
      ("/appsec/v1/configs/"
        ++ strconv.Itoa (GetApiHostnameCoverageOverlappingRequest.ConfigID params)
        ++ "/versions/"
        ++ strconv.Itoa (GetApiHostnameCoverageOverlappingRequest.Version params)
        ++ "/hostname-coverage/overlapping?hostname="
        ++ GetApiHostnameCoverageOverlappingRequest.Hostname params)%string
  | op_GetCustomDeny => fun params =>
      ("/appsec/v1/configs/"
        ++ strconv.Itoa (GetCustomDenyRequest.ConfigID params)
        ++ "/versions/"
        ++ strconv.Itoa (GetCustomDenyRequest.Version params)
        ++ "/custom-deny/"
        ++ GetCustomDenyRequest.ID params)%string
  | op_GetCustomDenyList => fun params =>
      ("/appsec/v1/configs/"
        ++ strconv.Itoa (GetCustomDenyListRequest.ConfigID params)
        ++ "/versions/"
        ++ strconv.Itoa (GetCustomDenyListRequest.Version params)
        ++ "/custom-deny")%string
  | op_UpdateCustomDeny => fun params =>
      ("/appsec/v1/configs/"
        ++ strconv.Itoa (UpdateCustomDenyRequest.ConfigID params)
        ++ "/versions/"
        ++ strconv.Itoa (UpdateCustomDenyRequest.Version params)
        ++ "/custom-deny/"
        ++ UpdateCustomDenyRequest.ID params)%string
  | op_CreateCustomDeny => fun params =>
      ("/appsec/v1/configs/"
        ++ strconv.Itoa (CreateCustomDenyRequest.ConfigID params)
        ++ "/versions/"
        ++ strconv.Itoa (CreateCustomDenyRequest.Version params)
        ++ "/custom-deny")%string
  | op_RemoveCustomDeny => fun params =>
      ("/appsec/v1/configs/"
        ++ strconv.Itoa (RemoveCustomDenyRequest.ConfigID params)
        ++ "/versions/"
        ++ strconv.Itoa (RemoveCustomDenyRequest.Version params)
        ++ "/custom-deny/"
        ++ RemoveCustomDenyRequest.ID params)%string
  | op_GetMatchTarget => fun params =>
      ("/appsec/v1/configs/"
        ++ strconv.Itoa (GetMatchTargetRequest.ConfigID params)
        ++ "/versions/"
        ++ strconv.Itoa (GetMatchTargetRequest.ConfigVersion params)
        ++ "/match-targets/"
        ++ strconv.Itoa (GetMatchTargetRequest.TargetID params)
        ++ "?includeChildObjectName=true")%string
  | op_GetMatchTargets => fun params =>
      ("/appsec/v1/configs/"
        ++ strconv.Itoa (GetMatchTargetsRequest.ConfigID params)
        ++ "/versions/"
        ++ strconv.Itoa (GetMatchTargetsRequest.ConfigVersion params)
        ++ "/match-targets")%string
  | op_UpdateMatchTarget => fun params =>
      ("/appsec/v1/configs/"
        ++ strconv.Itoa (UpdateMatchTargetRequest.ConfigID params)
        ++ "/versions/"
        ++ strconv.Itoa (UpdateMatchTargetRequest.ConfigVersion params)
        ++ "/match-targets/"
        ++ strconv.Itoa (UpdateMatchTargetRequest.TargetID params))%string
  | op_CreateMatchTarget => fun params =>
      ("/appsec/v1/configs/"
        ++ strconv.Itoa (CreateMatchTargetRequest.ConfigID params)
        ++ "/versions/"
        ++ strconv.Itoa (CreateMatchTargetRequest.ConfigVersion params)
        ++ "/match-targets")%string
  | op_RemoveMatchTarget => fun params =>
      ("/appsec/v1/configs/"
        ++ strconv.Itoa (RemoveMatchTargetRequest.ConfigID params)
        ++ "/versions/"
        ++ strconv.Itoa (RemoveMatchTargetRequest.ConfigVersion params)
        ++ "/match-targets/"
        ++ strconv.Itoa (RemoveMatchTargetRequest.TargetID params))%string
  | op_GetReputationAnalysis => fun params =>
      ("/appsec/v1/configs/"
        ++ strconv.Itoa (GetReputationAnalysisRequest.ConfigID params)
        ++ "/versions/"
        ++ strconv.Itoa (GetReputationAnalysisRequest.Version params)
        ++ "/security-policies/"
        ++ GetReputationAnalysisRequest.PolicyID params
        ++ "/reputation-analysis")%string
  | op_UpdateReputationAnalysis => fun params =>
      ("/appsec/v1/configs/"
        ++ strconv.Itoa (UpdateReputationAnalysisRequest.ConfigID params)
        ++ "/versions/"
        ++ strconv.Itoa (UpdateReputationAnalysisRequest.Version params)
        ++ "/security-policies/"
        ++ UpdateReputationAnalysisRequest.PolicyID params
        ++ "/reputation-analysis")%string
  | op_RemoveReputationAnalysis => fun params =>
      ("/appsec/v1/configs/"
        ++ strconv.Itoa (RemoveReputationAnalysisRequest.ConfigID params)
        ++ "/versions/"
        ++ strconv.Itoa (RemoveReputationAnalysisRequest.Version params)
        ++ "/security-policies/"
        ++ RemoveReputationAnalysisRequest.PolicyID params
        ++ "/reputation-analysis")%string
  | op_GetReputationProfile => fun params =>
      ("/appsec/v1/configs/"
        ++ strconv.Itoa (GetReputationProfileRequest.ConfigID params)
        ++ "/versions/"
        ++ strconv.Itoa (GetReputationProfileRequest.ConfigVersion params)
        ++ "/reputation-profiles/"
        ++ strconv.Itoa (GetReputationProfileRequest.ReputationProfileId params))%string
  | op_GetReputationProfiles => fun params =>
      ("/appsec/v1/configs/"
        ++ strconv.Itoa (GetReputationProfilesRequest.ConfigID params)
        ++ "/versions/"
        ++ strconv.Itoa (GetReputationProfilesRequest.ConfigVersion params)
        ++ "/reputation-profiles")%string
  | op_UpdateReputationProfile => fun params =>
      ("/appsec/v1/configs/"
        ++ strconv.Itoa (UpdateReputationProfileRequest.ConfigID params)
        ++ "/versions/"
        ++ strconv.Itoa (UpdateReputationProfileRequest.ConfigVersion params)
        ++ "/reputation-profiles/"
        ++ strconv.Itoa (UpdateReputationProfileRequest.ReputationProfileId params))%string
  | op_CreateReputationProfile => fun params =>
      ("/appsec/v1/configs/"
        ++ strconv.Itoa (CreateReputationProfileRequest.ConfigID params)
        ++ "/versions/"
        ++ strconv.Itoa (CreateReputationProfileRequest.ConfigVersion params)
        ++ "/reputation-profiles")%string
  | op_RemoveReputationProfile => fun params =>
      ("/appsec/v1/configs/"
        ++ strconv.Itoa (RemoveReputationProfileRequest.ConfigID params)
        ++ "/versions/"
        ++ strconv.Itoa (RemoveReputationProfileRequest.ConfigVersion params)
        ++ "/reputation-profiles/"
        ++ strconv.Itoa (RemoveReputationProfileRequest.ReputationProfileId params))%string
  | op_GetConfigurationClone => fun params =>
      ("/appsec/v1/configs/"
        ++ strconv.Itoa (GetConfigurationCloneRequest.ConfigID params)
        ++ "/versions/"
        ++ strconv.Itoa (GetConfigurationCloneRequest.Version params))%string
  | op_CreateConfigurationClone => fun params =>
      ("/appsec/v1/configs/")%string
  | op_GetVersionNotes => fun params =>
      ("/appsec/v1/configs/"
        ++ strconv.Itoa (GetVersionNotesRequest.ConfigID params)
        ++ "/versions/"
        ++ strconv.Itoa (GetVersionNotesRequest.Version params)
        ++ "/version-notes")%string
  | op_UpdateVersionNotes => fun params =>
      ("/appsec/v1/configs/"
        ++ strconv.Itoa (UpdateVersionNotesRequest.ConfigID params)
        ++ "/versions/"
        ++ strconv.Itoa (UpdateVersionNotesRequest.Version params)
        ++ "/version-notes")%string
  end.

(** The requiredness set of each request type, after section 4.1 of the
    specification: the name of each required field (a nested field by its
    path) with its value.  It is compared below with what each [Validate]
    method checks. *)
Definition requiredFields (o : operation) : Request o -> list (string * any) :=
  match o with
  | op_GetAttackGroup => fun v =>
      [ ("ConfigID", any_int (GetAttackGroupRequest.ConfigID v))
      ; ("Version", any_int (GetAttackGroupRequest.Version v))
      ; ("PolicyID", any_string (GetAttackGroupRequest.PolicyID v)) ]
  | op_GetAttackGroups => fun v =>
      [ ("ConfigID", any_int (GetAttackGroupsRequest.ConfigID v))
      ; ("Version", any_int (GetAttackGroupsRequest.Version v))
      ; ("PolicyID", any_string (GetAttackGroupsRequest.PolicyID v)) ]
  | op_UpdateAttackGroup => fun v =>
      [ ("ConfigID", any_int (UpdateAttackGroupRequest.ConfigID v))
      ; ("Version", any_int (UpdateAttackGroupRequest.Version v))
      ; ("PolicyID", any_string (UpdateAttackGroupRequest.PolicyID v)) ]
  | op_GetApiHostnameCoverageOverlapping => fun v =>
      [ ("ConfigID", any_int (GetApiHostnameCoverageOverlappingRequest.ConfigID v))
      ; ("Version", any_int (GetApiHostnameCoverageOverlappingRequest.Version v)) ]
  | op_GetCustomDeny => fun v =>
      [ ("ConfigID", any_int (GetCustomDenyRequest.ConfigID v))
      ; ("Version", any_int (GetCustomDenyRequest.Version v))
      ; ("ID", any_string (GetCustomDenyRequest.ID v)) ]
  | op_GetCustomDenyList => fun v =>
      [ ("ConfigID", any_int (GetCustomDenyListRequest.ConfigID v))
      ; ("Version", any_int (GetCustomDenyListRequest.Version v)) ]
  | op_UpdateCustomDeny => fun v =>
      [ ("ConfigID", any_int (UpdateCustomDenyRequest.ConfigID v))
      ; ("Version", any_int (UpdateCustomDenyRequest.Version v))
      ; ("ID", any_string (UpdateCustomDenyRequest.ID v)) ]
  | op_CreateCustomDeny => fun v =>
      [ ("ConfigID", any_int (CreateCustomDenyRequest.ConfigID v))
      ; ("Version", any_int (CreateCustomDenyRequest.Version v)) ]
  | op_RemoveCustomDeny => fun v =>
      [ ("ConfigID", any_int (RemoveCustomDenyRequest.ConfigID v))
      ; ("Version", any_int (RemoveCustomDenyRequest.Version v))
      ; ("ID", any_string (RemoveCustomDenyRequest.ID v)) ]
  | op_GetMatchTarget => fun v =>
      [ ("ConfigID", any_int (GetMatchTargetRequest.ConfigID v))
      ; ("ConfigVersion", any_int (GetMatchTargetRequest.ConfigVersion v))
      ; ("TargetID", any_int (GetMatchTargetRequest.TargetID v)) ]
  | op_GetMatchTargets => fun v =>
      [ ("ConfigID", any_int (GetMatchTargetsRequest.ConfigID v))
      ; ("ConfigVersion", any_int (GetMatchTargetsRequest.ConfigVersion v)) ]
  | op_UpdateMatchTarget => fun v =>
      [ ("ConfigID", any_int (UpdateMatchTargetRequest.ConfigID v))
      ; ("ConfigVersion", any_int (UpdateMatchTargetRequest.ConfigVersion v))
      ; ("TargetID", any_int (UpdateMatchTargetRequest.TargetID v)) ]
  | op_CreateMatchTarget => fun v =>
      [ ("ConfigID", any_int (CreateMatchTargetRequest.ConfigID v))
      ; ("ConfigVersion", any_int (CreateMatchTargetRequest.ConfigVersion v)) ]
  | op_RemoveMatchTarget => fun v =>
      [ ("ConfigID", any_int (RemoveMatchTargetRequest.ConfigID v))
      ; ("ConfigVersion", any_int (RemoveMatchTargetRequest.ConfigVersion v))
      ; ("TargetID", any_int (RemoveMatchTargetRequest.TargetID v)) ]
  | op_GetReputationAnalysis => fun v =>
      [ ("ConfigID", any_int (GetReputationAnalysisRequest.ConfigID v))
      ; ("Version", any_int (GetReputationAnalysisRequest.Version v))
      ; ("PolicyID", any_string (GetReputationAnalysisRequest.PolicyID v)) ]
  | op_UpdateReputationAnalysis => fun v =>
      [ ("ConfigID", any_int (UpdateReputationAnalysisRequest.ConfigID v))
      ; ("Version", any_int (UpdateReputationAnalysisRequest.Version v))
      ; ("PolicyID", any_string (UpdateReputationAnalysisRequest.PolicyID v)) ]
  | op_RemoveReputationAnalysis => fun v =>
      [ ("ConfigID", any_int (RemoveReputationAnalysisRequest.ConfigID v))
      ; ("Version", any_int (RemoveReputationAnalysisRequest.Version v))
      ; ("PolicyID", any_string (RemoveReputationAnalysisRequest.PolicyID v)) ]
  | op_GetReputationProfile => fun v =>
      [ ("ConfigID", any_int (GetReputationProfileRequest.ConfigID v))
      ; ("ConfigVersion", any_int (GetReputationProfileRequest.ConfigVersion v))
      ; ("ReputationProfileId", any_int (GetReputationProfileRequest.ReputationProfileId v)) ]
  | op_GetReputationProfiles => fun v =>
      [ ("ConfigID", any_int (GetReputationProfilesRequest.ConfigID v))
      ; ("ConfigVersion", any_int (GetReputationProfilesRequest.ConfigVersion v)) ]
  | op_UpdateReputationProfile => fun v =>
      [ ("ConfigID", any_int (UpdateReputationProfileRequest.ConfigID v))
      ; ("ConfigVersion", any_int (UpdateReputationProfileRequest.ConfigVersion v))
      ; ("ReputationProfileId", any_int (UpdateReputationProfileRequest.ReputationProfileId v)) ]
  | op_CreateReputationProfile => fun v =>
      [ ("ConfigID", any_int (CreateReputationProfileRequest.ConfigID v))
      ; ("ConfigVersion", any_int (CreateReputationProfileRequest.ConfigVersion v)) ]
  | op_RemoveReputationProfile => fun v =>
      [ ("ConfigID", any_int (RemoveReputationProfileRequest.ConfigID v))
      ; ("ConfigVersion", any_int (RemoveReputationProfileRequest.ConfigVersion v))
      ; ("ReputationProfileId", any_int (RemoveReputationProfileRequest.ReputationProfileId v)) ]
  | op_GetConfigurationClone => fun v =>
      [ ("ConfigID", any_int (GetConfigurationCloneRequest.ConfigID v))
      ; ("Version", any_int (GetConfigurationCloneRequest.Version v)) ]
  | op_CreateConfigurationClone => fun v =>
      [ ("CreateFromConfigID", any_int (CreateConfigurationCloneRequest.CreateFrom_.ConfigID (CreateConfigurationCloneRequest.CreateFrom v))) ]
  | op_GetVersionNotes => fun v =>
      [ ("ConfigID", any_int (GetVersionNotesRequest.ConfigID v))
      ; ("Version", any_int (GetVersionNotesRequest.Version v)) ]
  | op_UpdateVersionNotes => fun v =>
      [ ("ConfigID", any_int (UpdateVersionNotesRequest.ConfigID v))
      ; ("Version", any_int (UpdateVersionNotesRequest.Version v)) ]
  end.

(** The path parameters of each operation, after section 4.2 of the
    specification: the request fields the path pattern has a place for, by
    name, each with the text it is written as.  Every required field that is
    a path parameter is among them. *)
Definition pathParams (o : operation) : Request o -> list (string * string) :=
  match o with
  | op_GetAttackGroup => fun params =>
      [ ("ConfigID", strconv.Itoa (GetAttackGroupRequest.ConfigID params))
      ; ("Version", strconv.Itoa (GetAttackGroupRequest.Version params))
      ; ("PolicyID", GetAttackGroupRequest.PolicyID params)
      ; ("Group", GetAttackGroupRequest.Group params) ]
  | op_GetAttackGroups => fun params =>
      [ ("ConfigID", strconv.Itoa (GetAttackGroupsRequest.ConfigID params))
      ; ("Version", strconv.Itoa (GetAttackGroupsRequest.Version params))
      ; ("PolicyID", GetAttackGroupsRequest.PolicyID params) ]
  | op_UpdateAttackGroup => fun params =>
      [ ("ConfigID", strconv.Itoa (UpdateAttackGroupRequest.ConfigID params))
      ; ("Version", strconv.Itoa (UpdateAttackGroupRequest.Version params))
      ; ("PolicyID", UpdateAttackGroupRequest.PolicyID params)
      ; ("Group", UpdateAttackGroupRequest.Group params) ]
  | op_GetApiHostnameCoverageOverlapping => fun params =>
      [ ("ConfigID", strconv.Itoa (GetApiHostnameCoverageOverlappingRequest.ConfigID params))
      ; ("Version", strconv.Itoa (GetApiHostnameCoverageOverlappingRequest.Version params)) ]
  | op_GetCustomDeny => fun params =>
      [ ("ConfigID", strconv.Itoa (GetCustomDenyRequest.ConfigID params))
      ; ("Version", strconv.Itoa (GetCustomDenyRequest.Version params))
      ; ("ID", GetCustomDenyRequest.ID params) ]
  | op_GetCustomDenyList => fun params =>
      [ ("ConfigID", strconv.Itoa (GetCustomDenyListRequest.ConfigID params))
      ; ("Version", strconv.Itoa (GetCustomDenyListRequest.Version params)) ]
  | op_UpdateCustomDeny => fun params =>
      [ ("ConfigID", strconv.Itoa (UpdateCustomDenyRequest.ConfigID params))
      ; ("Version", strconv.Itoa (UpdateCustomDenyRequest.Version params))
      ; ("ID", UpdateCustomDenyRequest.ID params) ]
  | op_CreateCustomDeny => fun params =>
      [ ("ConfigID", strconv.Itoa (CreateCustomDenyRequest.ConfigID params))
      ; ("Version", strconv.Itoa (CreateCustomDenyRequest.Version params)) ]
  | op_RemoveCustomDeny => fun params =>
      [ ("ConfigID", strconv.Itoa (RemoveCustomDenyRequest.ConfigID params))
      ; ("Version", strconv.Itoa (RemoveCustomDenyRequest.Version params))
      ; ("ID", RemoveCustomDenyRequest.ID params) ]
  | op_GetMatchTarget => fun params =>
      [ ("ConfigID", strconv.Itoa (GetMatchTargetRequest.ConfigID params))
      ; ("ConfigVersion", strconv.Itoa (GetMatchTargetRequest.ConfigVersion params))
      ; ("TargetID", strconv.Itoa (GetMatchTargetRequest.TargetID params)) ]
  | op_GetMatchTargets => fun params =>
      [ ("ConfigID", strconv.Itoa (GetMatchTargetsRequest.ConfigID params))
      ; ("ConfigVersion", strconv.Itoa (GetMatchTargetsRequest.ConfigVersion params)) ]
  | op_UpdateMatchTarget => fun params =>
      [ ("ConfigID", strconv.Itoa (UpdateMatchTargetRequest.ConfigID params))
      ; ("ConfigVersion", strconv.Itoa (UpdateMatchTargetRequest.ConfigVersion params))
      ; ("TargetID", strconv.Itoa (UpdateMatchTargetRequest.TargetID params)) ]
  | op_CreateMatchTarget => fun params =>
      [ ("ConfigID", strconv.Itoa (CreateMatchTargetRequest.ConfigID params))
      ; ("ConfigVersion", strconv.Itoa (CreateMatchTargetRequest.ConfigVersion params)) ]
  | op_RemoveMatchTarget => fun params =>
      [ ("ConfigID", strconv.Itoa (RemoveMatchTargetRequest.ConfigID params))
      ; ("ConfigVersion", strconv.Itoa (RemoveMatchTargetRequest.ConfigVersion params))
      ; ("TargetID", strconv.Itoa (RemoveMatchTargetRequest.TargetID params)) ]
  | op_GetReputationAnalysis => fun params =>
      [ ("ConfigID", strconv.Itoa (GetReputationAnalysisRequest.ConfigID params))
      ; ("Version", strconv.Itoa (GetReputationAnalysisRequest.Version params))
      ; ("PolicyID", GetReputationAnalysisRequest.PolicyID params) ]
  | op_UpdateReputationAnalysis => fun params =>
      [ ("ConfigID", strconv.Itoa (UpdateReputationAnalysisRequest.ConfigID params))
      ; ("Version", strconv.Itoa (UpdateReputationAnalysisRequest.Version params))
      ; ("PolicyID", UpdateReputationAnalysisRequest.PolicyID params) ]
  | op_RemoveReputationAnalysis => fun params =>
      [ ("ConfigID", strconv.Itoa (RemoveReputationAnalysisRequest.ConfigID params))
      ; ("Version", strconv.Itoa (RemoveReputationAnalysisRequest.Version params))
      ; ("PolicyID", RemoveReputationAnalysisRequest.PolicyID params) ]
  | op_GetReputationProfile => fun params =>
      [ ("ConfigID", strconv.Itoa (GetReputationProfileRequest.ConfigID params))
      ; ("ConfigVersion", strconv.Itoa (GetReputationProfileRequest.ConfigVersion params))
      ; ("ReputationProfileId", strconv.Itoa (GetReputationProfileRequest.ReputationProfileId params)) ]
  | op_GetReputationProfiles => fun params =>
      [ ("ConfigID", strconv.Itoa (GetReputationProfilesRequest.ConfigID params))
      ; ("ConfigVersion", strconv.Itoa (GetReputationProfilesRequest.ConfigVersion params)) ]
  | op_UpdateReputationProfile => fun params =>
      [ ("ConfigID", strconv.Itoa (UpdateReputationProfileRequest.ConfigID params))
      ; ("ConfigVersion", strconv.Itoa (UpdateReputationProfileRequest.ConfigVersion params))
      ; ("ReputationProfileId", strconv.Itoa (UpdateReputationProfileRequest.ReputationProfileId params)) ]
  | op_CreateReputationProfile => fun params =>
      [ ("ConfigID", strconv.Itoa (CreateReputationProfileRequest.ConfigID params))
      ; ("ConfigVersion", strconv.Itoa (CreateReputationProfileRequest.ConfigVersion params)) ]
  | op_RemoveReputationProfile => fun params =>
      [ ("ConfigID", strconv.Itoa (RemoveReputationProfileRequest.ConfigID params))
      ; ("ConfigVersion", strconv.Itoa (RemoveReputationProfileRequest.ConfigVersion params))
      ; ("ReputationProfileId", strconv.Itoa (RemoveReputationProfileRequest.ReputationProfileId params)) ]
  | op_GetConfigurationClone => fun params =>
      [ ("ConfigID", strconv.Itoa (GetConfigurationCloneRequest.ConfigID params))
      ; ("Version", strconv.Itoa (GetConfigurationCloneRequest.Version params)) ]
  | op_CreateConfigurationClone => fun _ => []
  | op_GetVersionNotes => fun params =>
      [ ("ConfigID", strconv.Itoa (GetVersionNotesRequest.ConfigID params))
      ; ("Version", strconv.Itoa (GetVersionNotesRequest.Version params)) ]
  | op_UpdateVersionNotes => fun params =>
      [ ("ConfigID", strconv.Itoa (UpdateVersionNotesRequest.ConfigID params))
      ; ("Version", strconv.Itoa (UpdateVersionNotesRequest.Version params)) ]
  end.

(** What a [Validate] method hands to [Filter]: every listed value checked
    with rule [Required]. *)
Definition checked (l : list (string * any)) : list (string * option validation.ErrorObject) :=
  List.map (fun kx => (fst kx, validation.Validate (snd kx) [validation.Required])) l.

(** [sub] occurs in [s]. *)
Definition Contains (s sub : string) : Prop :=
  exists pre post, s = (pre ++ sub ++ post)%string.

(** The text after the first occurrence of [c]. *)
Fixpoint after (c : ascii) (s : string) : option string :=
  match s with
  | EmptyString => None
  | String a rest => if Ascii.eqb a c then Some rest else after c rest
  end.

(** The text before the first occurrence of [c]. *)
Fixpoint before (c : ascii) (s : string) : string :=
  match s with
  | EmptyString => EmptyString
  | String a rest => if Ascii.eqb a c then EmptyString else String a (before c rest)
  end.

Fixpoint splitOn (c : ascii) (s : string) : list string :=
  match s with
  | EmptyString => [EmptyString]
  | String a rest =>
      if Ascii.eqb a c then EmptyString :: splitOn c rest
      else
        match splitOn c rest with
        | piece :: more => String a piece :: more
        | [] => [String a EmptyString]
        end
  end.

(** The names of the query parameters of a URL text. *)
Definition queryKeys (u : string) : list string :=
  match after "?" u with
  | None => []
  | Some q => List.map (before "=") (splitOn "&" q)
  end.

Definition hasQueryParam (name u : string) : bool :=
  existsb (String.eqb name) (queryKeys u).

(** The sentence of the specification on optional query parameters, read on
    the hostname filter: with an empty [Hostname] the request carries no
    [hostname] query parameter. *)
Definition hostname_appended_only_when_set : Prop :=
  forall (p : appsec GetApiHostnameCoverageOverlappingResponse.t) params req out ins,
    snd (run (GetApiHostnameCoverageOverlapping p params)) = [mkCall req out ins] ->
    GetApiHostnameCoverageOverlappingRequest.Hostname params = "" ->
    hasQueryParam "hostname" (url.String_ (http.URL req)) = false.

(** The slice loop on a list of decoded elements: it collects the strings and
    panics at the first element that is not one. *)
Fixpoint collectStrings (l : list any) (c : atomicConditionsName.t)
  : outcome atomicConditionsName.t :=
  match l with
  | [] => Normal c
  | any_string s :: rest => collectStrings rest (c ++ [s])
  | x :: _ => Panic ("interface conversion: interface {} is " ++ typeName x ++ ", not string")
  end.

(** The list post-filter of section 4.4 of the specification, on the
    outcome of an operation: the operation returns a response and no error;
    without a filter value the fetched response is returned as it is; with
    one, the returned entries are the fetched entries the filter keeps, in
    their order, and none when no entry is kept. *)
Definition post_filtered {Resp E : Type} (result : outcome (option Resp * option error))
    (rval : Resp) (entries : Resp -> list E) (unfiltered : bool) (keep : E -> bool) : Prop :=
  exists out,
    result = Normal (Some out, None)
    /\ (unfiltered = true -> out = rval)
    /\ (unfiltered = false -> entries out = filter keep (entries rval))
    /\ (unfiltered = false ->
        (forall e, In e (entries rval) -> keep e = false) -> entries out = []).

(** *** Test doubles *)

(** A URL parser that accepts every text and prints it as it was written,
    as [url.Parse] does for a text in which nothing is to be escaped. *)
Definition verbatim (s : string) : url.URL + error := inl (url.mkURL s).

(** A server that answers every request with [status] and the decoded
    content [decoded]; its error mapper reports the status. *)
Definition mockServer {R : Type} (status : Z) (decoded : R) : appsec R :=
  mkAppsec
    (fun _ _ => Normal (inl (http.mkResponse status [], decoded)))
    (fun resp => dynError "*appsec.Error" (strconv.Itoa (http.StatusCode resp)))
    verbatim.

(** A transport on which every round trip fails with [fault]. *)
Definition brokenTransport {R : Type} (fault : error) : appsec R :=
  mkAppsec
    (fun _ _ => Normal (inr fault))
    (fun resp => dynError "*appsec.Error" (strconv.Itoa (http.StatusCode resp)))
    verbatim.


(** *** Definitions used by the further properties *)

(** The operations that return the decoded response as it is: all but the
    four list operations, which filter it, and [RemoveMatchTarget], which
    decodes nothing. *)
Definition returnsDecoded (o : operation) : bool :=
  match o with
  | op_GetAttackGroups | op_GetCustomDenyList | op_GetReputationProfiles
  | op_GetMatchTargets | op_RemoveMatchTarget => false
  | _ => true
  end.

(** A format that ends in a verb, without that verb. *)
Fixpoint withoutVerb (format : string) : string :=
  match format with
  | EmptyString => EmptyString
  | String "%" (String _ EmptyString) => EmptyString
  | String c rest => String c (withoutVerb rest)
  end.

(** Decoding the JSON texts [vs] one after the other into one receiver. *)
Fixpoint decodeAll (vs : list json.value) (c : atomicConditionsName.t)
  : outcome atomicConditionsName.t :=
  match vs with
  | [] => Normal c
  | v :: rest =>
      match atomicConditionsName.UnmarshalJSON c (json.WellFormed v) with
      | Normal (c', _) => decodeAll rest c'
      | Panic msg => Panic msg
      end
  end.

(** [c] does not occur in [s]. *)
Fixpoint free (c : ascii) (s : string) : bool :=
  match s with
  | EmptyString => true
  | String a rest => negb (Ascii.eqb a c) && free c rest
  end.

(** The characters of a decimal text. *)
Definition isNumChar (c : ascii) : bool :=
  existsb (Ascii.eqb c) ["-"; "0"; "1"; "2"; "3"; "4"; "5"; "6"; "7"; "8"; "9"]%char.

(** The numeric identifiers an operation puts into its URL: the [%d]
    operands of its format, in their order. *)
Definition pathInts (o : operation) : Request o -> list Z :=
  match o with
  | op_GetAttackGroup => fun params =>
      [ GetAttackGroupRequest.ConfigID params
      ; GetAttackGroupRequest.Version params ]
  | op_GetAttackGroups => fun params =>
      [ GetAttackGroupsRequest.ConfigID params
      ; GetAttackGroupsRequest.Version params ]
  | op_UpdateAttackGroup => fun params =>
      [ UpdateAttackGroupRequest.ConfigID params
      ; UpdateAttackGroupRequest.Version params ]
  | op_GetApiHostnameCoverageOverlapping => fun params =>
      [ GetApiHostnameCoverageOverlappingRequest.ConfigID params
      ; GetApiHostnameCoverageOverlappingRequest.Version params ]
  | op_GetCustomDeny => fun params =>
      [ GetCustomDenyRequest.ConfigID params
      ; GetCustomDenyRequest.Version params ]
  | op_GetCustomDenyList => fun params =>
      [ GetCustomDenyListRequest.ConfigID params
      ; GetCustomDenyListRequest.Version params ]
  | op_UpdateCustomDeny => fun params =>
      [ UpdateCustomDenyRequest.ConfigID params
      ; UpdateCustomDenyRequest.Version params ]
  | op_CreateCustomDeny => fun params =>
      [ CreateCustomDenyRequest.ConfigID params
      ; CreateCustomDenyRequest.Version params ]
  | op_RemoveCustomDeny => fun params =>
      [ RemoveCustomDenyRequest.ConfigID params
      ; RemoveCustomDenyRequest.Version params ]
  | op_GetMatchTarget => fun params =>
      [ GetMatchTargetRequest.ConfigID params
      ; GetMatchTargetRequest.ConfigVersion params
      ; GetMatchTargetRequest.TargetID params ]
  | op_GetMatchTargets => fun params =>
      [ GetMatchTargetsRequest.ConfigID params
      ; GetMatchTargetsRequest.ConfigVersion params ]
  | op_UpdateMatchTarget => fun params =>
      [ UpdateMatchTargetRequest.ConfigID params
      ; UpdateMatchTargetRequest.ConfigVersion params
      ; UpdateMatchTargetRequest.TargetID params ]
  | op_CreateMatchTarget => fun params =>
      [ CreateMatchTargetRequest.ConfigID params
      ; CreateMatchTargetRequest.ConfigVersion params ]
  | op_RemoveMatchTarget => fun params =>
      [ RemoveMatchTargetRequest.ConfigID params
      ; RemoveMatchTargetRequest.ConfigVersion params
      ; RemoveMatchTargetRequest.TargetID params ]
  | op_GetReputationAnalysis => fun params =>
      [ GetReputationAnalysisRequest.ConfigID params
      ; GetReputationAnalysisRequest.Version params ]
  | op_UpdateReputationAnalysis => fun params =>
      [ UpdateReputationAnalysisRequest.ConfigID params
      ; UpdateReputationAnalysisRequest.Version params ]
  | op_RemoveReputationAnalysis => fun params =>
      [ RemoveReputationAnalysisRequest.ConfigID params
      ; RemoveReputationAnalysisRequest.Version params ]
  | op_GetReputationProfile => fun params =>
      [ GetReputationProfileRequest.ConfigID params
      ; GetReputationProfileRequest.ConfigVersion params
      ; GetReputationProfileRequest.ReputationProfileId params ]
  | op_GetReputationProfiles => fun params =>
      [ GetReputationProfilesRequest.ConfigID params
      ; GetReputationProfilesRequest.ConfigVersion params ]
  | op_UpdateReputationProfile => fun params =>
      [ UpdateReputationProfileRequest.ConfigID params
      ; UpdateReputationProfileRequest.ConfigVersion params
      ; UpdateReputationProfileRequest.ReputationProfileId params ]
  | op_CreateReputationProfile => fun params =>
      [ CreateReputationProfileRequest.ConfigID params
      ; CreateReputationProfileRequest.ConfigVersion params ]
  | op_RemoveReputationProfile => fun params =>
      [ RemoveReputationProfileRequest.ConfigID params
      ; RemoveReputationProfileRequest.ConfigVersion params
      ; RemoveReputationProfileRequest.ReputationProfileId params ]
  | op_GetConfigurationClone => fun params =>
      [ GetConfigurationCloneRequest.ConfigID params
      ; GetConfigurationCloneRequest.Version params ]
  | op_CreateConfigurationClone => fun _ => []
  | op_GetVersionNotes => fun params =>
      [ GetVersionNotesRequest.ConfigID params
      ; GetVersionNotesRequest.Version params ]
  | op_UpdateVersionNotes => fun params =>
      [ UpdateVersionNotesRequest.ConfigID params
      ; UpdateVersionNotesRequest.Version params ]
  end.
Create HintDb appsec_ops.
#[global] Hint Unfold
  GetAttackGroup GetAttackGroups UpdateAttackGroup GetApiHostnameCoverageOverlapping
  GetCustomDeny GetCustomDenyList UpdateCustomDeny CreateCustomDeny
  RemoveCustomDeny GetMatchTarget GetMatchTargets UpdateMatchTarget
  CreateMatchTarget RemoveMatchTarget GetReputationAnalysis UpdateReputationAnalysis
  RemoveReputationAnalysis GetReputationProfile GetReputationProfiles UpdateReputationProfile
  CreateReputationProfile RemoveReputationProfile GetConfigurationClone CreateConfigurationClone
  GetVersionNotes UpdateVersionNotes
  : appsec_ops.

(** * Verification *)

Unset Implicit Arguments.

(** ** Proof automation for the operations *)

(** Expose the body of an operation as a tree of case distinctions. *)
Ltac open_op :=
  cbn [call Request Response Validate] in *;
  autounfold with appsec_ops in *;
  cbv beta iota zeta delta [run bind ret Exec Exec_nil http.NewRequestWithContext fst snd app] in *.

(** One case distinction, or one use of an equation between results. *)
Ltac step_op :=
  match goal with
  | H : (_, _) = (_, _) |- _ => inversion H; clear H; subst
  | H : _ :: _ = _ :: _ |- _ => inversion H; clear H; subst
  | H : [] = _ :: _ |- _ => discriminate H
  | H : inl _ = inl _ |- _ => inversion H; clear H; subst
  | H : inl _ = inr _ |- _ => discriminate H
  | H : inr _ = inl _ |- _ => discriminate H
  | H : inr _ = inr _ |- _ => inversion H; clear H; subst
  | H : Some _ = None |- _ => discriminate H
  | H : None = Some _ |- _ => discriminate H
  | H : Some _ = Some _ |- _ => inversion H; clear H; subst
  | H : Normal _ = Normal _ |- _ => inversion H; clear H; subst
  | H : Normal _ = Panic _ |- _ => discriminate H
  | H : Panic _ = Normal _ |- _ => discriminate H
  | H : Panic _ = Panic _ |- _ => inversion H; clear H; subst
  | H : ?x = _, H' : ?x = _ |- _ => rewrite H in H'
  | H : context [match ?x with _ => _ end] |- _ =>
      lazymatch x with
      | context [match _ with _ => _ end] => fail
      | _ => destruct x eqn:?
      end;
      cbv beta iota zeta delta [fst snd app] in *
  | |- context [match ?x with _ => _ end] =>
      lazymatch x with
      | context [match _ with _ => _ end] => fail
      | _ => destruct x eqn:?
      end;
      cbv beta iota zeta delta [fst snd app] in *
  end.

Ltac run_op := open_op; repeat step_op.

(** Decide the status tests of an operation against the success set. *)
Ltac status_cases :=
  unfold succeeds, http.StatusOK, http.StatusCreated, http.StatusNoContent in *;
  cbn [http.Method http.Header_Set] in *;
  repeat match goal with
  | |- context [String.eqb ?a ?b] =>
      let v := eval vm_compute in (String.eqb a b) in change (String.eqb a b) with v
  end;
  repeat match goal with
  | H : context [negb (?s =? ?n)] |- _ => destruct (s =? n) eqn:?; cbn [negb andb orb] in H
  | |- context [?s =? ?n] => destruct (s =? n) eqn:?; cbn [negb andb orb]
  end.

(** ** The flexible-type decoders *)

(** [strconv.ParseFloat] at an integer, at a fraction and beyond the two
    ends of the range of [float64]: too large a number is an error, too
    small a one is 0. *)
Example ParseFloat_examples :
  strconv.ParseFloat "7" = (7%float, None)
  /\ strconv.ParseFloat "-12.5e-1" = ((-1.25)%float, None)
  /\ strconv.ParseFloat "1e400"
     = (infinity, Some (strconv.NumError "ParseFloat" "1e400" strconv.ErrRange))
  /\ strconv.ParseFloat "1e-400" = (0%float, None).
Proof. repeat split; vm_compute; reflexivity. Qed.

(** [json.Unmarshal] into an [interface{}] at a number, at a number beyond
    [float64] and at an array with such a number: the error is reported,
    and the array is stored with [nil] in the place of the number. *)
Example Unmarshal_examples :
  json.Unmarshal (json.WellFormed (json.Number "7")) any_nil = (any_float64 7%float, None)
  /\ json.Unmarshal (json.WellFormed (json.Number "1e400")) any_nil
     = (any_nil, Some (json.UnmarshalTypeError "number 1e400" "float64"))
  /\ json.Unmarshal (json.WellFormed (json.Array [json.String "a"; json.Number "1e400"])) any_nil
     = (any_slice [any_string "a"; any_nil],
        Some (json.UnmarshalTypeError "number 1e400" "float64"))
  /\ errors.Error (json.UnmarshalTypeError "number 1e400" "float64")
     = "json: cannot unmarshal number 1e400 into Go value of type float64".
Proof. repeat split; vm_compute; reflexivity. Qed.

(** Decoding never stores an [int] into an [interface{}]. *)
Lemma toInterface_not_int (v : json.value) :
  reflect.kindOf (json.toInterface v) <> reflect.Int.
Proof.
  destruct v; cbn; try discriminate.
  unfold json.convertNumber. destruct (strconv.ParseFloat lit) as [f [e|]]; discriminate.
Qed.

(** A number that converts is stored as a [float64]. *)
Lemma toInterface_Number (lit : string) :
  snd (json.convertNumber lit) = None ->
  reflect.kindOf (json.toInterface (json.Number lit)) = reflect.Float64.
Proof.
  cbn. unfold json.convertNumber.
  destruct (strconv.ParseFloat lit) as [f [e|]]; [discriminate|reflexivity].
Qed.

Lemma savedError_Number (lit : string) :
  json.savedError (json.Number lit) = snd (json.convertNumber lit).
Proof.
  unfold json.savedError. cbn [json.conversionErrors].
  now destruct (snd (json.convertNumber lit)).
Qed.

(** What [json.Unmarshal] returns for a JSON text. *)
Lemma Unmarshal_WellFormed (v : json.value) (nums : any) :
  snd (json.Unmarshal (json.WellFormed v) nums) = json.savedError v
  /\ (json.savedError v = None ->
      fst (json.Unmarshal (json.WellFormed v) nums) = json.toInterface v).
Proof.
  unfold json.Unmarshal.
  destruct v as [|b|lit|s|l|m]; try (split; reflexivity).
  - destruct (json.savedError (json.Number lit)); split; try reflexivity; discriminate.
Qed.

(** The decoder of [customDenyID] keeps a JSON string as it is. *)
Lemma customDenyID_UnmarshalJSON_string (c : customDenyID.t) (s : string) :
  customDenyID.UnmarshalJSON c (json.WellFormed (json.String s)) = Normal (s, None).
Proof. reflexivity. Qed.

(** The decoder of [customDenyID] never panics; on a JSON text it returns the
    error of [json.Unmarshal], and on anything but a string it leaves the
    receiver as it was. *)
Lemma customDenyID_UnmarshalJSON_total (c : customDenyID.t) (v : json.value) :
  customDenyID.UnmarshalJSON c (json.WellFormed v)
  = Normal (match json.savedError v, v with
            | None, json.String s => s
            | _, _ => c
            end, json.savedError v).
Proof.
  unfold customDenyID.UnmarshalJSON, json.Unmarshal.
  destruct v as [|b|lit|s|l|m]; try reflexivity.
  - rewrite savedError_Number. pose proof (toInterface_Number lit) as H.
    destruct (snd (json.convertNumber lit)) as [e|]; [reflexivity|].
    cbn [reflect.ValueOf reflect.Value_Kind]. now rewrite (H eq_refl).
  - now destruct (json.savedError (json.Array l)).
  - now destruct (json.savedError (json.Object m)).
Qed.

(** On a text that is not JSON both decoders return the parser's error and
    leave the receiver as it was. *)
Lemma UnmarshalJSON_malformed (err : error) :
  (forall c, customDenyID.UnmarshalJSON c (json.Malformed err) = Normal (c, Some err)) /\
  (forall c, atomicConditionsName.UnmarshalJSON c (json.Malformed err) = Normal (c, Some err)).
Proof. split; reflexivity. Qed.

(** C1 (code defect): the decoder of [customDenyID] does not turn a JSON
    number into its decimal text.  [json.Unmarshal] stores a number as a
    [float64] (and stores nothing for a number beyond the range of
    [float64], which it reports), the branch for [reflect.Int] is never
    taken, and the receiver is left as it was: on the number 7 the
    identifier stays empty instead of becoming the text 7. *)
Theorem customDenyID_UnmarshalJSON_number_not_normalized :
  (forall (c : customDenyID.t) (lit : string),
      customDenyID.UnmarshalJSON c (json.WellFormed (json.Number lit))
      = Normal (c, snd (json.convertNumber lit)))
  /\ customDenyID.UnmarshalJSON zero (json.WellFormed (json.Number "7"))
     = Normal (EmptyString, None)
  /\ customDenyID.UnmarshalJSON zero (json.WellFormed (json.Number "7"))
     <> Normal ("7", None).
Proof.
  split; [|split].
  - intros c lit. rewrite customDenyID_UnmarshalJSON_total, savedError_Number.
    now destruct (snd (json.convertNumber lit)).
  - vm_compute. reflexivity.
  - vm_compute. intros H. inversion H.
Qed.

Lemma loop_collectStrings (l pre : list any) (c : atomicConditionsName.t) :
  atomicConditionsName.loop (List.length l) (List.length pre)
    (reflect.Direct (any_slice (pre ++ l))) c
  = collectStrings l c.
Proof.
  revert pre c. induction l as [|x rest IH]; intros pre c; [reflexivity|].
  cbn [List.length atomicConditionsName.loop].
  unfold reflect.Value_Index; cbn [reflect.held reflect.Value_Kind].
  rewrite nth_middle.
  replace (pre ++ x :: rest) with ((pre ++ [x]) ++ rest) by (rewrite <- app_assoc; reflexivity).
  replace (Datatypes.S (List.length pre)) with (List.length (pre ++ [x]))
    by (rewrite length_app; cbn; lia).
  destruct x; cbn [reflect.Value_Interface reflect.held assert_string obind collectStrings];
    try reflexivity.
  apply IH.
Qed.

(** The decoder of [atomicConditionsName] on a JSON array: the error of
    [json.Unmarshal] if there is one, and the slice loop otherwise. *)
Lemma atomicConditionsName_UnmarshalJSON_array (c : atomicConditionsName.t) (l : list json.value) :
  atomicConditionsName.UnmarshalJSON c (json.WellFormed (json.Array l))
  = match json.savedError (json.Array l) with
    | Some e => Normal (c, Some e)
    | None =>
        obind (collectStrings (List.map json.toInterface l) []) (fun c' => Normal (c', None))
    end.
Proof.
  unfold atomicConditionsName.UnmarshalJSON, json.Unmarshal.
  destruct (json.savedError (json.Array l)) as [e|]; [reflexivity|].
  cbn [json.toInterface reflect.ValueOf reflect.Value_Kind reflect.kindOf
       reflect.Value_Len reflect.held].
  change (atomicConditionsName.loop _ 0 _ [])
    with (atomicConditionsName.loop (List.length (List.map json.toInterface l))
            (List.length (@nil any))
            (reflect.Direct (any_slice ([] ++ List.map json.toInterface l))) []).
  rewrite loop_collectStrings.
  reflexivity.
Qed.

Lemma collectStrings_strings (ss : list string) (c : atomicConditionsName.t) :
  collectStrings (List.map json.toInterface (List.map json.String ss)) c = Normal (c ++ ss).
Proof.
  revert c. induction ss as [|s rest IH]; intros c; cbn.
  - now rewrite app_nil_r.
  - rewrite IH, <- app_assoc. reflexivity.
Qed.

(** Strings need no conversion. *)
Lemma savedError_strings (ss : list string) :
  json.savedError (json.Array (List.map json.String ss)) = None.
Proof.
  unfold json.savedError. cbn [json.conversionErrors].
  induction ss as [|s rest IH]; [reflexivity|exact IH].
Qed.

(** An array of strings yields the collection of its elements, whatever the
    receiver held. *)
Lemma atomicConditionsName_UnmarshalJSON_strings (c : atomicConditionsName.t) (ss : list string) :
  atomicConditionsName.UnmarshalJSON c (json.WellFormed (json.Array (List.map json.String ss)))
  = Normal (ss, None).
Proof.
  rewrite atomicConditionsName_UnmarshalJSON_array, savedError_strings, collectStrings_strings.
  reflexivity.
Qed.

(** A JSON string is appended to the receiver. *)
Lemma atomicConditionsName_UnmarshalJSON_string (c : atomicConditionsName.t) (s : string) :
  atomicConditionsName.UnmarshalJSON c (json.WellFormed (json.String s))
  = Normal (c ++ [s], None).
Proof. reflexivity. Qed.

(** Null, booleans, numbers and objects leave the receiver as it was; the
    error is the one of [json.Unmarshal]. *)
Lemma atomicConditionsName_UnmarshalJSON_other (c : atomicConditionsName.t) (v : json.value) :
  (forall s, v <> json.String s) -> (forall l, v <> json.Array l) ->
  atomicConditionsName.UnmarshalJSON c (json.WellFormed v) = Normal (c, json.savedError v).
Proof.
  intros Hs Ha.
  unfold atomicConditionsName.UnmarshalJSON, json.Unmarshal.
  destruct v as [|b|lit|s|l|m]; try reflexivity.
  - rewrite savedError_Number. pose proof (toInterface_Number lit) as H.
    destruct (snd (json.convertNumber lit)) as [e|]; [reflexivity|].
    cbn [reflect.ValueOf reflect.Value_Kind]. now rewrite (H eq_refl).
  - now elim (Hs s).
  - now elim (Ha l).
  - now destruct (json.savedError (json.Object m)).
Qed.

Lemma collectStrings_panics (l : list any) (c : atomicConditionsName.t) :
  (exists x, In x l /\ forall s, x <> any_string s) ->
  exists msg, collectStrings l c = Panic msg.
Proof.
  revert c. induction l as [|x rest IH]; intros c [v [Hin Hv]]; [contradiction|].
  destruct x; cbn; try (eexists; reflexivity).
  destruct Hin as [Heq|Hin]; [subst v; now elim (Hv s)|].
  apply IH. now exists v.
Qed.

Lemma toInterface_string (v : json.value) (s : string) :
  json.toInterface v = any_string s -> v = json.String s.
Proof.
  destruct v; cbn; try discriminate.
  - unfold json.convertNumber. destruct (strconv.ParseFloat lit) as [f [e|]]; discriminate.
  - now intros [= ->].
Qed.

(** The slice branch panics on every array that [json.Unmarshal] decodes
    without an error and that has an element which is not a string. *)
Lemma atomicConditionsName_UnmarshalJSON_panics (c : atomicConditionsName.t) (l : list json.value) :
  json.savedError (json.Array l) = None ->
  (exists v, In v l /\ forall s, v <> json.String s) ->
  exists msg,
    atomicConditionsName.UnmarshalJSON c (json.WellFormed (json.Array l)) = Panic msg.
Proof.
  intros He [v [Hin Hv]]. rewrite atomicConditionsName_UnmarshalJSON_array, He.
  destruct (collectStrings_panics (List.map json.toInterface l) []) as [msg ->].
  - exists (json.toInterface v). split; [now apply in_map|].
    intros s Hs. apply toInterface_string in Hs. now elim (Hv s).
  - now exists msg.
Qed.

(** C9 (code defect): on the well-formed JSON array [[1,2]] the decoder of
    [atomicConditionsName] does not return: the type assertion of the slice
    branch panics on the first element, a [float64]. *)
Theorem atomicConditionsName_UnmarshalJSON_panics_on_numbers :
  let data := json.WellFormed (json.Array [json.Number "1"; json.Number "2"]) in
  atomicConditionsName.UnmarshalJSON [] data
  = Panic "interface conversion: interface {} is float64, not string"
  /\ forall r, atomicConditionsName.UnmarshalJSON [] data <> Normal r.
Proof.
  cbv zeta.
  assert (H : atomicConditionsName.UnmarshalJSON []
                (json.WellFormed (json.Array [json.Number "1"; json.Number "2"]))
              = Panic "interface conversion: interface {} is float64, not string")
    by (vm_compute; reflexivity).
  split; [exact H|]. intros r. rewrite H. discriminate.
Qed.

(** ** Request validation *)

Lemma Validate_Required (x : any) :
  validation.Validate x [validation.Required]
  = if validation.IsEmpty x then Some validation.ErrRequired else None.
Proof. cbn. now destruct (validation.IsEmpty x). Qed.

Lemma Filter_checked_None (l : list (string * any)) :
  validation.Filter (checked l) = None
  <-> forall k x, In (k, x) l -> validation.IsEmpty x = false.
Proof.
  unfold validation.Filter. induction l as [|[k x] rest IH].
  - cbn. split; [intros _ ? ? []|reflexivity].
  - cbn [checked List.map fst snd validation.dropNil]. rewrite Validate_Required.
    destruct (validation.IsEmpty x) eqn:Hx.
    + split; [discriminate|]. intros H. specialize (H k x (or_introl eq_refl)). congruence.
    + fold (checked rest). rewrite IH. split.
      * intros H k' x' [Heq|Hin]; [now inversion Heq; subst|now apply (H k')].
      * intros H k' x' Hin. apply (H k'). now right.
Qed.

Lemma dropNil_checked_In (l : list (string * any)) (k : string) (x : any) :
  In (k, x) l -> validation.IsEmpty x = true ->
  In (k, validation.ErrRequired) (validation.dropNil (checked l)).
Proof.
  induction l as [|[k' x'] rest IH]; [contradiction|].
  intros [Heq|Hin] Hx; cbn [checked List.map fst snd validation.dropNil];
    rewrite Validate_Required.
  - inversion Heq; subst. rewrite Hx. now left.
  - fold (checked rest). destruct (validation.IsEmpty x'); [right|]; now apply IH.
Qed.

Lemma Filter_checked_names (l : list (string * any)) (k : string) (x : any) :
  In (k, x) l -> validation.IsEmpty x = true ->
  exists es, validation.Filter (checked l) = Some es /\ In (k, validation.ErrRequired) es.
Proof.
  intros Hin Hx. pose proof (dropNil_checked_In l k x Hin Hx) as H.
  unfold validation.Filter. destruct (validation.dropNil (checked l)) as [|e es] eqn:E.
  - contradiction.
  - eexists. split; [reflexivity|exact H].
Qed.

(** Every [Validate] method checks the fields of the requiredness set with
    rule [Required], under the name of the field; the one exception is the
    key of [ReputationProfileId] in [GetReputationProfileRequest]. *)
Lemma Validate_checks_requiredFields (o : operation) (v : Request o) :
  o <> op_GetReputationProfile ->
  Validate o v = validation.Filter (checked (requiredFields o v)).
Proof. destruct o; intros H; try reflexivity. now elim H. Qed.

Lemma GetReputationProfileRequest_Validate_checks (v : GetReputationProfileRequest.t) :
  GetReputationProfileRequest.Validate v
  = validation.Filter (checked
      [ ("ConfigID", any_int (GetReputationProfileRequest.ConfigID v))
      ; ("ConfigVersion", any_int (GetReputationProfileRequest.ConfigVersion v))
      ; ("RatePolicyID", any_int (GetReputationProfileRequest.ReputationProfileId v)) ]).
Proof. reflexivity. Qed.

(** A request passes validation exactly when none of its required fields
    holds the zero value of its type. *)
Lemma Validate_None_iff (o : operation) (v : Request o) :
  Validate o v = None
  <-> forall k x, In (k, x) (requiredFields o v) -> validation.IsEmpty x = false.
Proof.
  destruct (operation_eq_dec o op_GetReputationProfile) as [->|Hne].
  - cbn [Validate]. rewrite GetReputationProfileRequest_Validate_checks, Filter_checked_None.
    cbn [requiredFields In]. split; intros H k x Hin.
    + destruct Hin as [Heq|[Heq|[Heq|[]]]]; inversion Heq; subst; eapply H; cbn; eauto.
    + destruct Hin as [Heq|[Heq|[Heq|[]]]]; inversion Heq; subst; eapply H; cbn; eauto.
  - rewrite (Validate_checks_requiredFields o v Hne). apply Filter_checked_None.
Qed.

(** A request whose required field holds the zero value fails validation,
    and the error names the field (by the key it is checked under). *)
Lemma Validate_names_missing_field (o : operation) (v : Request o) (k : string) (x : any) :
  o <> op_GetReputationProfile ->
  In (k, x) (requiredFields o v) -> validation.IsEmpty x = true ->
  exists es, Validate o v = Some es /\ In (k, validation.ErrRequired) es.
Proof.
  intros Hne Hin Hx. rewrite (Validate_checks_requiredFields o v Hne).
  now apply Filter_checked_names with x.
Qed.

(** The zero [int] and the empty string are missing values. *)
Lemma Validate_rejects_zero (o : operation) (v : Request o) (k : string) :
  In (k, any_int 0) (requiredFields o v) \/ In (k, any_string "") (requiredFields o v) ->
  Validate o v <> None.
Proof.
  intros H Hn. rewrite Validate_None_iff in Hn.
  destruct H as [H|H]; apply Hn in H; discriminate H.
Qed.

Lemma Contains_here (k post : string) : Contains (k ++ post) k.
Proof. exists EmptyString, post. reflexivity. Qed.

Lemma Contains_later (pre s k : string) : Contains s k -> Contains (pre ++ s) k.
Proof.
  intros [a [b ->]]. exists (pre ++ a)%string, b.
  induction pre as [|c pre IH]; cbn; [reflexivity|now rewrite IH].
Qed.

Lemma Contains_before (s post k : string) : Contains s k -> Contains (s ++ post) k.
Proof.
  intros [a [b ->]]. exists a, (b ++ post)%string.
  induction a as [|c a IH]; cbn.
  - induction k as [|c k IHk]; cbn; [reflexivity|now rewrite IHk].
  - now rewrite IH.
Qed.

Lemma joinEntries_Contains (es : validation.Errors) (k : string) (e : validation.ErrorObject) :
  In (k, e) es -> Contains (validation.joinEntries es) k.
Proof.
  induction es as [|[k' e'] rest IH]; [contradiction|].
  intros [Heq|Hin].
  - inversion Heq; subst. destruct rest as [|x rest]; cbn; apply Contains_here.
  - destruct rest as [|x rest]; [contradiction|].
    change (validation.joinEntries ((k', e') :: x :: rest))
      with (k' ++ ": " ++ validation.Message e' ++ "; " ++ validation.joinEntries (x :: rest))%string.
    do 4 apply Contains_later. now apply IH.
Qed.

Lemma insertKey_In (kv x : string * validation.ErrorObject) (l : validation.Errors) :
  In x (validation.insertKey kv l) <-> x = kv \/ In x l.
Proof.
  induction l as [|y rest IH]; cbn.
  - intuition.
  - destruct (String.leb (fst kv) (fst y)); cbn; [intuition|]. rewrite IH. intuition.
Qed.

Lemma sortKeys_In (x : string * validation.ErrorObject) (es : validation.Errors) :
  In x (validation.sortKeys es) <-> In x es.
Proof.
  unfold validation.sortKeys. induction es as [|y rest IH]; cbn; [reflexivity|].
  rewrite insertKey_In, IH. intuition.
Qed.

(** The text of a validation error shows every key of the error. *)
Lemma Errors_Error_Contains (es : validation.Errors) (k : string) (e : validation.ErrorObject) :
  In (k, e) es -> Contains (validation.Errors_Error es) k.
Proof.
  intros Hin. destruct es as [|x rest]; [contradiction|].
  unfold validation.Errors_Error. apply Contains_before.
  apply joinEntries_Contains with e. now apply sortKeys_In.
Qed.

(** C6 (code defect): a [GetReputationProfileRequest] without its
    [ReputationProfileId] fails validation with an error that names
    [RatePolicyID], a field the request does not have, and not
    [ReputationProfileId]; the operation returns that text. *)
Theorem GetReputationProfileRequest_Validate_names_RatePolicyID :
  let v := GetReputationProfileRequest.mk 1 1 0 in
  GetReputationProfileRequest.Validate v = Some [("RatePolicyID", validation.ErrRequired)]
  /\ ~ In "ReputationProfileId"
         (List.map fst [("RatePolicyID", validation.ErrRequired)])
  /\ run (GetReputationProfile (mockServer 200 zero) v)
     = (Normal (None,
                Some (wrapError "struct validation: RatePolicyID: cannot be blank."
                        ErrStructValidation)),
        []).
Proof.
  cbv zeta. split; [reflexivity|]. split; [|reflexivity].
  cbn. intros [H|[]]. discriminate H.
Qed.

(** ** The operations *)

Lemma append_nil_r (s : string) : (s ++ "")%string = s.
Proof. induction s as [|c s IH]; cbn; [reflexivity|now rewrite IH]. Qed.

(** The formatted text of a URL, brought to the form of [pathOf]. *)
Ltac eval_url :=
  unfold fmt.Sprintf in *;
  cbn [pathOf reparsed http.URL http.Header_Set fmt.doPrintf fmt.printArg Ascii.eqb Bool.eqb
       orb andb negb append] in *;
  rewrite ?append_nil_r in *.

(** The error every operation builds from a validation error. *)
Lemma Errorf_struct_validation (text : string) :
  fmt.Errorf "%w: %s" [fmt.Err (Some ErrStructValidation); fmt.Str text]
  = wrapError ("struct validation: " ++ text) ErrStructValidation.
Proof. unfold fmt.Errorf. cbn. now rewrite append_nil_r. Qed.

(** Validation precedes the network call: every operation but
    [RemoveReputationAnalysis] answers a request that fails validation with
    a nil response and an error wrapping [ErrStructValidation], without
    invoking [Exec]. *)
Lemma invalid_request_rejected (o : operation) (p : appsec (Response o)) (params : Request o)
    (es : validation.Errors) :
  o <> op_RemoveReputationAnalysis ->
  Validate o params = Some es ->
  run (call o p params)
  = (Normal (None, Some (wrapError ("struct validation: " ++ validation.Errors_Error es)
                           ErrStructValidation)), []).
Proof.
  intros Hne Hv.
  destruct o; try (now elim Hne); open_op; rewrite Hv;
    cbv beta iota delta [ret]; now rewrite Errorf_struct_validation.
Qed.

(** The error an operation returns for a request that fails validation
    wraps [ErrStructValidation] and shows every key of the validation
    error. *)
Lemma invalid_request_error_shape (text : string) :
  errors.Unwrap (wrapError ("struct validation: " ++ text) ErrStructValidation)
  = Some ErrStructValidation
  /\ errors.Is (wrapError ("struct validation: " ++ text) ErrStructValidation)
       ErrStructValidation = true.
Proof. split; reflexivity. Qed.

(** [RemoveReputationAnalysis] sends its request whatever [Validate] says
    of it. *)
Lemma RemoveReputationAnalysis_never_validates
    (p : appsec RemoveReputationAnalysisResponse.t) (params : RemoveReputationAnalysisRequest.t)
    (u : url.URL) :
  url_Parse p (pathOf op_RemoveReputationAnalysis params) = inl u ->
  snd (run (RemoveReputationAnalysis p params))
  = [mkCall (http.mkRequest http.MethodPut u []) true [InRemoveReputationAnalysisRequest params]].
Proof.
  intros Hu. open_op. eval_url. rewrite Hu. repeat step_op; reflexivity.
Qed.

(** C2 (code defect): [RemoveReputationAnalysis] does not call [Validate]: a
    request that fails validation ([ConfigID] is 0) is sent to the server,
    and the operation returns the response and no error. *)
Theorem RemoveReputationAnalysis_skips_validation :
  let params := RemoveReputationAnalysisRequest.mk 0 7 "pol1" false false in
  RemoveReputationAnalysisRequest.Validate params
  = Some [("ConfigID", validation.ErrRequired)]
  /\ run (RemoveReputationAnalysis (mockServer 200 zero) params)
     = (Normal (Some zero, None),
        [mkCall
           (http.mkRequest "PUT"
              (url.mkURL
                 "/appsec/v1/configs/0/versions/7/security-policies/pol1/reputation-analysis")
              [])
           true [InRemoveReputationAnalysisRequest params]]).
Proof. split; reflexivity. Qed.

(** C10 (code defect, the one of C2): through [RemoveReputationAnalysis] the
    configuration 0, version 0 is addressed: the zero request is sent to the
    server and answered. *)
Theorem RemoveReputationAnalysis_addresses_zero_identifiers :
  let params : RemoveReputationAnalysisRequest.t := zero in
  let r := run (RemoveReputationAnalysis (mockServer 200 zero) params) in
  RemoveReputationAnalysisRequest.ConfigID params = 0
  /\ RemoveReputationAnalysisRequest.Version params = 0
  /\ List.map (fun c => url.String_ (http.URL (call_req c))) (snd r)
     = ["/appsec/v1/configs/0/versions/0/security-policies//reputation-analysis"]
  /\ fst r = Normal (Some zero, None).
Proof. repeat split; reflexivity. Qed.

(** The end-to-end example of the specification: [GetAttackGroup] for
    configuration 1, version 2, policy [pol1], group [XSS] against a server
    answering 200 with the action [deny], and against one answering 404. *)
Example GetAttackGroup_end_to_end :
  let params := GetAttackGroupRequest.mk 1 2 "pol1" "XSS" in
  let deny := GetAttackGroupResponse.mk "deny" None in
  run (GetAttackGroup (mockServer 200 deny) params)
  = (Normal (Some deny, None),
     [mkCall (http.mkRequest "GET"
        (url.mkURL
           "/appsec/v1/configs/1/versions/2/security-policies/pol1/attack-groups/XSS?includeConditionException=true")
        []) true []])
  /\ fst (run (GetAttackGroup (mockServer 404 zero) params))
     = Normal (None, Some (dynError "*appsec.Error" "404")).
Proof. split; reflexivity. Qed.

(** Use the three conditions under which an operation reaches [Exec]:
    validation passes, the parser accepts the text of the URL and, for the
    two operations that parse first, the text of the parsed URL. *)
Ltac reach_Exec Hv Hu Hre :=
  cbn [reparsed] in Hre;
  try (specialize (Hv ltac:(discriminate)));
  try (specialize (Hre eq_refl));
  open_op; eval_url;
  try rewrite Hv; rewrite Hu; cbv beta iota zeta; try rewrite Hre; cbv beta iota zeta.

(** An operation invokes [Exec] once, with a request that holds the parsed
    URL, when the request passes validation (which [RemoveReputationAnalysis]
    does not ask for) and the URL parser accepts the text of the URL (and,
    for the two operations that parse first, the text of the parsed URL). *)
Lemma sends_one_request (o : operation) (p : appsec (Response o)) (params : Request o)
    (u u' : url.URL) :
  (o <> op_RemoveReputationAnalysis -> Validate o params = None) ->
  url_Parse p (pathOf o params) = inl u ->
  (reparsed o = true -> url_Parse p (url.String_ u) = inl u') ->
  exists req out ins,
    snd (run (call o p params)) = [mkCall req out ins]
    /\ http.URL req = (if reparsed o then u' else u).
Proof.
  intros Hv Hu Hre.
  destruct o; reach_Exec Hv Hu Hre;
    do 3 eexists; (split; [repeat step_op; reflexivity|reflexivity]).
Qed.

(** C4: every operation that reaches the transport decides on the status
    code of the response: it succeeds exactly when the code is in the
    success set of the method of its request (GET 200; POST, PUT 200 or 201;
    DELETE 200 or 204); on any other code it returns a nil response and the
    error of the shared mapper for that response. *)
Theorem status_decides_success (o : operation) (p : appsec (Response o)) (params : Request o)
    (u u' : url.URL) :
  (o <> op_RemoveReputationAnalysis -> Validate o params = None) ->
  url_Parse p (pathOf o params) = inl u ->
  (reparsed o = true -> url_Parse p (url.String_ u) = inl u') ->
  exists req out ins,
    snd (run (call o p params)) = [mkCall req out ins]
    /\ In (http.Method req)
         [http.MethodGet; http.MethodPost; http.MethodPut; http.MethodDelete]
    /\ forall resp rval,
         roundTrip p req ins = Normal (inl (resp, rval)) ->
         (succeeds (http.Method req) (http.StatusCode resp) = true ->
            exists v, fst (run (call o p params)) = Normal (Some v, None))
         /\ (succeeds (http.Method req) (http.StatusCode resp) = false ->
            fst (run (call o p params)) = Normal (None, Some (Error p resp))).
Proof.
  intros Hv Hu Hre.
  destruct o; reach_Exec Hv Hu Hre;
    do 3 eexists;
    (split; [repeat step_op; reflexivity|]);
    (split; [cbn [http.Method http.Header_Set In]; auto|]);
    intros resp rval Hr; rewrite Hr; cbv beta iota zeta; status_cases;
    (split; intros; try discriminate; try reflexivity; eauto).
Qed.

(** [status_decides_success] at a DELETE answered with 204, and at one
    answered with 201. *)
Lemma status_decides_success_witness :
  let p := mockServer 204 (zero : RemoveCustomDenyResponse.t) in
  let p' := mockServer 201 (zero : RemoveCustomDenyResponse.t) in
  let params := RemoveCustomDenyRequest.mk 1 2 "deny_custom_1" in
  let u := url.mkURL "/appsec/v1/configs/1/versions/2/custom-deny/deny_custom_1" in
  (op_RemoveCustomDeny <> op_RemoveReputationAnalysis ->
   RemoveCustomDenyRequest.Validate params = None)
  /\ url_Parse p (pathOf op_RemoveCustomDeny params) = inl u
  /\ (reparsed op_RemoveCustomDeny = true -> url_Parse p (url.String_ u) = inl u)
  /\ fst (run (RemoveCustomDeny p params)) = Normal (Some zero, None)
  /\ fst (run (RemoveCustomDeny p' params))
     = Normal (None, Some (dynError "*appsec.Error" "201"))
  /\ exists req out ins,
       snd (run (RemoveCustomDeny p params)) = [mkCall req out ins]
       /\ In (http.Method req)
            [http.MethodGet; http.MethodPost; http.MethodPut; http.MethodDelete]
       /\ forall resp (rval : RemoveCustomDenyResponse.t),
            roundTrip p req ins = Normal (inl (resp, rval)) ->
            (succeeds (http.Method req) (http.StatusCode resp) = true ->
               exists v, fst (run (RemoveCustomDeny p params)) = Normal (Some v, None))
            /\ (succeeds (http.Method req) (http.StatusCode resp) = false ->
               fst (run (RemoveCustomDeny p params)) = Normal (None, Some (Error p resp))).
Proof.
  cbv zeta. do 5 (split; [reflexivity|]).
  exact (status_decides_success op_RemoveCustomDeny
           (mockServer 204 zero) (RemoveCustomDenyRequest.mk 1 2 "deny_custom_1")
           (url.mkURL "/appsec/v1/configs/1/versions/2/custom-deny/deny_custom_1")
           (url.mkURL "/appsec/v1/configs/1/versions/2/custom-deny/deny_custom_1")
           (fun _ => eq_refl) eq_refl (fun _ => eq_refl)).
Defined.

(** Every method is one of the four of the success table. *)
Lemma method_of_request (o : operation) (p : appsec (Response o)) (params : Request o)
    (req : http.Request) (out : bool) (ins : list ExecIn) :
  snd (run (call o p params)) = [mkCall req out ins] ->
  In (http.Method req) [http.MethodGet; http.MethodPost; http.MethodPut; http.MethodDelete].
Proof.
  intros Hs. destruct o; run_op; cbn [http.Method http.Header_Set In]; auto.
Qed.

(** An operation invokes [Exec] at most once. *)
Lemma at_most_one_Exec (o : operation) (p : appsec (Response o)) (params : Request o) :
  (List.length (snd (run (call o p params))) <= 1)%nat.
Proof. destruct o; run_op; cbn [List.length]; lia. Qed.

(** A transport fault is wrapped: every operation but [RemoveMatchTarget]
    answers an error of [Exec] with a nil response and an error whose
    [Unwrap] is that error. *)
Lemma transport_fault_wrapped (o : operation) (p : appsec (Response o)) (params : Request o)
    (req : http.Request) (out : bool) (ins : list ExecIn) (fault : error) :
  o <> op_RemoveMatchTarget ->
  snd (run (call o p params)) = [mkCall req out ins] ->
  roundTrip p req ins = Normal (inr fault) ->
  exists msg, fst (run (call o p params)) = Normal (None, Some (wrapError msg fault)).
Proof.
  intros Hne Hs Hr.
  destruct o; try (now elim Hne); run_op; eexists; reflexivity.
Qed.

(** On every transport fault [RemoveMatchTarget] returns the same text,
    which wraps nothing. *)
Lemma RemoveMatchTarget_fault_text
    (p : appsec RemoveMatchTargetResponse.t) (params : RemoveMatchTargetRequest.t)
    (req : http.Request) (out : bool) (ins : list ExecIn) (fault : error) :
  snd (run (RemoveMatchTarget p params)) = [mkCall req out ins] ->
  roundTrip p req ins = Normal (inr fault) ->
  fst (run (RemoveMatchTarget p params))
  = Normal (None, Some (errorString "RemoveMatchTarget request failed: %!w(<nil>)")).
Proof. intros Hs Hr. run_op; reflexivity. Qed.

(** C5 (code defect): [RemoveMatchTarget] formats the wrong variable: on a
    transport fault it wraps [err], which is nil there, and not [errd], so
    the error it returns has no [Unwrap] and is not the fault. *)
Theorem RemoveMatchTarget_drops_transport_fault :
  let fault := errors.New "dial tcp: connection refused" in
  let params := RemoveMatchTargetRequest.mk 1 2 3 in
  let r := run (RemoveMatchTarget (brokenTransport fault) params) in
  snd r = [mkCall (http.mkRequest "DELETE"
                     (url.mkURL "/appsec/v1/configs/1/versions/2/match-targets/3") [])
             false []]
  /\ fst r = Normal (None, Some (errorString "RemoveMatchTarget request failed: %!w(<nil>)"))
  /\ errors.Unwrap (errorString "RemoveMatchTarget request failed: %!w(<nil>)") = None
  /\ errors.Is (errorString "RemoveMatchTarget request failed: %!w(<nil>)") fault = false.
Proof. repeat split; reflexivity. Qed.

Lemma append_assoc (a b c : string) : ((a ++ b) ++ c = a ++ (b ++ c))%string.
Proof. induction a as [|x a IH]; cbn; [reflexivity|now rewrite IH]. Qed.

Lemma Contains_refl (k : string) : Contains k k.
Proof. exists EmptyString, EmptyString. cbn. now rewrite append_nil_r. Qed.

(** A part of a text built with [++] occurs in it. *)
Ltac occurs :=
  first [ apply Contains_refl
        | apply Contains_here
        | apply Contains_later; occurs ].

(** The text every operation formats has each path parameter in it. *)
Lemma pathOf_Contains_pathParams (o : operation) (params : Request o) (name text : string) :
  In (name, text) (pathParams o params) -> Contains (pathOf o params) text.
Proof.
  destruct o; cbn [pathParams pathOf In]; intros H;
    repeat (destruct H as [H|H]; [inversion H; subst; occurs|]); contradiction.
Qed.

Lemma free_app (c : ascii) (a b : string) :
  free c a = true -> free c b = true -> free c (a ++ b) = true.
Proof.
  intros Ha Hb. induction a as [|x a IH]; cbn in *; [exact Hb|].
  apply andb_prop in Ha. destruct Ha as [Hx Ha]. now rewrite Hx, IH.
Qed.

Lemma string_of_uint_free (c : ascii) (d : Decimal.uint) :
  isNumChar c = false -> free c (NilEmpty.string_of_uint d) = true.
Proof.
  intros Hc. induction d; cbn [NilEmpty.string_of_uint free]; try reflexivity;
    rewrite IHd, andb_true_r;
    match goal with
    | |- negb (Ascii.eqb ?a c) = true =>
        destruct (Ascii.eqb_spec a c) as [<-|]; [discriminate Hc|reflexivity]
    end.
Qed.

(** The decimal text of an [int] has only digits and the sign. *)
Lemma Itoa_free (c : ascii) (z : Z) : isNumChar c = false -> free c (strconv.Itoa z) = true.
Proof.
  intros Hc. unfold strconv.Itoa, NilZero.string_of_int, NilZero.string_of_uint.
  assert (H0 : free c "0" = true).
  { cbn [free]. destruct (Ascii.eqb_spec "0" c) as [<-|]; [discriminate Hc|reflexivity]. }
  destruct (Z.to_int z) as [d|d]; cbn [free].
  - destruct d; try exact H0; apply (string_of_uint_free c _ Hc).
  - destruct (Ascii.eqb_spec "-" c) as [<-|]; [discriminate Hc|]. cbn [negb andb].
    destruct d; try exact H0; apply (string_of_uint_free c _ Hc).
Qed.

Lemma after_free (c : ascii) (pre rest : string) :
  free c pre = true -> after c (pre ++ String c rest) = Some rest.
Proof.
  intros H. induction pre as [|a pre IH]; cbn in *.
  - now rewrite Ascii.eqb_refl.
  - apply andb_prop in H. destruct H as [Ha H].
    destruct (Ascii.eqb a c); [discriminate Ha|now apply IH].
Qed.

Lemma splitOn_cons (c : ascii) (s : string) : exists piece more, splitOn c s = piece :: more.
Proof.
  induction s as [|a s [piece [more IH]]]; cbn [splitOn]; [now eexists; eexists|].
  destruct (Ascii.eqb a c); [now eexists; eexists|]. rewrite IH. now eexists; eexists.
Qed.

(** A query that begins with [hostname=] has the parameter [hostname],
    whatever follows. *)
Lemma queryKeys_hostname (h : string) :
  existsb (String.eqb "hostname") (List.map (before "=") (splitOn "&" ("hostname=" ++ h))) = true.
Proof.
  destruct (splitOn_cons "&" h) as [piece [more E]].
  cbn [append splitOn Ascii.eqb Bool.eqb andb]. rewrite E. reflexivity.
Qed.

(** The text [GetApiHostnameCoverageOverlapping] formats has the query
    parameter [hostname], for every request. *)
Lemma hostname_always_appended (params : GetApiHostnameCoverageOverlappingRequest.t) :
  hasQueryParam "hostname" (pathOf op_GetApiHostnameCoverageOverlapping params) = true.
Proof.
  unfold hasQueryParam, queryKeys. cbn [pathOf].
  set (c := GetApiHostnameCoverageOverlappingRequest.ConfigID params).
  set (v := GetApiHostnameCoverageOverlappingRequest.Version params).
  set (h := GetApiHostnameCoverageOverlappingRequest.Hostname params).
  replace ("/appsec/v1/configs/" ++ strconv.Itoa c ++ "/versions/" ++ strconv.Itoa v
           ++ "/hostname-coverage/overlapping?hostname=" ++ h)%string
    with (("/appsec/v1/configs/" ++ strconv.Itoa c ++ "/versions/" ++ strconv.Itoa v
           ++ "/hostname-coverage/overlapping") ++ String "?" ("hostname=" ++ h))%string.
  - rewrite after_free; [apply queryKeys_hostname|].
    repeat (apply free_app; [first [apply Itoa_free|idtac]; reflexivity|]).
    reflexivity.
  - rewrite !append_assoc. reflexivity.
Qed.

(** C7, as amended: every operation that reaches the transport builds its
    URL from a text that has every path parameter in it: the request holds
    what the URL parser makes of that text (for the two operations that
    parse first, of the text of the parsed URL), which prints as that text
    whenever the parser prints a URL as it was written.  The hostname filter
    of [GetApiHostnameCoverageOverlapping] is appended for every value of
    [Hostname], the empty one included. *)
Theorem url_carries_path_parameters :
  (forall (o : operation) (p : appsec (Response o)) (params : Request o) (u u' : url.URL),
      (o <> op_RemoveReputationAnalysis -> Validate o params = None) ->
      url_Parse p (pathOf o params) = inl u ->
      (reparsed o = true -> url_Parse p (url.String_ u) = inl u') ->
      exists req out ins,
        snd (run (call o p params)) = [mkCall req out ins]
        /\ http.URL req = (if reparsed o then u' else u)
        /\ (forall name text,
              In (name, text) (pathParams o params) -> Contains (pathOf o params) text)
        /\ (url.String_ u = pathOf o params ->
            url.String_ (http.URL req) = pathOf o params))
  /\ (forall (p : appsec GetApiHostnameCoverageOverlappingResponse.t) params (u : url.URL),
      let text :=
        ("/appsec/v1/configs/"
         ++ strconv.Itoa (GetApiHostnameCoverageOverlappingRequest.ConfigID params)
         ++ "/versions/"
         ++ strconv.Itoa (GetApiHostnameCoverageOverlappingRequest.Version params)
         ++ "/hostname-coverage/overlapping?hostname="
         ++ GetApiHostnameCoverageOverlappingRequest.Hostname params)%string in
      GetApiHostnameCoverageOverlappingRequest.Validate params = None ->
      url_Parse p text = inl u ->
      snd (run (GetApiHostnameCoverageOverlapping p params))
      = [mkCall (http.mkRequest http.MethodGet u []) true []]
      /\ hasQueryParam "hostname" text = true).
Proof.
  split.
  - intros o p params u u' Hv Hu Hre.
    destruct (sends_one_request o p params u u' Hv Hu Hre) as (req & out & ins & Hs & Hreq).
    exists req, out, ins. split; [exact Hs|]. split; [exact Hreq|].
    split; [intros name text; apply pathOf_Contains_pathParams|].
    intros Hw. rewrite Hreq. destruct (reparsed o) eqn:Hr; [|exact Hw].
    specialize (Hre eq_refl). rewrite Hw, Hu in Hre. now inversion Hre; subst.
  - intros p params u text Hv Hu. split.
    + subst text. open_op. eval_url. rewrite Hv, Hu. repeat step_op; reflexivity.
    + exact (hostname_always_appended params).
Qed.

(** [url_carries_path_parameters] at the removal of a custom deny action
    and at a hostname lookup without a hostname. *)
Lemma url_carries_path_parameters_witness :
  let p := mockServer 204 (zero : RemoveCustomDenyResponse.t) in
  let params := RemoveCustomDenyRequest.mk 1 2 "deny_custom_1" in
  let built := "/appsec/v1/configs/1/versions/2/custom-deny/deny_custom_1" in
  let p' := mockServer 200 (zero : GetApiHostnameCoverageOverlappingResponse.t) in
  let params' := GetApiHostnameCoverageOverlappingRequest.mk 1 2 "" in
  let text := "/appsec/v1/configs/1/versions/2/hostname-coverage/overlapping?hostname=" in
  ((op_RemoveCustomDeny <> op_RemoveReputationAnalysis ->
    RemoveCustomDenyRequest.Validate params = None)
   /\ url_Parse p built = inl (url.mkURL built)
   /\ exists req out ins,
        snd (run (RemoveCustomDeny p params)) = [mkCall req out ins]
        /\ http.URL req = url.mkURL built
        /\ (forall name text,
              In (name, text) [("ConfigID", "1"); ("Version", "2"); ("ID", "deny_custom_1")] ->
              Contains built text)
        /\ (built = built -> url.String_ (http.URL req) = built))
  /\ GetApiHostnameCoverageOverlappingRequest.Validate params' = None
  /\ url_Parse p' text = inl (url.mkURL text)
  /\ snd (run (GetApiHostnameCoverageOverlapping p' params'))
     = [mkCall (http.mkRequest http.MethodGet (url.mkURL text) []) true []]
  /\ hasQueryParam "hostname" text = true.
Proof.
  cbv zeta. split.
  - split; [reflexivity|]. split; [reflexivity|].
    exact (proj1 url_carries_path_parameters op_RemoveCustomDeny
             (mockServer 204 zero) (RemoveCustomDenyRequest.mk 1 2 "deny_custom_1")
             (url.mkURL "/appsec/v1/configs/1/versions/2/custom-deny/deny_custom_1")
             (url.mkURL "/appsec/v1/configs/1/versions/2/custom-deny/deny_custom_1")
             (fun _ => eq_refl) eq_refl (fun _ => eq_refl)).
  - do 2 (split; [reflexivity|]).
    exact (proj2 url_carries_path_parameters
             (mockServer 200 zero)
             (GetApiHostnameCoverageOverlappingRequest.mk 1 2 "")
             (url.mkURL "/appsec/v1/configs/1/versions/2/hostname-coverage/overlapping?hostname=")
             eq_refl eq_refl).
Defined.

(** C7, as stated, fails: with the empty [Hostname] the request still
    carries the query parameter [hostname]. *)
Lemma hostname_appended_when_empty : ~ hostname_appended_only_when_set.
Proof.
  intros H.
  specialize (H (mockServer 200 zero)
                (GetApiHostnameCoverageOverlappingRequest.mk 1 2 "")
                (http.mkRequest "GET"
                   (url.mkURL
                      "/appsec/v1/configs/1/versions/2/hostname-coverage/overlapping?hostname=")
                   [])
                true [] eq_refl eq_refl).
  vm_compute in H. discriminate H.
Qed.

(** C8: for a request that passes validation, [UpdateCustomDeny] hands to
    [Exec] the caller's [JsonPayloadRaw] as the body, unchanged, in the one
    call it makes; and on a response with status 500 it returns a nil
    response and the error of the shared mapper for that response. *)
Theorem UpdateCustomDeny_sends_raw_payload
    (p : appsec UpdateCustomDenyResponse.t) (params : UpdateCustomDenyRequest.t) :
  UpdateCustomDenyRequest.Validate params = None ->
  (forall c, In c (snd (run (UpdateCustomDeny p params))) ->
     call_in c = [InRawMessage (UpdateCustomDenyRequest.JsonPayloadRaw params)])
  /\ (forall u, url_Parse p (pathOf op_UpdateCustomDeny params) = inl u ->
     exists req,
       snd (run (UpdateCustomDeny p params))
       = [mkCall req true [InRawMessage (UpdateCustomDenyRequest.JsonPayloadRaw params)]])
  /\ (forall req out ins resp rval,
     snd (run (UpdateCustomDeny p params)) = [mkCall req out ins] ->
     roundTrip p req ins = Normal (inl (resp, rval)) ->
     http.StatusCode resp = 500 ->
     fst (run (UpdateCustomDeny p params)) = Normal (None, Some (Error p resp))).
Proof.
  intros Hv. split; [|split].
  - intros c Hin. run_op; cbn [In] in Hin; try contradiction;
      destruct Hin as [<-|[]]; reflexivity.
  - intros u Hu. open_op. eval_url. rewrite Hv, Hu.
    repeat step_op; eexists; reflexivity.
  - intros req out ins resp rval Hs Hr H500.
    run_op; status_cases; try reflexivity; lia.
Qed.

(** [UpdateCustomDeny_sends_raw_payload] at a seven-byte payload and a server
    answering 500. *)
Lemma UpdateCustomDeny_sends_raw_payload_witness :
  let payload : json.RawMessage := [x7b; x22; x6e; x22; x3a; x31; x7d] in
  let p := mockServer 500 (zero : UpdateCustomDenyResponse.t) in
  let params := UpdateCustomDenyRequest.mk 1 2 "deny_custom_1" payload in
  let r := run (UpdateCustomDeny p params) in
  UpdateCustomDenyRequest.Validate params = None
  /\ List.map call_in (snd r) = [[InRawMessage payload]]
  /\ fst r = Normal (None, Some (Error p (http.mkResponse 500 []))).
Proof.
  cbv zeta. split; [reflexivity|]. split; [reflexivity|].
  exact (proj2 (proj2 (UpdateCustomDeny_sends_raw_payload
           (mockServer 500 zero)
           (UpdateCustomDenyRequest.mk 1 2 "deny_custom_1" [x7b; x22; x6e; x22; x3a; x31; x7d])
           eq_refl))
         _ true _ (http.mkResponse 500 []) zero eq_refl eq_refl eq_refl).
Defined.

(** ** The list post-filter *)

Section RangeFilter.
Context {A S : Type} (get : S -> list A) (mk : list A -> S) (P : A -> bool).
Hypothesis mk_get : forall s, mk (get s) = s.
Hypothesis get_mk : forall l, get (mk l) = l.

(** The loop that appends the entries [P] keeps is [filter P]. *)
Lemma rangeFrom_filter (l : list A) (k : nat) (s : S) :
  rangeFrom k l (fun _ val s => if P val then mk (get s ++ [val]) else s) s
  = mk (get s ++ filter P l).
Proof.
  revert k s. induction l as [|a rest IH]; intros k s; cbn [rangeFrom filter].
  - now rewrite app_nil_r.
  - destruct (P a); rewrite IH; [|reflexivity].
    now rewrite get_mk, <- app_assoc.
Qed.

(** The same loop, appending the entry read back by its index. *)
Lemma rangeFrom_filter_nth (d : A) (L l pre : list A) (s : S) :
  L = pre ++ l ->
  rangeFrom (List.length pre) l
    (fun k val s => if P val then mk (get s ++ [nth k L d]) else s) s
  = mk (get s ++ filter P l).
Proof.
  revert pre s. induction l as [|a rest IH]; intros pre s HL; cbn [rangeFrom filter].
  - now rewrite app_nil_r.
  - assert (Hn : nth (List.length pre) L d = a) by (subst L; apply nth_middle).
    rewrite Hn.
    replace (Datatypes.S (List.length pre)) with (List.length (pre ++ [a]))
      by (rewrite length_app; cbn; lia).
    assert (HL' : L = (pre ++ [a]) ++ rest) by (now rewrite <- app_assoc).
    destruct (P a); rewrite (IH _ _ HL'); [|reflexivity].
    now rewrite get_mk, <- app_assoc.
Qed.
End RangeFilter.

Lemma filter_none {A : Type} (P : A -> bool) (l : list A) :
  (forall e, In e l -> P e = false) -> filter P l = [].
Proof.
  induction l as [|a rest IH]; intros H; cbn; [reflexivity|].
  rewrite (H a (or_introl eq_refl)). apply IH. intros e He. apply H. now right.
Qed.

Lemma post_filtered_intro {Resp E : Type} (rval out : Resp) (entries : Resp -> list E)
    (unfiltered : bool) (keep : E -> bool) :
  (unfiltered = true -> out = rval) ->
  (unfiltered = false -> entries out = filter keep (entries rval)) ->
  post_filtered (Normal (Some out, None)) rval entries unfiltered keep.
Proof.
  intros Ht Hf. exists out. repeat split; auto.
  intros Hu Hnone. rewrite (Hf Hu). now apply filter_none.
Qed.

(** C3: a list operation whose request passes validation fetches the list
    with one GET; when the fetch succeeds, [GetAttackGroups],
    [GetCustomDenyList] and [GetReputationProfiles] return, for a filter
    value that is not the default, exactly the fetched entries whose
    identifying field equals it, in their order (none, and no error, when
    there is no such entry), and for the default filter value the fetched
    response as it is. *)
Theorem list_post_filter :
  (forall (p : appsec GetAttackGroupsResponse.t) params u resp rval,
      let req := http.mkRequest http.MethodGet u [] in
      GetAttackGroupsRequest.Validate params = None ->
      url_Parse p (pathOf op_GetAttackGroups params) = inl u ->
      roundTrip p req [] = Normal (inl (resp, rval)) ->
      http.StatusCode resp = http.StatusOK ->
      snd (run (GetAttackGroups p params)) = [mkCall req true []]
      /\ post_filtered (fst (run (GetAttackGroups p params))) rval
           GetAttackGroupsResponse.AttackGroups
           (String.eqb (GetAttackGroupsRequest.Group params) "")
           (fun e => String.eqb (GetAttackGroupsResponse.AttackGroups_.Group e)
                       (GetAttackGroupsRequest.Group params)))
  /\ (forall (p : appsec GetCustomDenyListResponse.t) params u resp rval,
      let req := http.mkRequest http.MethodGet u [] in
      GetCustomDenyListRequest.Validate params = None ->
      url_Parse p (pathOf op_GetCustomDenyList params) = inl u ->
      roundTrip p req [] = Normal (inl (resp, rval)) ->
      http.StatusCode resp = http.StatusOK ->
      snd (run (GetCustomDenyList p params)) = [mkCall req true []]
      /\ post_filtered (fst (run (GetCustomDenyList p params))) rval
           GetCustomDenyListResponse.CustomDenyList
           (String.eqb (GetCustomDenyListRequest.ID params) "")
           (fun e => String.eqb (GetCustomDenyListResponse.CustomDenyList_.ID e)
                       (GetCustomDenyListRequest.ID params)))
  /\ (forall (p : appsec GetReputationProfilesResponse.t) params u resp rval,
      let req := http.mkRequest http.MethodGet u [] in
      GetReputationProfilesRequest.Validate params = None ->
      url_Parse p (pathOf op_GetReputationProfiles params) = inl u ->
      roundTrip p req [] = Normal (inl (resp, rval)) ->
      http.StatusCode resp = http.StatusOK ->
      snd (run (GetReputationProfiles p params)) = [mkCall req true []]
      /\ post_filtered (fst (run (GetReputationProfiles p params))) rval
           GetReputationProfilesResponse.ReputationProfiles
           (GetReputationProfilesRequest.ReputationProfileId params =? 0)
           (fun e => GetReputationProfilesResponse.ReputationProfiles_.ID e
                     =? GetReputationProfilesRequest.ReputationProfileId params)).
Proof.
  split; [|split]; intros p params u resp rval req Hv Hu Hr H200; subst req.
  - open_op. eval_url. rewrite Hv, Hu. cbv beta iota zeta. rewrite Hr, H200.
    cbv beta iota zeta. cbn [Z.eqb Pos.eqb negb http.StatusOK]. cbv beta iota zeta.
    split; [reflexivity|].
    apply post_filtered_intro; intros Hf; rewrite Hf; cbn [negb]; [reflexivity|].
    unfold range.
    rewrite (rangeFrom_filter_nth GetAttackGroupsResponse.AttackGroups
               GetAttackGroupsResponse.mk
               (fun e => String.eqb (GetAttackGroupsResponse.AttackGroups_.Group e)
                           (GetAttackGroupsRequest.Group params))
               (fun s => match s with GetAttackGroupsResponse.mk _ => eq_refl end)
               (fun l => eq_refl) zero
               (GetAttackGroupsResponse.AttackGroups rval)
               (GetAttackGroupsResponse.AttackGroups rval) [] zero eq_refl).
    reflexivity.
  - open_op. eval_url. rewrite Hv, Hu. cbv beta iota zeta. rewrite Hr, H200.
    cbv beta iota zeta. cbn [Z.eqb Pos.eqb negb http.StatusOK]. cbv beta iota zeta.
    split; [reflexivity|].
    apply post_filtered_intro; intros Hf; rewrite Hf; cbn [negb]; [reflexivity|].
    unfold range.
    rewrite (rangeFrom_filter GetCustomDenyListResponse.CustomDenyList
               GetCustomDenyListResponse.mk
               (fun e => String.eqb (GetCustomDenyListResponse.CustomDenyList_.ID e)
                           (GetCustomDenyListRequest.ID params))
               (fun s => match s with GetCustomDenyListResponse.mk _ => eq_refl end)
               (fun l => eq_refl)).
    reflexivity.
  - open_op. eval_url. rewrite Hv, Hu. cbv beta iota zeta. rewrite Hr, H200.
    cbv beta iota zeta. cbn [Z.eqb Pos.eqb negb http.StatusOK]. cbv beta iota zeta.
    split; [reflexivity|].
    apply post_filtered_intro; intros Hf; rewrite Hf; cbn [negb]; [reflexivity|].
    unfold range.
    rewrite (rangeFrom_filter GetReputationProfilesResponse.ReputationProfiles
               GetReputationProfilesResponse.mk
               (fun e => GetReputationProfilesResponse.ReputationProfiles_.ID e
                         =? GetReputationProfilesRequest.ReputationProfileId params)
               (fun s => match s with GetReputationProfilesResponse.mk _ => eq_refl end)
               (fun l => eq_refl)).
    reflexivity.
Qed.

(** [list_post_filter] at four fetched attack groups, two of them in the
    group asked for. *)
Lemma list_post_filter_witness :
  let sql := GetAttackGroupsResponse.AttackGroups_.mk "SQL" "deny" None in
  let xss := GetAttackGroupsResponse.AttackGroups_.mk "XSS" "alert" None in
  let cmd := GetAttackGroupsResponse.AttackGroups_.mk "CMD" "deny" None in
  let rval := GetAttackGroupsResponse.mk [sql; xss; cmd; xss] in
  let p := mockServer 200 rval in
  let params := GetAttackGroupsRequest.mk 1 2 "pol1" "XSS" in
  let u := url.mkURL
      "/appsec/v1/configs/1/versions/2/security-policies/pol1/attack-groups?includeConditionException=true" in
  let req := http.mkRequest "GET" u [] in
  GetAttackGroupsRequest.Validate params = None
  /\ url_Parse p (pathOf op_GetAttackGroups params) = inl u
  /\ roundTrip p req [] = Normal (inl (http.mkResponse 200 [], rval))
  /\ http.StatusCode (http.mkResponse 200 []) = http.StatusOK
  /\ fst (run (GetAttackGroups p params))
     = Normal (Some (GetAttackGroupsResponse.mk [xss; xss]), None)
  /\ snd (run (GetAttackGroups p params)) = [mkCall req true []]
  /\ post_filtered (fst (run (GetAttackGroups p params))) rval
       GetAttackGroupsResponse.AttackGroups
       (String.eqb "XSS" "")
       (fun e => String.eqb (GetAttackGroupsResponse.AttackGroups_.Group e) "XSS").
Proof.
  cbv zeta. do 5 (split; [reflexivity|]).
  exact (proj1 list_post_filter
           (mockServer 200
              (GetAttackGroupsResponse.mk
                 [ GetAttackGroupsResponse.AttackGroups_.mk "SQL" "deny" None
                 ; GetAttackGroupsResponse.AttackGroups_.mk "XSS" "alert" None
                 ; GetAttackGroupsResponse.AttackGroups_.mk "CMD" "deny" None
                 ; GetAttackGroupsResponse.AttackGroups_.mk "XSS" "alert" None ]))
           (GetAttackGroupsRequest.mk 1 2 "pol1" "XSS")
           (url.mkURL
              "/appsec/v1/configs/1/versions/2/security-policies/pol1/attack-groups?includeConditionException=true")
           (http.mkResponse 200 []) _ eq_refl eq_refl eq_refl eq_refl).
Defined.

(** * Further properties of the package *)

(** ** Validation *)

Lemma errors_eqb_refl (e : error) : errors.eqb e e = true.
Proof.
  induction e as [s|m e IH|ty s]; cbn; rewrite ?String.eqb_refl, ?IH; reflexivity.
Qed.

Lemma errors_Is_wrapped (msg : string) (e : error) : errors.Is (wrapError msg e) e = true.
Proof.
  cbn [errors.Is]. destruct e; cbn [errors.Is]; rewrite errors_eqb_refl;
    cbn [orb]; now rewrite ?orb_true_r.
Qed.

(** Validation comes before everything else: every operation but
    [RemoveReputationAnalysis] answers a request that fails validation
    without formatting a URL or invoking [Exec]; the response is nil and the
    error is [ErrStructValidation] wrapped, with a text that shows every key
    of the validation error. *)
Theorem invalid_request_never_reaches_the_network
    (o : operation) (p : appsec (Response o)) (params : Request o) (es : validation.Errors) :
  o <> op_RemoveReputationAnalysis ->
  Validate o params = Some es ->
  exists err,
    run (call o p params) = (Normal (None, Some err), [])
    /\ errors.Unwrap err = Some ErrStructValidation
    /\ errors.Is err ErrStructValidation = true
    /\ forall k e, In (k, e) es -> Contains (errors.Error err) k.
Proof.
  intros Hne Hv. eexists. split; [exact (invalid_request_rejected o p params es Hne Hv)|].
  split; [reflexivity|]. split; [apply errors_Is_wrapped|].
  intros k e Hin. cbn [errors.Error].
  apply Contains_later. now apply Errors_Error_Contains with e.
Qed.

(** [invalid_request_never_reaches_the_network] at a custom deny lookup
    without its [ID]. *)
Lemma invalid_request_never_reaches_the_network_witness :
  let params := GetCustomDenyRequest.mk 1 2 "" in
  op_GetCustomDeny <> op_RemoveReputationAnalysis
  /\ GetCustomDenyRequest.Validate params = Some [("ID", validation.ErrRequired)]
  /\ exists err,
       run (GetCustomDeny (mockServer 200 zero) params) = (Normal (None, Some err), [])
       /\ errors.Unwrap err = Some ErrStructValidation
       /\ errors.Is err ErrStructValidation = true
       /\ forall k e, In (k, e) [("ID", validation.ErrRequired)] -> Contains (errors.Error err) k.
Proof.
  cbv zeta. split; [discriminate|]. split; [reflexivity|].
  exact (invalid_request_never_reaches_the_network op_GetCustomDeny
           (mockServer 200 zero) (GetCustomDenyRequest.mk 1 2 "")
           [("ID", validation.ErrRequired)]
           (fun H => match H in (_ = o) return
                       match o with op_RemoveReputationAnalysis => False | _ => True end
                     with eq_refl => I end)
           eq_refl).
Defined.

Lemma requiredFields_int_or_string (o : operation) (v : Request o) (k : string) (x : any) :
  In (k, x) (requiredFields o v) -> (exists z, x = any_int z) \/ (exists s, x = any_string s).
Proof.
  destruct o; cbn [requiredFields In]; intros H;
    repeat (destruct H as [H|H]; [inversion H; subst; eauto|]); contradiction.
Qed.

(** A request passes validation exactly when none of its required [int]
    fields is 0 and none of its required string fields is empty; the other
    fields (the group of an attack group, the hostname, the filter values,
    the payload) are never looked at. *)
Theorem Validate_passes_iff_required_fields_set (o : operation) (v : Request o) :
  Validate o v = None
  <-> forall k x, In (k, x) (requiredFields o v) -> x <> any_int 0 /\ x <> any_string "".
Proof.
  rewrite Validate_None_iff. split; intros H k x Hin.
  - specialize (H k x Hin). split; intros ->; discriminate H.
  - destruct (H k x Hin) as [Hz Hs].
    destruct (requiredFields_int_or_string o v k x Hin) as [[z ->]|[s ->]]; cbn.
    + destruct (Z.eqb_spec z 0) as [->|]; [now elim Hz|reflexivity].
    + destruct s; [now elim Hs|reflexivity].
Qed.

(** A request with a required field at the zero value of its type fails
    validation; the error has an entry under the name of that field with the
    message of rule [Required], and its text shows the name.  (The key of
    [ReputationProfileId] in [GetReputationProfileRequest] is the exception.) *)
Theorem Validate_reports_each_missing_field
    (o : operation) (v : Request o) (k : string) (x : any) :
  o <> op_GetReputationProfile ->
  In (k, x) (requiredFields o v) ->
  x = any_int 0 \/ x = any_string "" ->
  exists es,
    Validate o v = Some es
    /\ In (k, validation.NewError "validation_required" "cannot be blank") es
    /\ Contains (validation.Errors_Error es) k.
Proof.
  intros Hne Hin Hx.
  assert (He : validation.IsEmpty x = true) by (destruct Hx as [->| ->]; reflexivity).
  destruct (Validate_names_missing_field o v k x Hne Hin He) as [es [Hv Hk]].
  exists es. split; [exact Hv|]. split; [exact Hk|].
  now apply Errors_Error_Contains with validation.ErrRequired.
Qed.

(** [Validate_reports_each_missing_field] at an attack group update without
    its policy. *)
Lemma Validate_reports_each_missing_field_witness :
  let v := UpdateAttackGroupRequest.mk 1 2 "" "SQL" "deny" [] in
  op_UpdateAttackGroup <> op_GetReputationProfile
  /\ In ("PolicyID", any_string "") (requiredFields op_UpdateAttackGroup v)
  /\ exists es,
       UpdateAttackGroupRequest.Validate v = Some es
       /\ In ("PolicyID", validation.NewError "validation_required" "cannot be blank") es
       /\ Contains (validation.Errors_Error es) "PolicyID".
Proof.
  cbv zeta. split; [discriminate|]. split; [cbn; auto|].
  exact (Validate_reports_each_missing_field op_UpdateAttackGroup
           (UpdateAttackGroupRequest.mk 1 2 "" "SQL" "deny" []) "PolicyID" (any_string "")
           (fun H => match H in (_ = o) return
                       match o with op_GetReputationProfile => False | _ => True end
                     with eq_refl => I end)
           (or_intror (or_intror (or_introl eq_refl)))
           (or_intror eq_refl)).
Defined.

(** ** The shape of an operation *)

(** Bring [fmt.Errorf format [fmt.Err (Some e)]] to the form
    [wrapError (prefix ++ errors.Error e) e]. *)
Ltac wrapped_with_prefix :=
  lazymatch goal with
  | |- context [fmt.Errorf ?f _] =>
      let pre := eval vm_compute in (withoutVerb f) in
      exists pre;
      unfold fmt.Errorf;
      cbn [fmt.wrappedErr fmt.doPrintf fmt.printArg errors.Error Ascii.eqb Bool.eqb
           orb andb negb append];
      rewrite ?append_nil_r; reflexivity
  end.

(** An operation that returns gives either a response and no error, or an
    error and no response, whatever the session does; and it panics only
    where its one call of [Exec] does, with the panic of that call. *)
Theorem response_or_error (o : operation) (p : appsec (Response o)) (params : Request o) :
  (exists v, fst (run (call o p params)) = Normal (Some v, None))
  \/ (exists err, fst (run (call o p params)) = Normal (None, Some err))
  \/ (exists msg req out ins,
        fst (run (call o p params)) = Panic msg
        /\ snd (run (call o p params)) = [mkCall req out ins]
        /\ roundTrip p req ins = Panic msg).
Proof.
  destruct o; run_op;
    solve [ left; eexists; reflexivity
          | right; left; eexists; reflexivity
          | right; right; do 4 eexists; split; [reflexivity|]; split; [reflexivity|];
            eassumption ].
Qed.

(** When the URL parser rejects the text an operation formats, the
    operation invokes [Exec] not at all and returns a nil response with an
    error that wraps the parser's error and ends with its text. *)
Theorem unparsable_url_stops_the_operation
    (o : operation) (p : appsec (Response o)) (params : Request o) (e : error) :
  Validate o params = None ->
  url_Parse p (pathOf o params) = inr e ->
  exists prefix,
    run (call o p params) = (Normal (None, Some (wrapError (prefix ++ errors.Error e) e)), []).
Proof.
  intros Hv Hu.
  destruct o; open_op; eval_url; rewrite ?Hv, Hu; cbv beta iota zeta;
    wrapped_with_prefix.
Qed.

(** [unparsable_url_stops_the_operation] at a parser that rejects every
    text. *)
Lemma unparsable_url_stops_the_operation_witness :
  let bad := errors.New "net/url: invalid control character in URL" in
  let p : appsec GetVersionNotesResponse.t :=
    mkAppsec (fun _ _ => Normal (inl (http.mkResponse 200 [], zero)))
             (fun _ => errors.New "unused") (fun _ => inr bad) in
  let params := GetVersionNotesRequest.mk 1 2 in
  GetVersionNotesRequest.Validate params = None
  /\ url_Parse p (pathOf op_GetVersionNotes params) = inr bad
  /\ exists prefix,
       run (GetVersionNotes p params)
       = (Normal (None, Some (wrapError (prefix ++ errors.Error bad) bad)), []).
Proof.
  cbv zeta. split; [reflexivity|]. split; [reflexivity|].
  exact (unparsable_url_stops_the_operation op_GetVersionNotes
           (mkAppsec (fun _ _ => Normal (inl (http.mkResponse 200 [], zero)))
                     (fun _ => errors.New "unused")
                     (fun _ => inr (errors.New "net/url: invalid control character in URL")))
           (GetVersionNotesRequest.mk 1 2)
           (errors.New "net/url: invalid control character in URL") eq_refl eq_refl).
Defined.

(** A fault of the transport is passed on: every operation but
    [RemoveMatchTarget] answers an error of [Exec] with a nil response and
    an error that wraps it ([errors.Is] finds it) and ends with its text. *)
Theorem transport_fault_is_passed_on
    (o : operation) (p : appsec (Response o)) (params : Request o)
    (req : http.Request) (out : bool) (ins : list ExecIn) (fault : error) :
  o <> op_RemoveMatchTarget ->
  snd (run (call o p params)) = [mkCall req out ins] ->
  roundTrip p req ins = Normal (inr fault) ->
  exists prefix err,
    fst (run (call o p params)) = Normal (None, Some err)
    /\ err = wrapError (prefix ++ errors.Error fault) fault
    /\ errors.Is err fault = true.
Proof.
  intros Hne Hs Hr.
  assert (H : exists prefix,
             fst (run (call o p params))
             = Normal (None, Some (wrapError (prefix ++ errors.Error fault) fault))).
  { destruct o; try (now elim Hne); run_op; wrapped_with_prefix. }
  destruct H as [prefix H]. exists prefix. eexists. split; [exact H|].
  split; [reflexivity|apply errors_Is_wrapped].
Qed.

(** [transport_fault_is_passed_on] at a reputation profile creation on a
    broken transport. *)
Lemma transport_fault_is_passed_on_witness :
  let fault := errors.New "context deadline exceeded" in
  let p : appsec CreateReputationProfileResponse.t := brokenTransport fault in
  let params := CreateReputationProfileRequest.mk 1 2 [x7b; x7d] in
  let req := http.mkRequest "POST"
               (url.mkURL "/appsec/v1/configs/1/versions/2/reputation-profiles")
               [("Content-Type", "application/json")] in
  op_CreateReputationProfile <> op_RemoveMatchTarget
  /\ snd (run (CreateReputationProfile p params)) = [mkCall req true [InRawMessage [x7b; x7d]]]
  /\ roundTrip p req [InRawMessage [x7b; x7d]] = Normal (inr fault)
  /\ exists prefix err,
       fst (run (CreateReputationProfile p params)) = Normal (None, Some err)
       /\ err = wrapError (prefix ++ errors.Error fault) fault
       /\ errors.Is err fault = true.
Proof.
  cbv zeta. split; [discriminate|]. split; [reflexivity|]. split; [reflexivity|].
  exact (transport_fault_is_passed_on op_CreateReputationProfile
           (brokenTransport (errors.New "context deadline exceeded"))
           (CreateReputationProfileRequest.mk 1 2 [x7b; x7d])
           _ true _ (errors.New "context deadline exceeded")
           (fun H => match H in (_ = o) return
                       match o with op_RemoveMatchTarget => False | _ => True end
                     with eq_refl => I end)
           eq_refl eq_refl).
Defined.

(** An operation never retries: whatever the session answers, [Exec] is
    invoked at most once; and it is invoked exactly once when the request
    passes validation and the URL parser accepts the text of the URL (and,
    for the two operations that parse first, the text of the parsed URL). *)
Theorem Exec_invoked_once (o : operation) (p : appsec (Response o)) (params : Request o) :
  (List.length (snd (run (call o p params))) <= 1)%nat
  /\ (forall u,
        Validate o params = None ->
        url_Parse p (pathOf o params) = inl u ->
        (reparsed o = true -> exists u', url_Parse p (url.String_ u) = inl u') ->
        List.length (snd (run (call o p params))) = 1%nat).
Proof.
  split; [apply at_most_one_Exec|].
  intros u Hv Hu Hre.
  destruct o; cbn [reparsed] in Hre;
    try (destruct (Hre eq_refl) as [u' Hu']); clear Hre;
    open_op; eval_url; rewrite ?Hv, Hu; cbv beta iota zeta; rewrite ?Hu';
    cbv beta iota zeta; repeat step_op; reflexivity.
Qed.

(** [Exec_invoked_once] at the removal of a custom deny action. *)
Lemma Exec_invoked_once_witness :
  let p := mockServer 204 (zero : RemoveCustomDenyResponse.t) in
  let params := RemoveCustomDenyRequest.mk 1 2 "deny_custom_1" in
  RemoveCustomDenyRequest.Validate params = None
  /\ url_Parse p (pathOf op_RemoveCustomDeny params)
     = inl (url.mkURL "/appsec/v1/configs/1/versions/2/custom-deny/deny_custom_1")
  /\ List.length (snd (run (RemoveCustomDeny p params))) = 1%nat.
Proof.
  cbv zeta. split; [reflexivity|]. split; [reflexivity|].
  exact (proj2 (Exec_invoked_once op_RemoveCustomDeny (mockServer 204 zero)
                  (RemoveCustomDenyRequest.mk 1 2 "deny_custom_1"))
           (url.mkURL "/appsec/v1/configs/1/versions/2/custom-deny/deny_custom_1")
           eq_refl eq_refl
           (fun _ => ex_intro _ (url.mkURL "/appsec/v1/configs/1/versions/2/custom-deny/deny_custom_1")
                       eq_refl)).
Defined.

(** On a status of the success set, an operation that neither filters nor
    drops the body returns exactly what was decoded into its destination. *)
Theorem success_returns_the_decoded_response
    (o : operation) (p : appsec (Response o)) (params : Request o)
    (req : http.Request) (out : bool) (ins : list ExecIn)
    (resp : http.Response) (rval : Response o) :
  returnsDecoded o = true ->
  snd (run (call o p params)) = [mkCall req out ins] ->
  roundTrip p req ins = Normal (inl (resp, rval)) ->
  succeeds (http.Method req) (http.StatusCode resp) = true ->
  out = true /\ fst (run (call o p params)) = Normal (Some rval, None).
Proof.
  intros Hd Hs Hr Hok.
  destruct o; try discriminate Hd; run_op; status_cases;
    try discriminate; split; reflexivity.
Qed.

(** [success_returns_the_decoded_response] at the version notes of a
    configuration. *)
Lemma success_returns_the_decoded_response_witness :
  let notes := GetVersionNotesResponse.mk "first release" in
  let p := mockServer 200 notes in
  let params := GetVersionNotesRequest.mk 1 2 in
  let req := http.mkRequest "GET"
               (url.mkURL "/appsec/v1/configs/1/versions/2/version-notes") [] in
  returnsDecoded op_GetVersionNotes = true
  /\ snd (run (GetVersionNotes p params)) = [mkCall req true []]
  /\ roundTrip p req [] = Normal (inl (http.mkResponse 200 [], notes))
  /\ succeeds "GET" 200 = true
  /\ fst (run (GetVersionNotes p params)) = Normal (Some notes, None).
Proof.
  cbv zeta. do 4 (split; [reflexivity|]).
  exact (proj2 (success_returns_the_decoded_response op_GetVersionNotes
           (mockServer 200 (GetVersionNotesResponse.mk "first release"))
           (GetVersionNotesRequest.mk 1 2) _ true [] (http.mkResponse 200 [])
           (GetVersionNotesResponse.mk "first release")
           eq_refl eq_refl eq_refl eq_refl)).
Defined.

(** [RemoveMatchTarget] gives [Exec] no destination, so on success it
    returns the zero response whatever the server sent. *)
Theorem RemoveMatchTarget_returns_the_zero_response
    (p : appsec RemoveMatchTargetResponse.t) (params : RemoveMatchTargetRequest.t)
    (req : http.Request) (out : bool) (ins : list ExecIn)
    (resp : http.Response) (rval : RemoveMatchTargetResponse.t) :
  snd (run (RemoveMatchTarget p params)) = [mkCall req out ins] ->
  roundTrip p req ins = Normal (inl (resp, rval)) ->
  http.StatusCode resp = http.StatusNoContent \/ http.StatusCode resp = http.StatusOK ->
  out = false /\ ins = [] /\ fst (run (RemoveMatchTarget p params)) = Normal (Some zero, None).
Proof.
  intros Hs Hr Hok.
  run_op; status_cases; try (repeat split; reflexivity);
    destruct Hok as [Hok|Hok]; rewrite Hok in *; discriminate.
Qed.

(** [RemoveMatchTarget_returns_the_zero_response] at a server that sends a
    body with its 200. *)
Lemma RemoveMatchTarget_returns_the_zero_response_witness :
  let sent : RemoveMatchTargetResponse.t :=
    RemoveMatchTargetResponse.mk "website" 1 2 "index.html" ["example.com"]
      false false [] [] (RemoveMatchTargetResponse.SecurityPolicy_.mk "pol1") 5 3 [] in
  let p := mockServer 200 sent in
  let params := RemoveMatchTargetRequest.mk 1 2 3 in
  let req := http.mkRequest "DELETE"
               (url.mkURL "/appsec/v1/configs/1/versions/2/match-targets/3") [] in
  snd (run (RemoveMatchTarget p params)) = [mkCall req false []]
  /\ roundTrip p req [] = Normal (inl (http.mkResponse 200 [], sent))
  /\ fst (run (RemoveMatchTarget p params)) = Normal (Some zero, None).
Proof.
  cbv zeta. do 2 (split; [reflexivity|]).
  exact (proj2 (proj2 (RemoveMatchTarget_returns_the_zero_response
           (mockServer 200
              (RemoveMatchTargetResponse.mk "website" 1 2 "index.html" ["example.com"]
                 false false [] [] (RemoveMatchTargetResponse.SecurityPolicy_.mk "pol1") 5 3 []))
           (RemoveMatchTargetRequest.mk 1 2 3) _ false [] (http.mkResponse 200 []) _
           eq_refl eq_refl (or_intror eq_refl)))).
Defined.

(** What a request carries: a GET or DELETE request has no body and no
    header; a POST or PUT request has one body; and every request whose body
    is the caller's raw JSON payload has the one header
    [Content-Type: application/json]. *)
Theorem body_and_header_by_method
    (o : operation) (p : appsec (Response o)) (params : Request o)
    (req : http.Request) (out : bool) (ins : list ExecIn) :
  snd (run (call o p params)) = [mkCall req out ins] ->
  (http.Method req = http.MethodGet \/ http.Method req = http.MethodDelete ->
     ins = [] /\ http.Header req = [])
  /\ (http.Method req = http.MethodPost \/ http.Method req = http.MethodPut ->
     exists body, ins = [body])
  /\ (forall m, ins = [InRawMessage m] ->
     http.Header req = [("Content-Type", "application/json")]).
Proof.
  intros Hs.
  destruct o; run_op; cbn [http.Method http.Header http.Header_Set filter];
    (split; [|split]);
    try (intros [H|H]; try discriminate H);
    try (intros m H; try discriminate H);
    try (split; reflexivity); try reflexivity; try (eexists; reflexivity).
Qed.

(** [body_and_header_by_method] at a match target update. *)
Lemma body_and_header_by_method_witness :
  let p := mockServer 200 (zero : UpdateMatchTargetResponse.t) in
  let params := UpdateMatchTargetRequest.mk 1 2 [x7b; x7d] 3 in
  let req := http.mkRequest "PUT"
               (url.mkURL "/appsec/v1/configs/1/versions/2/match-targets/3")
               [("Content-Type", "application/json")] in
  snd (run (UpdateMatchTarget p params)) = [mkCall req true [InRawMessage [x7b; x7d]]]
  /\ http.Header req = [("Content-Type", "application/json")].
Proof.
  cbv zeta. split; [reflexivity|].
  exact (proj2 (proj2 (body_and_header_by_method op_UpdateMatchTarget
           (mockServer 200 zero) (UpdateMatchTargetRequest.mk 1 2 [x7b; x7d] 3)
           _ true _ eq_refl)) [x7b; x7d] eq_refl).
Defined.

(** ** The list operations *)

Section RangePut.
Context {A S : Type} (get : S -> list A) (put : list A -> S -> S) (P : A -> bool).
Hypothesis get_put : forall l s, get (put l s) = l.
Hypothesis put_put : forall l l' s, put l (put l' s) = put l s.
Hypothesis put_get : forall s, put (get s) s = s.

(** The loop that appends the entries [P] keeps to one list of a record
    with several. *)
Lemma rangeFrom_put_filter (l : list A) (k : nat) (s : S) :
  rangeFrom k l (fun _ val s => if P val then put (get s ++ [val]) s else s) s
  = put (get s ++ filter P l) s.
Proof.
  revert k s. induction l as [|a rest IH]; intros k s; cbn [rangeFrom filter].
  - now rewrite app_nil_r, put_get.
  - destruct (P a); rewrite IH; [|reflexivity].
    now rewrite get_put, put_put, <- app_assoc.
Qed.
End RangePut.

(** [GetMatchTargets] filters both lists of targets by [TargetID]: with a
    [TargetID] other than 0 it returns the fetched website targets and the
    fetched API targets that have this identifier, each list in its order;
    with [TargetID] 0 it returns the fetched response as it is. *)
Theorem GetMatchTargets_post_filter
    (p : appsec GetMatchTargetsResponse.t) (params : GetMatchTargetsRequest.t)
    (req : http.Request) (out : bool) (ins : list ExecIn)
    (resp : http.Response) (result : GetMatchTargetsResponse.t) :
  snd (run (GetMatchTargets p params)) = [mkCall req out ins] ->
  roundTrip p req ins = Normal (inl (resp, result)) ->
  http.StatusCode resp = http.StatusOK ->
  fst (run (GetMatchTargets p params))
  = Normal (Some
       (if GetMatchTargetsRequest.TargetID params =? 0 then result
        else
          GetMatchTargetsResponse.mk
            (GetMatchTargetsResponse.MatchTargets_.mk
               (filter
                  (fun e => GetMatchTargetsResponse.MatchTargets_.APITargets_.TargetID e
                            =? GetMatchTargetsRequest.TargetID params)
                  (GetMatchTargetsResponse.MatchTargets_.APITargets
                     (GetMatchTargetsResponse.MatchTargets result)))
               (filter
                  (fun e => GetMatchTargetsResponse.MatchTargets_.WebsiteTargets_.TargetID e
                            =? GetMatchTargetsRequest.TargetID params)
                  (GetMatchTargetsResponse.MatchTargets_.WebsiteTargets
                     (GetMatchTargetsResponse.MatchTargets result))))),
     None).
Proof.
  intros Hs Hr H200.
  run_op; try (rewrite H200 in *; discriminate); try reflexivity.
  unfold range.
  rewrite (rangeFrom_put_filter
             (fun s => GetMatchTargetsResponse.MatchTargets_.WebsiteTargets
                         (GetMatchTargetsResponse.MatchTargets s))
             (fun l s => GetMatchTargetsResponse.mk
                           (GetMatchTargetsResponse.MatchTargets_.mk
                              (GetMatchTargetsResponse.MatchTargets_.APITargets
                                 (GetMatchTargetsResponse.MatchTargets s)) l))
             (fun e => GetMatchTargetsResponse.MatchTargets_.WebsiteTargets_.TargetID e
                       =? GetMatchTargetsRequest.TargetID params)
             (fun l s => eq_refl) (fun l l' s => eq_refl)
             (fun s => match s with
                       | GetMatchTargetsResponse.mk (GetMatchTargetsResponse.MatchTargets_.mk _ _) =>
                           eq_refl
                       end)).
  rewrite (rangeFrom_put_filter
             (fun s => GetMatchTargetsResponse.MatchTargets_.APITargets
                         (GetMatchTargetsResponse.MatchTargets s))
             (fun l s => GetMatchTargetsResponse.mk
                           (GetMatchTargetsResponse.MatchTargets_.mk l
                              (GetMatchTargetsResponse.MatchTargets_.WebsiteTargets
                                 (GetMatchTargetsResponse.MatchTargets s))))
             (fun e => GetMatchTargetsResponse.MatchTargets_.APITargets_.TargetID e
                       =? GetMatchTargetsRequest.TargetID params)
             (fun l s => eq_refl) (fun l l' s => eq_refl)
             (fun s => match s with
                       | GetMatchTargetsResponse.mk (GetMatchTargetsResponse.MatchTargets_.mk _ _) =>
                           eq_refl
                       end)).
  reflexivity.
Qed.

(** [GetMatchTargets_post_filter] at two website targets and one API target,
    asked for target 7. *)
Lemma GetMatchTargets_post_filter_witness :
  let site (id : Z) := GetMatchTargetsResponse.MatchTargets_.WebsiteTargets_.mk
      1 2 "" false None 0 id "website" [] [] []
      (GetMatchTargetsResponse.MatchTargets_.WebsiteTargets_.SecurityPolicy_.mk "pol1") [] in
  let api (id : Z) := GetMatchTargetsResponse.MatchTargets_.APITargets_.mk
      "api" [] 0 id 1 2
      (GetMatchTargetsResponse.MatchTargets_.APITargets_.SecurityPolicy_.mk "pol1") [] in
  let result := GetMatchTargetsResponse.mk
      (GetMatchTargetsResponse.MatchTargets_.mk [api 9] [site 7; site 8]) in
  let p := mockServer 200 result in
  let params := GetMatchTargetsRequest.mk 1 2 7 in
  let req := http.mkRequest "GET"
               (url.mkURL "/appsec/v1/configs/1/versions/2/match-targets") [] in
  snd (run (GetMatchTargets p params)) = [mkCall req true []]
  /\ roundTrip p req [] = Normal (inl (http.mkResponse 200 [], result))
  /\ fst (run (GetMatchTargets p params))
     = Normal (Some (GetMatchTargetsResponse.mk
                       (GetMatchTargetsResponse.MatchTargets_.mk [] [site 7])), None).
Proof.
  cbv zeta. do 2 (split; [reflexivity|]).
  exact (GetMatchTargets_post_filter
           (mockServer 200 _) (GetMatchTargetsRequest.mk 1 2 7)
           _ true [] (http.mkResponse 200 []) _ eq_refl eq_refl eq_refl).
Defined.

(** The filter value of a list operation never reaches the server: the
    request a list operation sends is the same for every filter value. *)
Theorem filter_value_is_not_sent :
  (forall (p : appsec GetAttackGroupsResponse.t) c v pol g g',
      snd (run (GetAttackGroups p (GetAttackGroupsRequest.mk c v pol g)))
      = snd (run (GetAttackGroups p (GetAttackGroupsRequest.mk c v pol g'))))
  /\ (forall (p : appsec GetCustomDenyListResponse.t) c v i i',
      snd (run (GetCustomDenyList p (GetCustomDenyListRequest.mk c v i)))
      = snd (run (GetCustomDenyList p (GetCustomDenyListRequest.mk c v i'))))
  /\ (forall (p : appsec GetReputationProfilesResponse.t) c v i i',
      snd (run (GetReputationProfiles p (GetReputationProfilesRequest.mk c v i)))
      = snd (run (GetReputationProfiles p (GetReputationProfilesRequest.mk c v i'))))
  /\ (forall (p : appsec GetMatchTargetsResponse.t) c v i i',
      snd (run (GetMatchTargets p (GetMatchTargetsRequest.mk c v i)))
      = snd (run (GetMatchTargets p (GetMatchTargetsRequest.mk c v i')))).
Proof.
  repeat split; intros; open_op;
    cbv beta iota delta
      [GetAttackGroupsRequest.Validate GetAttackGroupsRequest.ConfigID
       GetAttackGroupsRequest.Version GetAttackGroupsRequest.PolicyID
       GetCustomDenyListRequest.Validate GetCustomDenyListRequest.ConfigID
       GetCustomDenyListRequest.Version
       GetReputationProfilesRequest.Validate GetReputationProfilesRequest.ConfigID
       GetReputationProfilesRequest.ConfigVersion
       GetMatchTargetsRequest.Validate GetMatchTargetsRequest.ConfigID
       GetMatchTargetsRequest.ConfigVersion];
    repeat step_op; reflexivity.
Qed.

(** ** The flexible-type decoders, further *)

(** The decoder of [customDenyID] never panics, although it uses unchecked
    type assertions.  The error it returns is the one of [json.Unmarshal]:
    there is one exactly for a text that is not JSON and for a JSON text
    with a number that does not convert to a [float64].  It changes the
    receiver only for a JSON string, which it stores. *)
Theorem customDenyID_UnmarshalJSON_never_panics (c : customDenyID.t) (data : json.document) :
  exists c' err,
    customDenyID.UnmarshalJSON c data = Normal (c', err)
    /\ err = snd (json.Unmarshal data any_nil)
    /\ (err = None <-> exists v, data = json.WellFormed v /\ json.conversionErrors v = [])
    /\ (c' = c \/ data = json.WellFormed (json.String c')).
Proof.
  destruct data as [e|v].
  - exists c, (Some e). split; [reflexivity|]. split; [reflexivity|]. split; [|now left].
    split; [discriminate|intros [v [H _]]; discriminate H].
  - rewrite customDenyID_UnmarshalJSON_total. do 2 eexists.
    split; [reflexivity|]. split; [symmetry; apply Unmarshal_WellFormed|]. split.
    + unfold json.savedError. split.
      * intros H. exists v. split; [reflexivity|].
        destruct (json.conversionErrors v); [reflexivity|discriminate H].
      * intros [v' [H E]]. inversion H; subst v'. now rewrite E.
    + destruct (json.savedError v); [now left|]. destruct v; auto.
Qed.

Lemma collectStrings_Normal (l : list json.value) (c c' : atomicConditionsName.t) :
  collectStrings (List.map json.toInterface l) c = Normal c' ->
  exists ss, l = List.map json.String ss /\ c' = c ++ ss.
Proof.
  revert c. induction l as [|x rest IH]; intros c H.
  - exists []. cbn in H. inversion H. now rewrite app_nil_r.
  - cbn [List.map collectStrings] in H.
    destruct (json.toInterface x) as [| | | |s| |] eqn:E; try discriminate H.
    apply toInterface_string in E. subst x.
    destruct (IH _ H) as [ss [-> ->]]. exists (s :: ss).
    split; [reflexivity|now rewrite <- app_assoc].
Qed.

(** On a JSON array the decoder of [atomicConditionsName] returns the
    elements, in their order, in place of the receiver when every element
    is a string.  When it returns otherwise, it returns the error of
    [json.Unmarshal] for a number of the array that does not convert, with
    the receiver as it was; on every other array it panics. *)
Theorem atomicConditionsName_UnmarshalJSON_array_of_strings
    (c : atomicConditionsName.t) (l : list json.value) :
  (forall ss, l = List.map json.String ss ->
     atomicConditionsName.UnmarshalJSON c (json.WellFormed (json.Array l)) = Normal (ss, None))
  /\ (forall r,
     atomicConditionsName.UnmarshalJSON c (json.WellFormed (json.Array l)) = Normal r ->
     (exists ss, l = List.map json.String ss /\ r = (ss, None))
     \/ (exists e, json.savedError (json.Array l) = Some e /\ r = (c, Some e)))
  /\ (json.savedError (json.Array l) = None ->
      (exists v, In v l /\ forall s, v <> json.String s) ->
      exists msg,
        atomicConditionsName.UnmarshalJSON c (json.WellFormed (json.Array l)) = Panic msg).
Proof.
  split; [|split].
  - intros ss ->. apply atomicConditionsName_UnmarshalJSON_strings.
  - intros r H. rewrite atomicConditionsName_UnmarshalJSON_array in H.
    destruct (json.savedError (json.Array l)) as [e|].
    + right. exists e. split; [reflexivity|]. now inversion H.
    + left.
      destruct (collectStrings (List.map json.toInterface l) []) as [c'|msg] eqn:E;
        cbn in H; [|discriminate H].
      destruct (collectStrings_Normal l [] c' E) as [ss [Hl Hc]].
      exists ss. split; [exact Hl|]. inversion H. now subst.
  - apply atomicConditionsName_UnmarshalJSON_panics.
Qed.

(** [atomicConditionsName_UnmarshalJSON_array_of_strings] at the array of the
    names [a] and [b], and at an array with a number beyond [float64]. *)
Lemma atomicConditionsName_UnmarshalJSON_array_of_strings_witness :
  atomicConditionsName.UnmarshalJSON ["old"]
    (json.WellFormed (json.Array [json.String "a"; json.String "b"]))
  = Normal (["a"; "b"], None)
  /\ atomicConditionsName.UnmarshalJSON ["old"]
       (json.WellFormed (json.Array [json.String "a"; json.Number "1e400"]))
     = Normal (["old"],
               Some (json.UnmarshalTypeError "number 1e400" "float64")).
Proof.
  split; [|vm_compute; reflexivity].
  exact (proj1 (atomicConditionsName_UnmarshalJSON_array_of_strings ["old"]
                  [json.String "a"; json.String "b"]) ["a"; "b"] eq_refl).
Defined.

Lemma decodeAll_app (vs ws : list json.value) (c : atomicConditionsName.t) :
  decodeAll (vs ++ ws) c
  = match decodeAll vs c with
    | Normal c' => decodeAll ws c'
    | Panic msg => Panic msg
    end.
Proof.
  revert c. induction vs as [|v rest IH]; intros c; cbn [app decodeAll]; [reflexivity|].
  destruct (atomicConditionsName.UnmarshalJSON c (json.WellFormed v)) as [[c' e]|msg];
    [apply IH|reflexivity].
Qed.

(** The decoder of [atomicConditionsName] appends a JSON string to the
    receiver and replaces the receiver by a JSON array: a receiver that is
    decoded into more than once collects the strings that follow each
    other, and starts again at an array of strings. *)
Theorem atomicConditionsName_strings_accumulate :
  (forall ss c, decodeAll (List.map json.String ss) c = Normal (c ++ ss))
  /\ (forall vs c c' ss,
        decodeAll vs c = Normal c' ->
        decodeAll (vs ++ [json.Array (List.map json.String ss)]) c = Normal ss).
Proof.
  split.
  - induction ss as [|s rest IH]; intros c; cbn [List.map decodeAll].
    + now rewrite app_nil_r.
    + rewrite atomicConditionsName_UnmarshalJSON_string, IH, <- app_assoc. reflexivity.
  - intros vs c c' ss H. rewrite decodeAll_app, H. cbn [decodeAll].
    now rewrite atomicConditionsName_UnmarshalJSON_strings.
Qed.

(** [atomicConditionsName_strings_accumulate] at two strings and then an
    array. *)
Lemma atomicConditionsName_strings_accumulate_witness :
  decodeAll [json.String "a"; json.String "b"] [] = Normal ["a"; "b"]
  /\ decodeAll ([json.String "a"; json.String "b"] ++ [json.Array [json.String "c"]]) []
     = Normal ["c"].
Proof.
  split; [reflexivity|].
  exact (proj2 atomicConditionsName_strings_accumulate
           [json.String "a"; json.String "b"] [] ["a"; "b"] ["c"] eq_refl).
Defined.

(** ** The URL and the identifiers *)

Lemma Itoa_inj (a b : Z) : strconv.Itoa a = strconv.Itoa b -> a = b.
Proof.
  unfold strconv.Itoa. intros H.
  assert (Hn : forall z, Z.to_int z <> Decimal.Pos Decimal.Nil
                         /\ Z.to_int z <> Decimal.Neg Decimal.Nil).
  { intros [|q|q]; cbn; split; try discriminate;
      intros E; inversion E as [E']; now apply DecimalPos.Unsigned.to_uint_nonnil in E'. }
  apply DecimalZ.to_int_inj.
  assert (E : Some (Z.to_int a) = Some (Z.to_int b)).
  { rewrite <- (NilZero.isi (Z.to_int a)), <- (NilZero.isi (Z.to_int b)) by apply Hn.
    now rewrite H. }
  now inversion E.
Qed.

(** Two texts that agree, each a part free of [c] followed by [c], agree
    part by part. *)
Lemma split_at_delimiter (c : ascii) (s1 s2 r1 r2 : string) :
  free c s1 = true -> free c s2 = true ->
  (s1 ++ String c r1)%string = (s2 ++ String c r2)%string ->
  s1 = s2 /\ r1 = r2.
Proof.
  revert s2. induction s1 as [|a s1 IH]; intros [|b s2] H1 H2 H; cbn in *.
  - inversion H. auto.
  - inversion H; subst. rewrite Ascii.eqb_refl in H2. discriminate H2.
  - inversion H; subst. rewrite Ascii.eqb_refl in H1. discriminate H1.
  - inversion H; subst.
    apply andb_prop in H1, H2. destruct H1 as [_ H1], H2 as [_ H2].
    destruct (IH s2 H1 H2 H4) as [-> ->]. auto.
Qed.

(** Read the identifiers off an equation between two URL texts. *)
Ltac split_url H :=
  repeat
    (cbn [append] in H;
     lazymatch type of H with
     | String _ _ = String _ _ => injection H as H
     | (strconv.Itoa ?a ++ String ?c ?r)%string = (strconv.Itoa ?b ++ String ?c ?r')%string =>
         let Hab := fresh "Hab" in
         let H' := fresh "H" in
         destruct (split_at_delimiter c _ _ _ _
                     (Itoa_free c a eq_refl) (Itoa_free c b eq_refl) H) as [Hab H'];
         clear H; rename H' into H;
         apply Itoa_inj in Hab
     | strconv.Itoa ?a = strconv.Itoa ?b => apply Itoa_inj in H
     end).

Lemma pathOf_determines_pathInts (o : operation) (a b : Request o) :
  pathOf o a = pathOf o b -> pathInts o a = pathInts o b.
Proof.
  intros H.
  destruct o; cbn [pathOf pathInts] in *; try reflexivity; split_url H; congruence.
Qed.

(** The request an operation sends holds what the URL parser made of the
    text [pathOf] (for the two operations that parse first, of the text of
    the parsed URL). *)
Lemma url_of_sent_request (o : operation) (p : appsec (Response o)) (params : Request o)
    (req : http.Request) (out : bool) (ins : list ExecIn) :
  snd (run (call o p params)) = [mkCall req out ins] ->
  if reparsed o
  then exists u, url_Parse p (pathOf o params) = inl u
                 /\ url_Parse p (url.String_ u) = inl (http.URL req)
  else url_Parse p (pathOf o params) = inl (http.URL req).
Proof.
  intros Hs.
  destruct o; cbn [reparsed]; run_op; eval_url; try assumption;
    match goal with
    | Hu : url_Parse _ _ = inl ?u |- exists _, _ => exists u; split; assumption
    end.
Qed.

(** With a parser that prints a URL as it was written, the URL of the
    request prints as the text [pathOf]. *)
Lemma url_of_sent_request_verbatim (o : operation) (p : appsec (Response o))
    (params : Request o) (req : http.Request) (out : bool) (ins : list ExecIn) :
  snd (run (call o p params)) = [mkCall req out ins] ->
  (forall u, url_Parse p (pathOf o params) = inl u -> url.String_ u = pathOf o params) ->
  url.String_ (http.URL req) = pathOf o params.
Proof.
  intros Hs Hw. pose proof (url_of_sent_request o p params req out ins Hs) as H.
  destruct (reparsed o).
  - destruct H as [u [Hu Hu']]. rewrite (Hw u Hu) in Hu'. exact (Hw _ Hu').
  - exact (Hw _ H).
Qed.

Lemma verbatim_prints (s : string) (u : url.URL) : verbatim s = inl u -> url.String_ u = s.
Proof. intros H. inversion H. reflexivity. Qed.

(** The URL tells the numeric identifiers: when two requests of one
    operation are sent with URLs that print the same, by parsers that print
    the two URLs as they were written, they have the same configuration,
    version and numeric resource identifier. *)
Theorem url_determines_numeric_identifiers
    (o : operation) (p q : appsec (Response o)) (a b : Request o)
    (req req' : http.Request) (out out' : bool) (ins ins' : list ExecIn) :
  snd (run (call o p a)) = [mkCall req out ins] ->
  snd (run (call o q b)) = [mkCall req' out' ins'] ->
  (forall u, url_Parse p (pathOf o a) = inl u -> url.String_ u = pathOf o a) ->
  (forall u, url_Parse q (pathOf o b) = inl u -> url.String_ u = pathOf o b) ->
  url.String_ (http.URL req) = url.String_ (http.URL req') ->
  pathInts o a = pathInts o b.
Proof.
  intros Ha Hb Hp Hq Hu. apply pathOf_determines_pathInts.
  rewrite <- (url_of_sent_request_verbatim o p a req out ins Ha Hp).
  rewrite <- (url_of_sent_request_verbatim o q b req' out' ins' Hb Hq).
  exact Hu.
Qed.

(** [url_determines_numeric_identifiers] at two different attack group
    lookups that send the same URL. *)
Lemma url_determines_numeric_identifiers_witness :
  let p := mockServer 200 (zero : GetAttackGroupResponse.t) in
  let a := GetAttackGroupRequest.mk 1 2 "pol1" "SQL/attack-groups/XSS" in
  let b := GetAttackGroupRequest.mk 1 2 "pol1/attack-groups/SQL" "XSS" in
  let req := http.mkRequest "GET"
      (url.mkURL
         "/appsec/v1/configs/1/versions/2/security-policies/pol1/attack-groups/SQL/attack-groups/XSS?includeConditionException=true")
      [] in
  snd (run (GetAttackGroup p a)) = [mkCall req true []]
  /\ snd (run (GetAttackGroup p b)) = [mkCall req true []]
  /\ (forall u, url_Parse p (pathOf op_GetAttackGroup a) = inl u ->
      url.String_ u = pathOf op_GetAttackGroup a)
  /\ (forall u, url_Parse p (pathOf op_GetAttackGroup b) = inl u ->
      url.String_ u = pathOf op_GetAttackGroup b)
  /\ a <> b
  /\ pathInts op_GetAttackGroup a = pathInts op_GetAttackGroup b.
Proof.
  cbv zeta. do 2 (split; [reflexivity|]).
  do 2 (split; [exact (verbatim_prints _)|]).
  split; [discriminate|].
  exact (url_determines_numeric_identifiers op_GetAttackGroup
           (mockServer 200 zero) (mockServer 200 zero)
           (GetAttackGroupRequest.mk 1 2 "pol1" "SQL/attack-groups/XSS")
           (GetAttackGroupRequest.mk 1 2 "pol1/attack-groups/SQL" "XSS")
           _ _ true true [] [] eq_refl eq_refl
           (verbatim_prints _) (verbatim_prints _) eq_refl).
Defined.

(** String path parameters are put into the URL as they are: a policy and
    a group that contain the separator of the path are not told apart, and
    two different attack group lookups send the same request. *)
Theorem string_path_parameters_are_not_escaped
    (p : appsec GetAttackGroupResponse.t) (c v : Z) (x y z : string) :
  c <> 0 -> v <> 0 -> x <> "" ->
  let a := GetAttackGroupRequest.mk c v x (y ++ "/attack-groups/" ++ z)%string in
  let b := GetAttackGroupRequest.mk c v (x ++ "/attack-groups/" ++ y)%string z in
  GetAttackGroupRequest.Validate a = None
  /\ GetAttackGroupRequest.Validate b = None
  /\ snd (run (GetAttackGroup p a)) = snd (run (GetAttackGroup p b)).
Proof.
  intros Hc Hv Hx a b.
  assert (Va : GetAttackGroupRequest.Validate a = None).
  { apply (Validate_None_iff op_GetAttackGroup a). cbn [requiredFields In].
    intros k w [H|[H|[H|[]]]]; inversion H; subst; cbn.
    - now apply Z.eqb_neq. - now apply Z.eqb_neq. - now destruct x. }
  assert (Vb : GetAttackGroupRequest.Validate b = None).
  { apply (Validate_None_iff op_GetAttackGroup b). cbn [requiredFields In].
    intros k w [H|[H|[H|[]]]]; inversion H; subst; cbn.
    - now apply Z.eqb_neq. - now apply Z.eqb_neq. - now destruct x. }
  split; [exact Va|]. split; [exact Vb|].
  assert (Hu : pathOf op_GetAttackGroup a = pathOf op_GetAttackGroup b).
  { subst a b.
    cbn [pathOf GetAttackGroupRequest.ConfigID GetAttackGroupRequest.Version
         GetAttackGroupRequest.PolicyID GetAttackGroupRequest.Group].
    now rewrite !append_assoc. }
  open_op. rewrite Va, Vb. eval_url. rewrite Hu.
  repeat step_op; reflexivity.
Qed.

(** [string_path_parameters_are_not_escaped] at the policy [pol1] and the
    groups [SQL/attack-groups/XSS] and [XSS]. *)
Lemma string_path_parameters_are_not_escaped_witness :
  let p := mockServer 200 (zero : GetAttackGroupResponse.t) in
  snd (run (GetAttackGroup p (GetAttackGroupRequest.mk 1 2 "pol1" "SQL/attack-groups/XSS")))
  = snd (run (GetAttackGroup p (GetAttackGroupRequest.mk 1 2 "pol1/attack-groups/SQL" "XSS"))).
Proof.
  exact (proj2 (proj2 (string_path_parameters_are_not_escaped
           (mockServer 200 zero) 1 2 "pol1" "SQL" "XSS"
           ltac:(discriminate) ltac:(discriminate) ltac:(discriminate)))).
Defined.
